(** * LICS: verification of the per-site extraction engine

    A shallow embedding of the scraping core of the repository
    (services/scraper.py, services/schools/ism_scraper.py,
    services/schools/bsm_scraper.py and the dispatcher of app.py) and the
    properties of its specification.

    Python [str] values are modelled as [string] (code points below 256),
    dictionaries as insertion-ordered association lists, the BeautifulSoup
    tree as an inductive [node], and the effects of a scrape (HTTP fetches,
    exceptions, the rendering-engine teardown) as a state-and-exception
    monad [M]. *)

From Stdlib Require Import List String Ascii Bool Arith ZArith Lia.
From Stdlib Require Import Permutation Sorted OrderedTypeEx.
Import ListNotations.

Open Scope string_scope.
Open Scope list_scope.

Set Warnings "-register-all".

(* ===================================================================== *)
(** * Python strings *)
(* ===================================================================== *)

Module Py.

(** [str.isspace] on one code point below 256: TAB..CR, FS..US, SPACE,
    NEL and NBSP.  The same set is what [\s] matches in a [str] pattern. *)
Definition isspace (c : ascii) : bool :=
  let n := nat_of_ascii c in
  (Nat.leb 9 n && Nat.leb n 13) || (Nat.leb 28 n && Nat.leb n 32)
  || Nat.eqb n 133 || Nat.eqb n 160.

(** [str.upper] and [str.lower] on ASCII letters; other code points are
    left as they are (the scraped keywords and names are ASCII). *)
Definition upper_char (c : ascii) : ascii :=
  let n := nat_of_ascii c in
  if Nat.leb 97 n && Nat.leb n 122 then ascii_of_nat (n - 32) else c.

Definition lower_char (c : ascii) : ascii :=
  let n := nat_of_ascii c in
  if Nat.leb 65 n && Nat.leb n 90 then ascii_of_nat (n + 32) else c.

Fixpoint map_chars (f : ascii -> ascii) (s : string) : string :=
  match s with
  | EmptyString => EmptyString
  | String c s' => String (f c) (map_chars f s')
  end.

Definition upper (s : string) : string := map_chars upper_char s.
Definition lower (s : string) : string := map_chars lower_char s.

(** [needle in hay] *)
Fixpoint contains (needle hay : string) : bool :=
  if String.prefix needle hay then true
  else match hay with
       | EmptyString => false
       | String _ hay' => contains needle hay'
       end.

(** [s.startswith(p)] *)
Definition startswith (p s : string) : bool := String.prefix p s.

(** [s.lstrip()], [s.rstrip()], [s.strip()] *)
Fixpoint lstrip (s : string) : string :=
  match s with
  | EmptyString => EmptyString
  | String c s' => if isspace c then lstrip s' else s
  end.

Fixpoint rstrip (s : string) : string :=
  match s with
  | EmptyString => EmptyString
  | String c s' =>
      match rstrip s' with
      | EmptyString => if isspace c then EmptyString else String c EmptyString
      | r => String c r
      end
  end.

Definition strip (s : string) : string := rstrip (lstrip s).

(** [s.split()]: the maximal runs of non-whitespace characters.  [cur] is
    the word being read, in reverse. *)
Definition rev_string (s : list ascii) : string :=
  string_of_list_ascii (List.rev s).

Fixpoint split_aux (cur : list ascii) (s : string) : list string :=
  match s with
  | EmptyString =>
      match cur with [] => [] | _ => [rev_string cur] end
  | String c s' =>
      if isspace c
      then match cur with
           | [] => split_aux [] s'
           | _ => rev_string cur :: split_aux [] s'
           end
      else split_aux (c :: cur) s'
  end.

Definition split (s : string) : list string := split_aux [] s.

(** [s.replace(" ", "")] *)
Fixpoint remove_spaces (s : string) : string :=
  match s with
  | EmptyString => EmptyString
  | String c s' =>
      if Ascii.eqb c " "%char then remove_spaces s'
      else String c (remove_spaces s')
  end.

(** [sep.join(l)] *)
Fixpoint join (sep : string) (l : list string) : string :=
  match l with
  | [] => EmptyString
  | [x] => x
  | x :: rest => x ++ sep ++ join sep rest
  end.

(** [s[:n]] for [n >= 0] *)
Fixpoint slice_to (n : nat) (s : string) : string :=
  match n, s with
  | O, _ => EmptyString
  | _, EmptyString => EmptyString
  | S n', String c s' => String c (slice_to n' s')
  end.

(** [s[0]] of a non-empty string *)
Definition first_char (s : string) : option ascii :=
  match s with
  | EmptyString => None
  | String c _ => Some c
  end.

(** truth value of a string: [bool(s)] *)
Definition truthy (s : string) : bool :=
  match s with EmptyString => false | _ => true end.

(** [re.sub(p+, rep, s)] for a one-character class [p]: every maximal run
    of characters of the class becomes one [rep]. *)
Fixpoint collapse_runs (p : ascii -> bool) (rep : ascii) (in_run : bool)
  (s : string) : string :=
  match s with
  | EmptyString => EmptyString
  | String c s' =>
      if p c
      then if in_run then collapse_runs p rep true s'
           else String rep (collapse_runs p rep true s')
      else String c (collapse_runs p rep false s')
  end.

(** [re.sub(r'\s+', ' ', s)] *)
Definition sub_whitespace (s : string) : string :=
  collapse_runs isspace " "%char false s.

(** [re.sub(r'\n+', '\n', s)] *)
Definition is_newline (c : ascii) : bool := Ascii.eqb c "010"%char.
Definition sub_newlines (s : string) : string :=
  collapse_runs is_newline "010"%char false s.

(** [re.sub(r'<[^>]+>', '', s)]: a ['<'], one or more characters other
    than ['>'], and a ['>'] are removed, leftmost match first.  [pending]
    holds, in reverse, the characters read since a ['<'] that may still
    turn out to open a match. *)
Fixpoint strip_markup_aux (pending : option (list ascii)) (s : string)
  : string :=
  match s with
  | EmptyString =>
      match pending with
      | None => EmptyString
      | Some p => rev_string p
      end
  | String c s' =>
      match pending with
      | None =>
          if Ascii.eqb c "<"%char then strip_markup_aux (Some [c]) s'
          else String c (strip_markup_aux None s')
      | Some p =>
          if Ascii.eqb c ">"%char
          then match p with
               | [_] => (* "<>" is no match *)
                   rev_string (c :: p) ++ strip_markup_aux None s'
               | _ => strip_markup_aux None s'
               end
          else strip_markup_aux (Some (c :: p)) s'
      end
  end.

Definition strip_markup (s : string) : string := strip_markup_aux None s.

(** [s.split('\n')[0]] *)
Fixpoint first_line (s : string) : string :=
  match s with
  | EmptyString => EmptyString
  | String c s' => if is_newline c then EmptyString else String c (first_line s')
  end.

(** [re.sub(r':$', '', s)] for a string that does not end with a newline *)
Fixpoint drop_final_colon (s : string) : string :=
  match s with
  | EmptyString => EmptyString
  | String c EmptyString => if Ascii.eqb c ":"%char then EmptyString else s
  | String c s' => String c (drop_final_colon s')
  end.

(** ** Dictionaries

    A [dict] keeps its keys in insertion order; [d[k] = v] replaces the
    value of a key that is present (the key keeps its place) and appends
    a new key otherwise. *)
Definition dict (V : Type) := list (string * V).

Fixpoint dict_set {V : Type} (k : string) (v : V) (d : dict V) : dict V :=
  match d with
  | [] => [(k, v)]
  | (k', v') :: d' =>
      if String.eqb k k' then (k', v) :: d'
      else (k', v') :: dict_set k v d'
  end.

Fixpoint dict_get {V : Type} (k : string) (d : dict V) : option V :=
  match d with
  | [] => None
  | (k', v) :: d' => if String.eqb k k' then Some v else dict_get k d'
  end.

Definition keys {V : Type} (d : dict V) : list string := map fst d.

(** [bool(d)] and [bool(l)]: non-empty *)
Definition nonempty {A : Type} (l : list A) : bool :=
  match l with [] => false | _ => true end.

(** [collections.Counter(l)]: the elements in order of first occurrence,
    each with the number of its occurrences. *)
Fixpoint counter_add (x : string) (c : dict nat) : dict nat :=
  match c with
  | [] => [(x, 1)]
  | (k, n) :: c' =>
      if String.eqb x k then (k, S n) :: c'
      else (k, n) :: counter_add x c'
  end.

Definition Counter (l : list string) : dict nat :=
  fold_left (fun c x => counter_add x c) l [].

(** ** Sorting

    [l.sort(key=...)] and [sorted(l, key=..., reverse=True)] are stable:
    elements with equal keys keep their order.  An element is inserted
    in front of the first later element whose key is not smaller
    (not greater, when reversed). *)
Fixpoint insert_by {A : Type} (key : A -> Z) (x : A) (l : list A) : list A :=
  match l with
  | [] => [x]
  | y :: l' =>
      if Z.leb (key x) (key y) then x :: l
      else y :: insert_by key x l'
  end.

Definition sort_by {A : Type} (key : A -> Z) (l : list A) : list A :=
  fold_right (insert_by key) [] l.

Definition sorted_reverse {A : Type} (key : A -> Z) (l : list A) : list A :=
  sort_by (fun x => Z.opp (key x)) l.

(** [enumerate(l)] *)
Definition enumerate {A : Type} (l : list A) : list (nat * A) :=
  combine (seq 0 (List.length l)) l.

(** ** [int(s)]

    An optional sign and decimal digits, single underscores allowed
    between digits, blanks around; [None] stands for [ValueError]. *)
Definition digit_val (c : ascii) : option Z :=
  let n := nat_of_ascii c in
  if Nat.leb 48 n && Nat.leb n 57 then Some (Z.of_nat (n - 48)) else None.

Fixpoint parse_digits (acc : Z) (after_digit : bool) (s : string) : option Z :=
  match s with
  | EmptyString => if after_digit then Some acc else None
  | String c s' =>
      match digit_val c with
      | Some d => parse_digits (10 * acc + d) true s'
      | None =>
          if Ascii.eqb c "_"%char && after_digit
          then parse_digits acc false s'
          else None
      end
  end.

Definition int (s : string) : option Z :=
  match strip s with
  | String "+"%char r => parse_digits 0 false r
  | String "-"%char r => option_map Z.opp (parse_digits 0 false r)
  | r => parse_digits 0 false r
  end.

(** ** More of [str], and sorting by an order

    [s.endswith(p)]: [p] is one of the suffixes of [s]. *)
Fixpoint endswith (p s : string) : bool :=
  String.eqb p s
  || match s with
     | EmptyString => false
     | String _ s' => endswith p s'
     end.

(** [s[:-n]] for [n > 0] *)
Definition drop_last (n : nat) (s : string) : string :=
  String.substring 0 (String.length s - n) s.

(** [s.replace(old, new)] for a non-empty [old]: the occurrences of [old]
    that do not overlap, leftmost first.  [skip] counts the characters of
    the occurrence just replaced that are still to be passed over. *)
Fixpoint replace_aux (old new : string) (skip : nat) (s : string) : string :=
  match s with
  | EmptyString => EmptyString
  | String c s' =>
      match skip with
      | S k => replace_aux old new k s'
      | O =>
          if String.prefix old s
          then new ++ replace_aux old new (String.length old - 1) s'
          else String c (replace_aux old new 0 s')
      end
  end.

Definition replace (old new s : string) : string := replace_aux old new 0 s.

(** [sorted(l)] by an order [le] that is given as a test; stable, as
    [sort_by] is. *)
Fixpoint insert_le {A : Type} (le : A -> A -> bool) (x : A) (l : list A)
  : list A :=
  match l with
  | [] => [x]
  | y :: l' => if le x y then x :: l else y :: insert_le le x l'
  end.

Definition sort_le {A : Type} (le : A -> A -> bool) (l : list A) : list A :=
  fold_right (insert_le le) [] l.

(** [sorted(l, reverse=True)] of strings, which compare by code point *)
Definition sorted_strings_reverse (l : list string) : list string :=
  sort_le (fun x y => String.leb y x) l.

End Py.

(* ===================================================================== *)
(** * The BeautifulSoup tree *)
(* ===================================================================== *)

Module Soup.

Definition attrs := list (string * string).

(** A parsed document: text nodes and tags with attributes and children. *)
Inductive node :=
| NavigableString (s : string)
| Tag (name : string) (attributes : attrs) (contents : list node).

(** A tag as the scraper holds it: the tag itself, the start tags of its
    ancestors, nearest first (what [.parent] walks through, and what a
    descendant selector is matched against), and the tags that follow its
    start tag in the document, its own descendants first (what
    [.next_elements] walks through). *)
Inductive element := Build_element {
  ancestors : list (string * attrs);
  el_name : string;
  el_attrs : attrs;
  el_contents : list node;
  next_elements : list element
}.

Fixpoint get_attr (k : string) (a : attrs) : option string :=
  match a with
  | [] => None
  | (k', v) :: a' => if String.eqb k k' then Some v else get_attr k a'
  end.

(** the [class] attribute is a whitespace-separated list *)
Definition classes (a : attrs) : list string :=
  match get_attr "class" a with
  | Some v => Py.split v
  | None => []
  end.

Definition mem (x : string) (l : list string) : bool :=
  existsb (String.eqb x) l.

(** The tags of a node in document order, the node itself first, put in
    front of the tags [after] that follow the node. *)
Fixpoint elements_of (anc : list (string * attrs)) (n : node)
  (after : list element) : list element :=
  match n with
  | NavigableString _ => after
  | Tag name a cs =>
      let inside :=
        fold_right (fun c acc => elements_of ((name, a) :: anc) c acc)
                   after cs in
      {| ancestors := anc; el_name := name; el_attrs := a; el_contents := cs;
         next_elements := inside |} :: inside
  end.

(** [BeautifulSoup(html, 'html.parser')] yields the root object. *)
Definition document (contents : list node) : element :=
  {| ancestors := []; el_name := "[document]"; el_attrs := [];
     el_contents := contents;
     next_elements :=
       fold_right (fun c acc => elements_of [("[document]", [])] c acc)
                  [] contents |}.

(** the number of tags in a node *)
Fixpoint count_tags (n : node) : nat :=
  match n with
  | NavigableString _ => 0
  | Tag _ _ cs => S (list_sum (map count_tags cs))
  end.

(** [tag.descendants] that are tags, and [tag.children] that are tags *)
Definition descendants (e : element) : list element :=
  firstn (list_sum (map count_tags (el_contents e))) (next_elements e).

Definition child_elements (e : element) : list element :=
  filter (fun d => Nat.eqb (List.length (ancestors d))
                           (S (List.length (ancestors e))))
         (descendants e).

(** ** Text *)

Fixpoint strings (n : node) : list string :=
  match n with
  | NavigableString s => [s]
  | Tag _ _ cs => flat_map strings cs
  end.

Definition all_strings (e : element) : list string :=
  flat_map strings (el_contents e).

(** [tag.get_text()] and [tag.text] *)
Definition get_text (e : element) : string :=
  String.concat "" (all_strings e).

(** [tag.get_text(strip=True, separator=sep)]: every string stripped, the
    empty ones dropped. *)
Definition stripped_strings (e : element) : list string :=
  filter Py.truthy (map Py.strip (all_strings e)).

Definition get_text_strip_sep (sep : string) (e : element) : string :=
  Py.join sep (stripped_strings e).

(** [tag.get_text(strip=True)] *)
Definition get_text_strip (e : element) : string :=
  get_text_strip_sep "" e.

(** ** Searching *)

(** [tag.find_all(names)] and [tag.find_all(name)] *)
Definition find_all (names : list string) (e : element) : list element :=
  filter (fun d => mem (el_name d) names) (descendants e).

(** [tag.find_all(name, recursive=False)] *)
Definition find_all_children (names : list string) (e : element)
  : list element :=
  filter (fun d => mem (el_name d) names) (child_elements e).

(** [tag.find_all(names, class_=True)] *)
Definition find_all_with_class (names : list string) (e : element)
  : list element :=
  filter (fun d => mem (el_name d) names &&
                   match get_attr "class" (el_attrs d) with
                   | Some _ => true
                   | None => false
                   end) (descendants e).

(** [tag.find_all(lambda tag: ...)] *)
Definition find_all_by (p : element -> bool) (e : element) : list element :=
  filter p (descendants e).

(** ** CSS selectors

    The selectors of the scrapers are lists (comma) of descendant chains
    (blank) of compound selectors [tag#id.class1.class2]. *)
Record compound := {
  c_tag : option string;
  c_id : option string;
  c_classes : list string
}.

Definition compound_matches (c : compound) (t : string * attrs) : bool :=
  match c_tag c with
  | Some n => String.eqb n (fst t)
  | None => true
  end
  && match c_id c with
     | Some i => match get_attr "id" (snd t) with
                 | Some v => String.eqb i v
                 | None => false
                 end
     | None => true
     end
  && forallb (fun k => mem k (classes (snd t))) (c_classes c).

(** [chain] is a descendant chain, innermost compound first; [anc] the
    start tags of the ancestors of an element, nearest first. *)
Fixpoint ancestors_match (chain : list compound) (anc : list (string * attrs))
  : bool :=
  match chain with
  | [] => true
  | c :: chain' =>
      (fix find (l : list (string * attrs)) : bool :=
         match l with
         | [] => false
         | t :: l' =>
             if compound_matches c t then ancestors_match chain' l'
             else find l'
         end) anc
  end.

Definition chain_matches (chain : list compound) (e : element) : bool :=
  match chain with
  | [] => false
  | c :: chain' =>
      compound_matches c (el_name e, el_attrs e)
      && ancestors_match chain' (ancestors e)
  end.

Definition selector := list (list compound).

(** [tag.select(selector)] and [tag.select_one(selector)] *)
Definition select (sel : selector) (e : element) : list element :=
  filter (fun d => existsb (fun chain => chain_matches chain d) sel)
         (descendants e).

Definition select_one (sel : selector) (e : element) : option element :=
  hd_error (select sel e).

(** Writing selectors: [tag.k1.k2], [.k], [#i], [a b] and [s1, s2]. *)
Definition tag_ (t : string) (ks : list string) : compound :=
  {| c_tag := Some t; c_id := None; c_classes := ks |}.
Definition class_ (k : string) : compound :=
  {| c_tag := None; c_id := None; c_classes := [k] |}.
Definition id_ (i : string) : compound :=
  {| c_tag := None; c_id := Some i; c_classes := [] |}.
(** a chain is written outermost first, as in the source *)
Definition chain (cs : list compound) : list compound := List.rev cs.
Definition one (c : compound) : selector := [[c]].

(** [for t in soup(names): t.extract()] *)
Fixpoint without_tags (names : list string) (n : node) : list node :=
  match n with
  | NavigableString s => [n]
  | Tag name a cs =>
      if mem name names then []
      else [Tag name a (flat_map (without_tags names) cs)]
  end.

(** on the root object *)
Definition extract_all (names : list string) (soup : element) : element :=
  document (flat_map (without_tags names) (el_contents soup)).

(** ** [find] and [find_next] *)

(** [tag.find(names)] *)
Definition find_tag (names : list string) (e : element) : option element :=
  hd_error (find_all names e).

(** [tag.find_next(name)]: the first tag of that name after the start of
    [tag] *)
Definition find_next (name : string) (e : element) : option element :=
  find (fun d => String.eqb (el_name d) name) (next_elements e).

(** [tag.string]: the text of a tag whose only child is a string, or a
    tag of which this holds *)
Fixpoint node_string (n : node) : option string :=
  match n with
  | NavigableString s => Some s
  | Tag _ _ cs =>
      match cs with
      | [c] => node_string c
      | _ => None
      end
  end.

Definition tag_string (e : element) : option string :=
  match el_contents e with
  | [c] => node_string c
  | _ => None
  end.

(** [tag.find(names, string=lambda s: s and word in s)] *)
Definition find_with_string (names : list string) (word : string)
  (e : element) : option element :=
  find (fun d => mem (el_name d) names
                 && match tag_string d with
                    | Some s => Py.truthy s && Py.contains word s
                    | None => false
                    end) (descendants e).

(** [tag.get(k, '')] *)
Definition get (k : string) (e : element) : string :=
  match get_attr k (el_attrs e) with
  | Some v => v
  | None => ""
  end.

End Soup.

(* ===================================================================== *)
(** * Effects: fetches, exceptions and the rendering engine *)
(* ===================================================================== *)

Module Eff.

(** A raised exception of class [Exception]: its class name and the text
    [str(e)].  ([KeyboardInterrupt] and the other classes that
    [except Exception] lets through are outside the model.) *)
Inductive exn := Exception (cls : string) (msg : string).

Definition str (e : exn) : string :=
  match e with Exception _ msg => msg end.

Inductive outcome (A : Type) :=
| Return (a : A)
| Raise (e : exn).
Arguments Return {A} a.
Arguments Raise {A} e.

(** What the scrapers are run against.  [http_get url] is
    [(await session_manager.get(url)).text]; [parse_html] is
    [BeautifulSoup(text, 'html.parser')]; [close_browser] is the body of
    [services.playwright_manager.close_playwright], which the aggregate
    [scrape] methods call and which, as its callers and the specification
    expect, may fail.  Each may depend on, and change, the state [World]
    of the network and of the browser. *)
Class Environment := {
  World : Type;
  http_get : string -> World -> outcome string * World;
  parse_html : string -> Soup.element;
  close_browser : World -> outcome unit * World
}.

(** ** Extraction results

    The dictionary [{"status": ..., "message": ..., "data": ...}] a
    category method returns; [message] and [data] may be absent. *)
Record result (A : Type) := {
  status : string;
  message : option string;
  data : option A
}.
Arguments status {A} r.
Arguments message {A} r.
Arguments data {A} r.

Definition success {A : Type} (d : A) : result A :=
  {| status := "success"; message := None; data := Some d |}.
Definition partial {A : Type} (msg : string) (d : A) : result A :=
  {| status := "partial"; message := Some msg; data := Some d |}.
Definition warning {A : Type} (msg : string) (d : A) : result A :=
  {| status := "warning"; message := Some msg; data := Some d |}.
Definition skipped {A : Type} (msg : string) : result A :=
  {| status := "skipped"; message := Some msg; data := None |}.
Definition not_implemented {A : Type} (msg : string) : result A :=
  {| status := "not_implemented"; message := Some msg; data := None |}.
Definition error {A : Type} (msg : string) : result A :=
  {| status := "error"; message := Some msg; data := None |}.

(** the six status variants of the specification *)
Definition status_variants : list string :=
  ["success"; "partial"; "warning"; "skipped"; "not_implemented"; "error"].

(** One field of the aggregate record: the payload itself, or the whole
    status dictionary. *)
Inductive field (A : Type) :=
| Payload (d : A)
| Wrapper (r : result A).
Arguments Payload {A} d.
Arguments Wrapper {A} r.

Section Monad.
Context {E : Environment}.

(** The state of a run: the world and the number of times the teardown
    routine has been invoked so far. *)
Record state := {
  world : World;
  teardowns : nat
}.

Definition M (A : Type) : Type := state -> outcome A * state.

Definition ret {A : Type} (a : A) : M A := fun s => (Return a, s).

Definition bind {A B : Type} (m : M A) (k : A -> M B) : M B :=
  fun s =>
    match m s with
    | (Return a, s') => k a s'
    | (Raise e, s') => (Raise e, s')
    end.

Definition raise {A : Type} (e : exn) : M A := fun s => (Raise e, s).

(** [try: m  except Exception as e: h e] *)
Definition try_except {A : Type} (m : M A) (h : exn -> M A) : M A :=
  fun s =>
    match m s with
    | (Return a, s') => (Return a, s')
    | (Raise e, s') => h e s'
    end.

(** lifting a computation that may raise but touches no state *)
Definition lift {A : Type} (o : outcome A) : M A := fun s => (o, s).

(** [await self.session_manager.get(url)] followed by [.text] *)
Definition session_get (url : string) : M string :=
  fun s =>
    let (r, w) := http_get url (world s) in
    (r, {| world := w; teardowns := teardowns s |}).

(** [await close_playwright()] *)
Definition close_playwright : M unit :=
  fun s =>
    let (r, w) := close_browser (world s) in
    (r, {| world := w; teardowns := S (teardowns s) |}).

(** The six ways in which the body of a category method ends with a
    [return]: the dictionary literals of the seven site extractors. *)
Inductive reply (A : Type) :=
| Success (d : A)
| Partial (msg : string) (d : A)
| Warning (msg : string) (d : A)
| Skipped (msg : string)
| NotImplemented (msg : string)
| Error (msg : string).
Arguments Success {A} d.
Arguments Partial {A} msg d.
Arguments Warning {A} msg d.
Arguments Skipped {A} msg.
Arguments NotImplemented {A} msg.
Arguments Error {A} msg.

Definition dictionary {A : Type} (r : reply A) : result A :=
  match r with
  | Success d => success d
  | Partial msg d => partial msg d
  | Warning msg d => warning msg d
  | Skipped msg => skipped msg
  | NotImplemented msg => not_implemented msg
  | Error msg => error msg
  end.

(** The frame of a category method:
    [try: body  except Exception as e: return {"status": "error",
    "message": str(e)}]. *)
Definition guarded {A : Type} (body : M (result A)) : M (result A) :=
  try_except body (fun e => ret (error (str e))).

(** A category method in general: a body that fetches and reads pages in
    any way, may raise anywhere, and ends with one of the six [return]
    statements, inside the frame. *)
Definition category_method {A : Type} (body : M (reply A)) : M (result A) :=
  guarded (bind body (fun r => ret (dictionary r))).

End Monad.

Declare Scope eff_scope.
Delimit Scope eff_scope with eff.
Notation "x <- m ;; k" := (bind m (fun x => k))
  (at level 100, m at next level, right associativity) : eff_scope.
Notation "m ;;; k" := (bind m (fun _ => k))
  (at level 100, right associativity) : eff_scope.

End Eff.

(* ===================================================================== *)
(** * services/schools/ism_scraper.py *)
(* ===================================================================== *)

Module ISM.
Import Soup Eff.
Local Open Scope eff_scope.

Definition base_url : string := "https://www.ismanila.org".
Definition name : string := "International School Manila".
Definition short_name : string := "ISM".

(** ** Payloads *)

Record fee := {
  annual : string;
  semester1 : string;
  semester2 : string
}.

Record tuition_data := {
  regular_program : Py.dict fee;
  specialized_program : Py.dict fee;
  additional_fees : Py.dict string;
  other_fees : Py.dict string
}.

Record program := {
  type : string;
  description : string
}.

Record curriculum_data := {
  cur_regular_program : Py.dict program;
  cur_specialized_program : Py.dict program;
  additional_programs : Py.dict program
}.

Record form := {
  form_name : string;
  form_url : string
}.

Record grade_data := {
  forms : list form;
  requirements : list string
}.

Record step := {
  title : string;
  step_description : string;
  items : option (list string)
}.

Record enrollment_data := {
  overview : string;
  steps : list step;
  common_requirements : list string;
  grade_requirements : Py.dict grade_data
}.

(** The parts of the page readers that are not spelled out here, all of
    them readers by regular expression: the fee lists of the rich-text
    block of the fees page (lines 131-181), and the bodies of
    [scrape_scholarships] and [scrape_contact_info] between the parse and
    the final [return]. *)
Class Readers := {
  rich_text_fees : element -> element -> Py.dict string * Py.dict string;
  scholarship_data : Type;
  read_scholarships : element -> outcome scholarship_data;
  contact_data : Type;
  read_contact : string -> element -> outcome contact_data
}.

(** the value of [current_section] *)
Inductive section := Regular | Specialized.

(** The text of the cells of a row:
    [[c.get_text(strip=True) for c in row.find_all(['td', 'th'])]].  The
    scans read the cells of a row through [len(cells)] and the stripped
    text of the first four only. *)
Definition cell_texts (row : element) : list string :=
  map get_text_strip (find_all ["td"; "th"] row).

Definition rows_of (table : element) : list (list string) :=
  map cell_texts (find_all ["tr"] table).

Definition cell (i : nat) (cells : list string) : string := nth i cells "".

Definition is_regular_header (text : string) : bool :=
  Py.contains "REGULAR PROGRAM" (Py.upper text).

Definition is_specialized_header (text : string) : bool :=
  Py.contains "SPECIALIZED" (Py.upper text)
  && Py.contains "PROGRAM" (Py.upper text).

(** the test of lines 203, 295 and 346 *)
Definition is_regular_header_alt (text : string) : bool :=
  Py.contains "REGULAR PROGRAM" (Py.upper text)
  || (Py.contains "REGULAR" (Py.upper text)
      && Py.contains "PROGRAM" (Py.upper text)).

(** The state of a scan: [current_section] and the two program
    dictionaries of [tuition_data]. *)
Definition scan_state : Type := option section * (Py.dict fee * Py.dict fee).

Definition attribute (cur : option section) (pname : string) (f : fee)
  (d : Py.dict fee * Py.dict fee) : Py.dict fee * Py.dict fee :=
  match cur with
  | Some Regular => (Py.dict_set pname f (fst d), snd d)
  | Some Specialized => (fst d, Py.dict_set pname f (snd d))
  | None => d
  end.

(** One turn of the loop of lines 64-123. *)
Definition scan_row (st : scan_state) (cells : list string) : scan_state :=
  let (cur, d) := st in
  if Nat.ltb (List.length cells) 2 then st
  else
    let program_content := cell 0 cells in
    if negb (Py.truthy program_content) then st
    else if is_regular_header program_content then (Some Regular, d)
    else if is_specialized_header program_content then (Some Specialized, d)
    else if Nat.ltb (List.length cells) 4
            || match cur with None => true | Some _ => false end
    then st
    else
      let annual_fee := cell 1 cells in
      let semester1_fee := cell 2 cells in
      let semester2_fee := cell 3 cells in
      if negb (Py.truthy annual_fee) then st
      else
        let program_name := Py.strip (Py.strip_markup program_content) in
        (cur, attribute cur program_name
                {| annual := annual_fee; semester1 := semester1_fee;
                   semester2 := semester2_fee |} d).

(** The loop of lines 61-123 over the rows of [table.table]. *)
Definition scan_table (rows : list (list string)) : scan_state :=
  fold_left scan_row rows (None, ([], [])).

(** One turn of the inner loop of lines 195-241. *)
Definition alt_scan_row (st : scan_state) (cells : list string) : scan_state :=
  let (cur, d) := st in
  if Nat.ltb (List.length cells) 1 then st
  else
    let first_cell := cell 0 cells in
    if is_regular_header_alt first_cell then (Some Regular, d)
    else if is_specialized_header first_cell then (Some Specialized, d)
    else if match cur with None => true | Some _ => false end
            || Nat.ltb (List.length cells) 2
    then st
    else
      let program_name := Py.strip first_cell in
      if negb (Py.truthy program_name)
         || Py.contains "PROGRAM" (Py.upper program_name)
      then st
      else
        let annual_fee := cell 1 cells in
        let semester1_fee := cell 2 cells in
        let semester2_fee := cell 3 cells in
        if Py.truthy annual_fee
        then (cur, attribute cur program_name
                     {| annual := annual_fee; semester1 := semester1_fee;
                        semester2 := semester2_fee |} d)
        else st.

(** The loop of lines 191-241: every table of the document, with
    [current_section] reset at each table. *)
Definition alt_scan_tables (tables : list (list (list string)))
  (d : Py.dict fee * Py.dict fee) : Py.dict fee * Py.dict fee :=
  fold_left (fun d rows => snd (fold_left alt_scan_row rows (None, d)))
            tables d.

Definition table_table : selector := one (tag_ "table" ["table"]).
Definition rich_text_content : selector :=
  [chain [tag_ "section" ["rich-text-block"]; tag_ "div" ["content"]]].

Section Methods.
Context {E : Environment} {R : Readers}.

(** What [scrape_tuition_fees] does with the parsed page, lines 42-246. *)
Definition tuition_of_page (soup : element) : result tuition_data :=
  match select_one table_table soup with
  | None => error "Tuition fee table not found"
  | Some table =>
      let d := snd (scan_table (rows_of table)) in
      let rich :=
        match select_one rich_text_content soup with
        | Some content_section => rich_text_fees soup content_section
        | None => ([], [])
        end in
      let d :=
        if negb (Py.nonempty (fst d)) && negb (Py.nonempty (snd d))
        then alt_scan_tables (map rows_of (find_all ["table"] soup)) d
        else d in
      success {| regular_program := fst d; specialized_program := snd d;
                 additional_fees := fst rich; other_fees := snd rich |}
  end.

Definition tuition_fees_body : M (result tuition_data) :=
  text <- session_get (base_url ++ "/admissions/school-fees") ;;
  ret (tuition_of_page (parse_html text)).

Definition scrape_tuition_fees : M (result tuition_data) :=
  guarded tuition_fees_body.

(** ** [scrape_curriculum], lines 255-434 *)

Definition attribute_program (cur : option section) (pname : string)
  (d : Py.dict program * Py.dict program)
  : Py.dict program * Py.dict program :=
  match cur with
  | Some Regular =>
      (Py.dict_set pname {| type := "Regular Program"; description := pname |}
                   (fst d), snd d)
  | Some Specialized =>
      (fst d,
       Py.dict_set pname {| type := "Specialized Learning Support Program";
                            description := pname |} (snd d))
  | None => d
  end.

Definition cur_state : Type :=
  option section * (Py.dict program * Py.dict program).

(** One turn of the loops of lines 282-325 and 338-376; the first of the
    two also skips a row whose first cell is empty, which the second
    does a few lines later through [program_name]. *)
Definition cur_scan_row (st : cur_state) (cells : list string) : cur_state :=
  let (cur, d) := st in
  if Nat.ltb (List.length cells) 1 then st
  else
    let first_cell := cell 0 cells in
    if negb (Py.truthy first_cell) then st
    else if is_regular_header_alt first_cell then (Some Regular, d)
    else if is_specialized_header first_cell then (Some Specialized, d)
    else if match cur with None => true | Some _ => false end then st
    else
      let program_name := Py.strip first_cell in
      if negb (Py.truthy program_name)
         || Py.contains "PROGRAM" (Py.upper program_name)
      then st
      else (cur, attribute_program cur program_name d).

Definition cur_scan_tables (tables : list (list (list string)))
  (d : Py.dict program * Py.dict program)
  : Py.dict program * Py.dict program :=
  fold_left (fun d rows => snd (fold_left cur_scan_row rows (None, d)))
            tables d.

(** the post-processing of lines 417-422 *)
Definition tidy (d : Py.dict program) : Py.dict program :=
  map (fun kv =>
         (fst kv,
          {| type := type (snd kv);
             description :=
               Py.strip (Py.sub_whitespace (description (snd kv))) |})) d.

(** the body of the loop of lines 394-414 *)
Definition add_program (d : Py.dict program) (li : element) : Py.dict program :=
  let program_text := get_text_strip li in
  let program_name :=
    match find_tag ["strong"] li with
    | Some strong_tag => get_text_strip strong_tag
    | None =>
        Py.strip (Py.drop_final_colon (Py.strip (Py.first_line program_text)))
    end in
  if Py.truthy program_name
  then Py.dict_set program_name
         {| type := "Additional Support Program"; description := program_name |}
         d
  else d.

(** lines 383-414 *)
Definition additional_programs_of (content_section : element)
  : Py.dict program :=
  let headings := find_all ["h1"; "h2"; "h3"; "h4"] content_section in
  match find (fun heading => Py.contains "Additional Program" (get_text heading))
             headings with
  | Some additional_program_heading =>
      match find_next "ul" additional_program_heading with
      | Some additional_program_ul =>
          fold_left add_program (find_all_children ["li"] additional_program_ul)
                    []
      | None => []
      end
  | None => []
  end.

Definition curriculum_of_page (soup : element) : result curriculum_data :=
  let d :=
    match select_one table_table soup with
    | Some table => snd (fold_left cur_scan_row (rows_of table) (None, ([], [])))
    | None => ([], [])
    end in
  let d :=
    if negb (Py.nonempty (fst d)) && negb (Py.nonempty (snd d))
    then cur_scan_tables (map rows_of (find_all ["table"] soup)) d
    else d in
  let extra :=
    match select_one rich_text_content soup with
    | Some content_section => additional_programs_of content_section
    | None => []
    end in
  success {| cur_regular_program := tidy (fst d);
             cur_specialized_program := tidy (snd d);
             additional_programs := tidy extra |}.

Definition curriculum_body : M (result curriculum_data) :=
  text <- session_get (base_url ++ "/admissions/school-fees") ;;
  ret (curriculum_of_page (parse_html text)).

Definition scrape_curriculum : M (result curriculum_data) :=
  guarded curriculum_body.

(** ** [scrape_enrollment_process], lines 523-605 *)

Definition accordion (k : string) : selector :=
  [chain [tag_ "div" ["tabs"; "style-accordion"]; class_ k]].

Definition list_items : selector :=
  [chain [tag_ "ol" []; tag_ "li" []]; chain [tag_ "ul" []; tag_ "li" []]].

(** the body of the loop of lines 555-570 *)
Definition step_of (tab content : element) : step :=
  let found := select list_items content in
  {| title := get_text_strip tab;
     step_description := get_text_strip content;
     items := if Py.nonempty found then Some (map get_text_strip found)
              else None |}.

Definition steps_of_page (soup : element) : list step :=
  let process_tabs := select (accordion "tab-title") soup in
  let process_contents := select (accordion "accordion-content") soup in
  if Py.nonempty process_tabs
     && Nat.eqb (List.length process_tabs) (List.length process_contents)
  then map (fun tc => step_of (fst tc) (snd tc))
           (combine process_tabs process_contents)
  else [].

(** ** [parse_requirements_data], lines 436-521 *)

Definition below (cs : list compound) : selector := [chain cs].

(** lines 486-488 and 505-507: the heading that names a section *)
Definition section_heading (word : string) (content_div : element)
  : option element :=
  match find_with_string ["p"; "h3"; "h4"] word content_div with
  | Some section => Some section
  | None => find_with_string ["strong"] word content_div
  end.

(** the items of the list that follows the heading *)
Definition items_after (word : string) (content_div : element) : list element :=
  match section_heading word content_div with
  | Some section =>
      match find_next "ul" section with
      | Some l => find_all ["li"] l
      | None => []
      end
  | None => []
  end.

(** the body of the loop of lines 460-519 *)
Definition add_grade (requirements_data : Py.dict grade_data)
  (accordion : element) : Py.dict grade_data :=
  match select_one (below [class_ "accordion-header"; tag_ "h4" []])
                   accordion with
  | None => requirements_data
  | Some header =>
      let grade_name := get_text_strip header in
      let content_div :=
        match select_one (below [class_ "accordion-content";
                                 class_ "tab-content"; class_ "content"])
                         accordion with
        | Some c => Some c
        | None => select_one (below [class_ "accordion-content";
                                     class_ "content"]) accordion
        end in
      match content_div with
      | None => requirements_data
      | Some content_div =>
          Py.dict_set grade_name
            {| forms :=
                 flat_map (fun item =>
                             match find_tag ["a"] item with
                             | Some link =>
                                 [{| form_name := get_text_strip item;
                                     form_url := get "href" link |}]
                             | None => []
                             end) (items_after "Forms" content_div);
               requirements :=
                 map get_text_strip (items_after "Requirements" content_div) |}
            requirements_data
      end
  end.

Definition requirements_of_page (soup : element) : Py.dict grade_data :=
  match select_one (one (tag_ "div" ["tabs"; "style-standard"])) soup with
  | None => []
  | Some tabs_container =>
      fold_left add_grade
                (select (one (class_ "accordion-wrapper")) tabs_container) []
  end.

Definition parse_requirements_data (html_content : string)
  : Py.dict grade_data :=
  requirements_of_page (parse_html html_content).

(** Lines 579-589: the requirements of all grade levels in one list,
    counted, and those kept whose count reaches half the number of grade
    levels. *)
Definition all_requirements (grades : Py.dict grade_data) : list string :=
  flat_map (fun g => requirements (snd g)) grades.

Definition common_threshold (grades : Py.dict grade_data) : nat :=
  List.length grades / 2.

Definition infer_common (grades : Py.dict grade_data) : list string :=
  map fst
      (filter (fun rc => Nat.leb (common_threshold grades) (snd rc))
              (Py.Counter (all_requirements grades))).

Definition enrollment_of_page (text : string) (soup : element)
  : result enrollment_data :=
  let overview_text :=
    match select_one (one (tag_ "section" ["lead-text"])) soup with
    | Some overview_section => get_text_strip overview_section
    | None => ""
    end in
  let grades := parse_requirements_data text in
  success
    (if Py.nonempty grades
     then {| overview := overview_text; steps := steps_of_page soup;
             common_requirements := infer_common grades;
             grade_requirements := grades |}
     else {| overview := overview_text; steps := steps_of_page soup;
             common_requirements := []; grade_requirements := [] |}).

Definition enrollment_process_body : M (result enrollment_data) :=
  text <- session_get
            (base_url ++ "/admissions/application-file-forms-requirements") ;;
  ret (enrollment_of_page text (parse_html text)).

Definition scrape_enrollment_process : M (result enrollment_data) :=
  guarded enrollment_process_body.

(** ** [scrape_scholarships] and [scrape_contact_info] *)

Definition scholarships_body : M (result scholarship_data) :=
  text <- session_get (base_url ++ "/admissions/scholarships") ;;
  d <- lift (read_scholarships (parse_html text)) ;;
  ret (success d).

Definition scrape_scholarships : M (result scholarship_data) :=
  guarded scholarships_body.

Definition contact_info_body : M (result contact_data) :=
  text <- session_get (base_url ++ "/contact-us") ;;
  d <- lift (read_contact text (parse_html text)) ;;
  ret (success d).

Definition scrape_contact_info : M (result contact_data) :=
  guarded contact_info_body.

(** ** The aggregate [scrape], lines 1097-1130 *)

Record school_record := {
  rec_name : string;
  tuition_fees : field tuition_data;
  curriculum : field curriculum_data;
  enrollment_process : field enrollment_data;
  scholarships : field scholarship_data;
  contact_info : field contact_data
}.

(** [r["data"] if r["status"] == "success" else r] *)
Definition unwrap {A : Type} (r : result A) : M (field A) :=
  if String.eqb (status r) "success"
  then match data r with
       | Some d => ret (Payload d)
       | None => raise (Exception "KeyError" "'data'")
       end
  else ret (Wrapper r).

(** lines 1103-1120: the five category methods, then the record *)
Definition collect_results : M school_record :=
  tuition_result <- scrape_tuition_fees ;;
  curriculum_result <- scrape_curriculum ;;
  enrollment_result <- scrape_enrollment_process ;;
  scholarship_result <- scrape_scholarships ;;
  contact_result <- scrape_contact_info ;;
  t <- unwrap tuition_result ;;
  c <- unwrap curriculum_result ;;
  e <- unwrap enrollment_result ;;
  s <- unwrap scholarship_result ;;
  k <- unwrap contact_result ;;
  ret {| rec_name := name; tuition_fees := t; curriculum := c;
         enrollment_process := e; scholarships := s; contact_info := k |}.

Definition scrape : M school_record :=
  try_except
    (results <- collect_results ;;
     close_playwright ;;;
     ret results)
    (fun e => close_playwright ;;; raise e).

End Methods.

End ISM.

(* ===================================================================== *)
(** * services/schools/bsm_scraper.py *)
(* ===================================================================== *)

Module BSM.
Import Soup Eff.
Local Open Scope eff_scope.

Definition base_url : string := "https://www.britishschoolmanila.org".
Definition name : string := "British School Manila".
Definition short_name : string := "BSM".

(** a category for which no payload is ever produced *)
Inductive no_data : Type := .

Record application_step := {
  step_number : Z;
  title : string;
  description : string
}.

Record enrollment_data := {
  application_process : list application_step;
  requirements : list string;
  contact_email : string
}.

(** The parts that are not spelled out here: the panels of the key-stage
    accordion (lines 61-113), the contact section (lines 266-286) and
    [re.findall] with the e-mail pattern of line 205. *)
Class Readers := {
  key_stage : Type;
  read_key_stages : string -> element -> outcome (list key_stage);
  contact_data : Type;
  read_contact : element -> outcome contact_data;
  findall_email : string -> list string
}.

Definition h2_title (inner : compound) : selector :=
  [chain [tag_ "h2" ["fsElementTitle"]; inner]].
Definition panel_selector : selector := one (tag_ "section" ["fsElement"; "fsPanel"]).
Definition element_content : selector := one (tag_ "div" ["fsElementContent"]).

Section Methods.
Context {E : Environment} {R : Readers}.

(** lines 29-36 *)
Definition scrape_tuition_fees : M (result no_data) :=
  ret (skipped
         "Tuition fees scraping is skipped for this school because it is not available on the website.").

(** lines 38-125 *)
Definition curriculum_body : M (result (list key_stage)) :=
  let url := (base_url ++ "/academics/the-key-stages")%string in
  text <- session_get url ;;
  let soup := parse_html text in
  match select_one (one (tag_ "div" ["fsElement"; "fsPanelGroup"; "fsAccordion"]))
                   soup with
  | None => ret (error "Curriculum information not found")
  | Some accordion_container =>
      curriculum_data <- lift (read_key_stages url accordion_container) ;;
      ret (success curriculum_data)
  end.

Definition scrape_curriculum : M (result (list key_stage)) :=
  guarded curriculum_body.

(** ** [scrape_enrollment_process], lines 127-241 *)

(** lines 166-172 *)
Definition step_number_of (i : nat) (panel : element) : Z :=
  let default := Z.of_nat (i + 1) in
  match select_one (h2_title (tag_ "span" ["accordion-number"])) panel with
  | Some number_span =>
      match Py.int (Py.strip (get_text number_span)) with
      | Some n => n
      | None => default
      end
  | None => default
  end.

(** lines 185-201 *)
Definition description_of (content_div : element) : string :=
  match select_one (one (tag_ "section" ["fsElement"; "fsContent"])) content_div with
  | Some inner_section =>
      match select_one element_content inner_section with
      | Some inner_content =>
          let description_parts :=
            filter (fun p_text => Py.truthy p_text
                                  && negb (Py.startswith "ENQUIRE TODAY" p_text))
                   (map (fun p => Py.strip (get_text p))
                        (select (one (tag_ "p" [])) inner_content)) in
          Py.join " " description_parts
      | None => ""
      end
  | None => ""
  end.

(** the variables the loop of lines 159-222 updates *)
Record loop_state := {
  application_steps : list application_step;
  application_requirements : list string;
  found_email : string
}.

Definition panel_step (st : loop_state) (ip : nat * element) : loop_state :=
  let (i, panel) := ip in
  match select_one (h2_title (tag_ "a" [])) panel with
  | None => st
  | Some title_elem =>
      let number := step_number_of i panel in
      let title_text := Py.strip (get_text title_elem) in
      match select_one element_content panel with
      | None => st
      | Some content_div =>
          let descr := description_of content_div in
          let email :=
            if Py.truthy (found_email st) then found_email st
            else match findall_email descr with
                 | m :: _ => m
                 | [] => found_email st
                 end in
          let reqs :=
            if Py.contains "Requirements" title_text
               || Py.contains "Requirements" descr
            then filter Py.truthy
                        (map (fun item => Py.strip (get_text item))
                             (select [chain [tag_ "ul" []; tag_ "li" []]]
                                     content_div))
            else [] in
          {| application_steps :=
               application_steps st ++
               [{| step_number := number; title := title_text;
                   description := descr |}];
             application_requirements := application_requirements st ++ reqs;
             found_email := email |}
      end
  end.

(** the loop of lines 159-222 over the panels of the page *)
Definition panels_loop (soup : element) : loop_state :=
  let panels := select panel_selector soup in
  fold_left panel_step (Py.enumerate panels)
            {| application_steps := []; application_requirements := [];
               found_email := "" |}.

Definition enrollment_of_page (soup : element) : result enrollment_data :=
  match select_one (one (tag_ "ul" ["fsTabsNav"])) soup with
  | None => error "Enrollment process information not found"
  | Some tabs_nav =>
      let st := panels_loop soup in
      success {| application_process :=
                   Py.sort_by step_number (application_steps st);
                 requirements := application_requirements st;
                 contact_email := found_email st |}
  end.

Definition enrollment_process_body : M (result enrollment_data) :=
  text <- session_get (base_url ++ "/admissions/how-to-apply") ;;
  ret (enrollment_of_page (parse_html text)).

Definition scrape_enrollment_process : M (result enrollment_data) :=
  guarded enrollment_process_body.

(** lines 243-251 *)
Definition scrape_scholarships : M (result no_data) :=
  ret (not_implemented "No relevant scholarships information found").

(** lines 253-302 *)
Definition contact_info_body : M (result contact_data) :=
  text <- session_get (base_url ++ "/contact") ;;
  d <- lift (read_contact (parse_html text)) ;;
  ret (success d).

Definition scrape_contact_info : M (result contact_data) :=
  guarded contact_info_body.

(** ** The aggregate [scrape], lines 304-332: the record holds the status
    dictionaries themselves, also the successful ones. *)
Record school_record := {
  rec_name : string;
  tuition_fees : result no_data;
  curriculum : result (list key_stage);
  enrollment_process : result enrollment_data;
  scholarships : result no_data;
  contact_info : result contact_data
}.

(** lines 309-322: the five category methods, then the record *)
Definition collect_results : M school_record :=
  tuition_result <- scrape_tuition_fees ;;
  curriculum_result <- scrape_curriculum ;;
  enrollment_result <- scrape_enrollment_process ;;
  scholarship_result <- scrape_scholarships ;;
  contact_result <- scrape_contact_info ;;
  ret {| rec_name := name; tuition_fees := tuition_result;
         curriculum := curriculum_result;
         enrollment_process := enrollment_result;
         scholarships := scholarship_result;
         contact_info := contact_result |}.

Definition scrape : M school_record :=
  try_except
    (results <- collect_results ;;
     close_playwright ;;;
     ret results)
    (fun e => close_playwright ;;; raise e).

End Methods.

End BSM.

(* ===================================================================== *)
(** * services/scraper.py: the universal scraper *)
(* ===================================================================== *)

Module Scraper.
Import Soup Eff.
Local Open Scope eff_scope.

(** A category entry of the school catalog: one URL or a list of URLs
    (utils/school_data.py); a key may also be missing. *)
Inductive field_value :=
| Url (u : string)
| Urls (l : list string).

Definition school := Py.dict field_value.

(** ** [_find_main_content], lines 222-246 *)

Definition selectors : list selector :=
  [one (tag_ "main" []); one (id_ "main"); one (class_ "main");
   one (tag_ "article" []); one (class_ "article"); one (id_ "article");
   one (class_ "content"); one (id_ "content"); one (class_ "page-content");
   one (class_ "entry-content"); one (class_ "post-content");
   one (class_ "container"); one (class_ "inner-container")].

Definition text_length (e : element) : nat :=
  String.length (get_text_strip e).

(** the loop of lines 233-236: the first selector whose first match has
    more than 100 characters of text *)
Fixpoint first_large (sels : list selector) (soup : element) : option element :=
  match sels with
  | [] => None
  | sel :: sels' =>
      match select_one sel soup with
      | Some content =>
          if Nat.ltb 100 (text_length content) then Some content
          else first_large sels' soup
      | None => first_large sels' soup
      end
  end.

Definition _find_main_content (soup : element) : option element :=
  match first_large selectors soup with
  | Some content => Some content
  | None =>
      let containers :=
        Py.sorted_reverse (fun x => Z.of_nat (text_length x))
                          (find_all_with_class ["div"; "section"] soup) in
      match containers with
      | c :: _ => if Nat.ltb 100 (text_length c) then Some c else None
      | [] => None
      end
  end.

(** ** The keyword extractors, lines 248-329 *)

Definition related (names keywords : list string) (soup : element)
  : list element :=
  find_all_by (fun tag =>
                 mem (el_name tag) names
                 && existsb (fun keyword =>
                               Py.contains keyword (Py.lower (get_text tag)))
                            keywords) soup.

Definition join_texts (l : list element) : string :=
  Py.join "
" (map get_text_strip l).

Definition _extract_fees (soup : element) : string :=
  let tables := find_all ["table"] soup in
  if Py.nonempty tables
  then Py.join "
" (map (get_text_strip_sep "
") tables)
  else join_texts (related ["div"; "section"; "p"]
                           ["fee"; "tuition"; "cost"; "payment"; "financial"]
                           soup).

Definition _extract_program (soup : element) : string :=
  join_texts (related ["div"; "section"; "p"; "li"]
                      ["program"; "curriculum"; "academic"; "course"; "study"]
                      soup).

Definition _extract_enrollment (soup : element) : string :=
  join_texts (related ["div"; "section"; "p"; "li"]
                      ["enroll"; "admission"; "application"; "apply";
                       "requirement"] soup).

Definition _extract_events (soup : element) : string :=
  join_texts (related ["div"; "section"; "p"; "li"]
                      ["event"; "calendar"; "upcoming"; "schedule"] soup).

Definition _extract_scholarships (soup : element) : string :=
  join_texts (related ["div"; "section"; "p"; "li"]
                      ["scholarship"; "financial aid"; "discount"; "grant";
                       "assistance"] soup).

Definition _extract_contact (soup : element) : string :=
  join_texts (related ["div"; "section"; "p"; "li"; "address"]
                      ["contact"; "email"; "phone"; "address"; "location"]
                      soup).

(** ** [_extract_content], lines 173-220 *)

(** the non-empty stripped texts of the given tags, one per line *)
Definition paragraphs_text (names : list string) (e : element) : string :=
  Py.join "
" (filter Py.truthy (map get_text_strip (find_all names e))).

Definition max_length : nat := 5000.

Definition _extract_content (soup0 : element) (field_name : string) : string :=
  let soup := extract_all ["script"; "style"; "iframe"; "noscript"] soup0 in
  let content :=
    match _find_main_content soup with
    | None =>
        if String.eqb field_name "school_fee" then _extract_fees soup
        else if String.eqb field_name "program" then _extract_program soup
        else if Py.contains "Enrollment" field_name then _extract_enrollment soup
        else if Py.contains "Events" field_name then _extract_events soup
        else if Py.contains "Discounts" field_name then _extract_scholarships soup
        else if Py.contains "Contact" field_name then _extract_contact soup
        else paragraphs_text ["p"] soup
    | Some main_content =>
        paragraphs_text ["p"; "h1"; "h2"; "h3"; "h4"; "h5"; "h6"; "li"]
                        main_content
    end in
  let content := Py.strip (Py.sub_whitespace content) in
  let content := Py.strip (Py.sub_newlines content) in
  if Py.truthy content then Py.slice_to max_length content
  else "No structured data found".

(** ** [_scrape_field], lines 124-171 *)

Section Methods.
Context {E : Environment}.

(** the body of the loop of lines 147-165, [results] being the list built
    so far *)
Definition scrape_url (field_name : string) (results : list string)
  (url : string) : M (list string) :=
  try_except
    (if negb (Py.truthy url) then ret results
     else
       text <- session_get url ;;
       let content := _extract_content (parse_html text) field_name in
       if Py.truthy content
       then ret (results ++ [("From " ++ url ++ ":
" ++ content)%string])
       else ret results)
    (fun e => ret (results ++ [("Error scraping " ++ url ++ ": " ++ str e)%string])).

Fixpoint scrape_urls (field_name : string) (results : list string)
  (urls : list string) : M (list string) :=
  match urls with
  | [] => ret results
  | url :: urls' =>
      results' <- scrape_url field_name results url ;;
      scrape_urls field_name results' urls'
  end.

Definition separator : string := "

---

".

Definition _scrape_field (sch : school) (field_name : string) : M string :=
  let field_data :=
    match Py.dict_get field_name sch with
    | Some v => v
    | None => Urls []
    end in
  let urls :=
    match field_data with
    | Url u => if Py.truthy u then Some [u] else None
    | Urls l => if Py.nonempty l then Some l else None
    end in
  match urls with
  | None => ret "No data available"
  | Some l =>
      results <- scrape_urls field_name [] l ;;
      if Py.nonempty results then ret (Py.join separator results)
      else ret "No data available"
  end.

End Methods.

(** ** The choice of a school-specific scraper in [scrape_school],
    lines 61-81: the name of the module that is imported and of the class
    looked up in it; [None] when line 62 or 64 raises [IndexError]. *)
Definition stop_words : list string := ["the"; "and"; "of"].

Definition abbreviation (school_name : string) : option string :=
  match Py.split (Py.lower school_name) with
  | [] => None
  | first :: rest =>
      let short :=
        if String.eqb first "the" then hd_error rest else Some first in
      match short with
      | None => None
      | Some school_name_short =>
          if Nat.ltb 1 (List.length (Py.split school_name))
          then Some (String.concat ""
                      (map (fun word =>
                              match Py.first_char word with
                              | Some c => Py.lower (String c EmptyString)
                              | None => ""
                              end)
                           (filter (fun word => negb (mem (Py.lower word) stop_words))
                                   (Py.split school_name))))
          else Some school_name_short
      end
  end.

Definition module_path (abbr : string) : string :=
  ("services.schools." ++ abbr ++ "_scraper")%string.

Definition class_name (abbr : string) : string :=
  (Py.upper abbr ++ "Scraper")%string.

(** ** services/models.py: [SchoolInfo]

    [name] and [link] hold what the catalog entry holds under these keys;
    a plain string is written [Url s] here and in [to_dict]. *)
Record SchoolInfo := {
  name : field_value;
  link : field_value;
  school_fee : string;
  program : string;
  enrollment_process : string;
  events : string;
  discounts_scholarships : string;
  contact_info : string;
  notes : string
}.

Definition to_dict (self : SchoolInfo) : Py.dict field_value :=
  [("name", name self);
   ("link", link self);
   ("school_fee", Url (school_fee self));
   ("program", Url (program self));
   ("enrollment_process", Url (enrollment_process self));
   ("events", Url (events self));
   ("discounts_scholarships", Url (discounts_scholarships self));
   ("contact_info", Url (contact_info self));
   ("notes", Url (notes self))].

(** the attribute assignments of [scrape_school] *)
Definition set_school_fee (v : string) (i : SchoolInfo) : SchoolInfo :=
  {| name := name i; link := link i; school_fee := v; program := program i;
     enrollment_process := enrollment_process i; events := events i;
     discounts_scholarships := discounts_scholarships i;
     contact_info := contact_info i; notes := notes i |}.

Definition set_program (v : string) (i : SchoolInfo) : SchoolInfo :=
  {| name := name i; link := link i; school_fee := school_fee i; program := v;
     enrollment_process := enrollment_process i; events := events i;
     discounts_scholarships := discounts_scholarships i;
     contact_info := contact_info i; notes := notes i |}.

Definition set_enrollment_process (v : string) (i : SchoolInfo) : SchoolInfo :=
  {| name := name i; link := link i; school_fee := school_fee i;
     program := program i; enrollment_process := v; events := events i;
     discounts_scholarships := discounts_scholarships i;
     contact_info := contact_info i; notes := notes i |}.

Definition set_events (v : string) (i : SchoolInfo) : SchoolInfo :=
  {| name := name i; link := link i; school_fee := school_fee i;
     program := program i; enrollment_process := enrollment_process i;
     events := v; discounts_scholarships := discounts_scholarships i;
     contact_info := contact_info i; notes := notes i |}.

Definition set_discounts_scholarships (v : string) (i : SchoolInfo)
  : SchoolInfo :=
  {| name := name i; link := link i; school_fee := school_fee i;
     program := program i; enrollment_process := enrollment_process i;
     events := events i; discounts_scholarships := v;
     contact_info := contact_info i; notes := notes i |}.

Definition set_contact_info (v : string) (i : SchoolInfo) : SchoolInfo :=
  {| name := name i; link := link i; school_fee := school_fee i;
     program := program i; enrollment_process := enrollment_process i;
     events := events i; discounts_scholarships := discounts_scholarships i;
     contact_info := v; notes := notes i |}.

Definition set_notes (v : string) (i : SchoolInfo) : SchoolInfo :=
  {| name := name i; link := link i; school_fee := school_fee i;
     program := program i; enrollment_process := enrollment_process i;
     events := events i; discounts_scholarships := discounts_scholarships i;
     contact_info := contact_info i; notes := v |}.

(** lines 96-117: the catalog key that is scraped and the attribute that
    is assigned, in the order of the six statements *)
Definition assignments : list (string * (string -> SchoolInfo -> SchoolInfo)) :=
  [("school_fee", set_school_fee);
   ("program", set_program);
   ("Enrollment Process and Requirements", set_enrollment_process);
   ("Upcoming Events", set_events);
   ("Discounts and Scholarship", set_discounts_scholarships);
   ("Contact Information ", set_contact_info)].

(** ** [scrape_school], lines 50-122 *)

Section School.
Context {E : Environment}.

(** the record that the scraper of a school of its own returns *)
Variable record : Type.

(** Lines 76-81: the module of the given path is imported, the class of
    the given name looked up in it and instantiated, and its [scrape] run
    on the catalog entry.  It raises when there is no such module or
    class, or when [scrape] raises. *)
Variable specific_scraper : string -> string -> school -> M record.

(** [datetime.now().strftime('%Y-%m-%d %H:%M:%S')] *)
Variable now : World -> string.

(** what [scrape_school] returns: the record of the school's own scraper,
    or [school_info.to_dict()] *)
Inductive scraped :=
| Specific (r : record)
| Universal (d : Py.dict field_value).

(** [school[key]] *)
Definition item (key : string) (sch : school) : M field_value :=
  match Py.dict_get key sch with
  | Some v => ret v
  | None => raise (Exception "KeyError" ("'" ++ key ++ "'"))
  end.

(** Lines 61-86.  Whatever is raised in there is caught at line 82 or at
    line 85, and the universal scraper takes over in both cases. *)
Definition school_specific (sch : school) : M (option record) :=
  try_except
    (v <- item "name" sch ;;
     match v with
     | Urls _ =>
         raise (Exception "AttributeError"
                          "'list' object has no attribute 'lower'")
     | Url school_name =>
         match abbreviation school_name with
         | None => raise (Exception "IndexError" "list index out of range")
         | Some abbr =>
             r <- specific_scraper (module_path abbr) (class_name abbr) sch ;;
             ret (Some r)
         end
     end)
    (fun e => ret None).

(** Lines 94-120: the assignments are made one after the other; when a
    [_scrape_field] raises, the handler overwrites the note and the
    assignments that are left are not made. *)
Fixpoint fill (sch : school)
  (todo : list (string * (string -> SchoolInfo -> SchoolInfo)))
  (school_info : SchoolInfo) : M SchoolInfo :=
  match todo with
  | [] => ret school_info
  | (field_name, assign) :: todo' =>
      fun s =>
        match _scrape_field sch field_name s with
        | (Return field_data, s') =>
            fill sch todo' (assign field_data school_info) s'
        | (Raise e, s') =>
            (Return (set_notes ("Error during scraping: " ++ str e ++ " at "
                                ++ now (world s')) school_info), s')
        end
  end.

Definition scrape_school (sch : school) : M scraped :=
  r <- school_specific sch ;;
  match r with
  | Some rec => ret (Specific rec)
  | None =>
      school_name <- item "name" sch ;;
      school_link <- item "link" sch ;;
      fun s =>
        let school_info :=
          {| name := school_name; link := school_link;
             school_fee := "No data available";
             program := "No data available";
             enrollment_process := "No data available";
             events := "No data available";
             discounts_scholarships := "No data available";
             contact_info := "No data available";
             notes := "Scraped at " ++ now (world s) |} in
        (school_info <- fill sch assignments school_info ;;
         ret (Universal (to_dict school_info))) s
  end.

End School.

End Scraper.

(* ===================================================================== *)
(** * app.py: the dispatcher *)
(* ===================================================================== *)

Module App.
Import Eff.
Local Open Scope eff_scope.

Section Dispatch.
(** the scraper classes; [scrapers] maps the name of a class without its
    ["Scraper"] suffix to the class, in the order of [scrapers.items()] *)
Variable scraper_class : Type.
Variable ISMScraper : scraper_class.

Definition registry := list (string * scraper_class).

(** which rule of lines 78-122 chose the scraper, with the key that
    matched; the notice shown to the user is determined by it *)
Inductive rule :=
| DirectMatch (key : string)
| InitialsMatch (key : string)
| PartialMatch (key : string)
| DefaultScraper.

(** lines 78-87 *)
Definition direct_match (scrapers : registry) (school : string)
  : option (string * scraper_class) :=
  let school_name_no_spaces := Py.remove_spaces school in
  find (fun kc => Py.contains (Py.lower (fst kc))
                              (Py.lower school_name_no_spaces)) scrapers.

(** line 93 *)
Definition initials (school : string) : string :=
  String.concat ""
    (map (fun word => match Py.first_char word with
                      | Some c => String c EmptyString
                      | None => ""
                      end)
         (filter (fun word => Nat.ltb 1 (String.length word))
                 (Py.split school))).

(** lines 95-100 *)
Definition initials_match (scrapers : registry) (school : string)
  : option (string * scraper_class) :=
  find (fun kc => String.eqb (Py.lower (fst kc)) (Py.lower (initials school)))
       scrapers.

(** lines 104-117 *)
Definition partial_match (scrapers : registry) (school : string)
  : option (string * scraper_class) :=
  let school_parts := Py.split (Py.lower school) in
  find (fun kc =>
          existsb (fun part => Nat.ltb 2 (String.length part)
                               && Py.contains part (Py.lower (fst kc)))
                  school_parts) scrapers.

(** The scraper chosen for one selected school, lines 73-122. *)
Definition choose (scrapers : registry) (school : string)
  : rule * scraper_class :=
  match direct_match scrapers school with
  | Some (key, cls) => (DirectMatch key, cls)
  | None =>
      match initials_match scrapers school with
      | Some (key, cls) => (InitialsMatch key, cls)
      | None =>
          match partial_match scrapers school with
          | Some (key, cls) => (PartialMatch key, cls)
          | None => (DefaultScraper, ISMScraper)
          end
      end
  end.

(** The loop of lines 66-122: [tasks] is the list of the scrapers to run,
    each with the catalog entry it is run on. *)
Definition add_task {D : Type} (school_name : D -> string)
  (school_data_list : list D) (scrapers : registry)
  (tasks : list (rule * scraper_class * D)) (school : string)
  : list (rule * scraper_class * D) :=
  match find (fun s => String.eqb (school_name s) school) school_data_list with
  | None => tasks
  | Some school_data => tasks ++ [(choose scrapers school, school_data)]
  end.

Definition run_scrapers_tasks {D : Type} (school_name : D -> string)
  (selected_schools : list string) (school_data_list : list D)
  (scrapers : registry) : list (rule * scraper_class * D) :=
  fold_left (add_task school_name school_data_list scrapers)
            selected_schools [].

End Dispatch.

(** [run_scraper], lines 53-61: [scrape] is the aggregate method of the
    instance that [scraper_class()] creates. *)
Definition run_scraper {E : Environment} {A : Type} (scrape : M A)
  : M (option A) :=
  try_except (r <- scrape ;; ret (Some r)) (fun e => ret None).

(** ** [load_scrapers], lines 23-50 *)

Section Loading.
Variable scraper_class : Type.

(** a member of a module: a class, or anything else *)
Inductive member :=
| Class (c : scraper_class)
| Other.

(** [importlib.import_module(module_name)]: the names the module holds
    with their values, or the exception the import ends with *)
Variable import_module : string -> outcome (list (string * member)).

(** [inspect.getmembers(module)]: the members sorted by name *)
Definition getmembers (namespace : list (string * member))
  : list (string * member) :=
  Py.sort_le (fun x y => String.leb (fst x) (fst y)) namespace.

(** line 30, over [os.listdir(schools_module_path)] *)
Definition scraper_files (listing : list string) : list string :=
  map (Py.drop_last 3)
      (filter (fun f => Py.endswith "_scraper.py" f
                        && negb (Py.startswith "__" f)) listing).

(** the test of line 40 *)
Definition is_scraper (nm : string * member) : bool :=
  match snd nm with
  | Class _ => Py.endswith "Scraper" (fst nm)
               && negb (String.eqb (fst nm) "Scraper")
  | Other => false
  end.

(** One turn of the loop of lines 33-48: the first member that passes
    the test is registered; a failing import leaves the registry as it
    is. *)
Definition load_module (scrapers : registry scraper_class)
  (scraper_module : string) : registry scraper_class :=
  match import_module ("services.schools." ++ scraper_module) with
  | Raise e => scrapers
  | Return namespace =>
      match find is_scraper (getmembers namespace) with
      | Some (name, Class obj) =>
          Py.dict_set (Py.replace "Scraper" "" name) obj scrapers
      | _ => scrapers
      end
  end.

Definition load_scrapers (listing : list string) : registry scraper_class :=
  fold_left load_module (scraper_files listing) [].

End Loading.

End App.

(* ===================================================================== *)
(** * services/data_manager.py *)
(* ===================================================================== *)

Module DataManager.

(** [save_results], lines 30-41: the names of the two files written for
    a prefix and the time stamp [datetime.now().strftime("%Y%m%d_%H%M%S")] *)
Definition file_base (prefix timestamp : string) : string :=
  (prefix ++ "_" ++ timestamp)%string.

Definition saved_files (prefix timestamp : string) : list string :=
  [(file_base prefix timestamp ++ ".csv")%string;
   (file_base prefix timestamp ++ ".json")%string].

(** lines 55-58 and 82-85, over [os.listdir(self.data_dir)] *)
Definition json_files (prefix : string) (listing : list string) : list string :=
  filter (fun f => Py.startswith prefix f && Py.endswith ".json" f) listing.

(** [load_latest_results], lines 55-65: the file that is opened, [None]
    when the method returns [None] *)
Definition latest_file (prefix : string) (listing : list string)
  : option string :=
  if negb (Py.nonempty (json_files prefix listing)) then None
  else hd_error (Py.sorted_strings_reverse (json_files prefix listing)).

(** [get_available_datasets], lines 82-93 *)
Definition get_available_datasets (prefix : string) (listing : list string)
  : list string :=
  Py.sorted_strings_reverse
    (map (fun f => Py.replace ".json" ""
                              (Py.replace (prefix ++ "_")%string "" f))
         (json_files prefix listing)).

End DataManager.

(* ===================================================================== *)
(** * Pages and environments to run the scrapers on *)
(* ===================================================================== *)

Module Fixture.
Import Soup Eff.

Definition text_tag (name : string) (a : attrs) (s : string) : node :=
  Tag name a [NavigableString s].

Definition td (s : string) : node := text_tag "td" [] s.
Definition tr (cells : list string) : node := Tag "tr" [] (map td cells).
Definition table (a : attrs) (rows : list (list string)) : node :=
  Tag "table" a (map tr rows).

(** An environment in which every URL serves the same parsed page, or
    fails with the same exception, and in which the k-th call of the
    teardown routine (k = 0, 1, ...) ends as [close k] says.  The world
    is the number of teardown calls made. *)
Definition env (page : outcome element) (close : nat -> outcome unit)
  : Environment :=
  {| World := nat;
     http_get := fun url w =>
                   (match page with
                    | Return _ => Return "<html>"
                    | Raise e => Raise e
                    end, w);
     parse_html := fun _ => match page with
                            | Return doc => doc
                            | Raise _ => document []
                            end;
     close_browser := fun w => (close w, S w) |}.

Definition closes_fine (k : nat) : outcome unit := Return tt.

(** the first teardown call fails, the later ones succeed *)
Definition first_close_fails (k : nat) : outcome unit :=
  match k with
  | O => Raise (Exception "Error" "Browser has been closed")
  | S _ => Return tt
  end.

Definition start {E : Environment} (w : World) : state :=
  {| world := w; teardowns := 0 |}.

Definition timeout : exn := Exception "TimeoutError" "timeout".

(** every fetch times out; the teardown works *)
Definition offline : Environment := env (Raise timeout) closes_fine.

(** every fetch times out, and the first teardown call fails *)
Definition offline_broken_browser : Environment :=
  env (Raise timeout) first_close_fails.

(** readers for pages that have no rich-text block, scholarship section
    or contact section *)
Definition ism_readers : ISM.Readers :=
  {| ISM.rich_text_fees := fun _ _ => ([], []);
     ISM.scholarship_data := unit;
     ISM.read_scholarships := fun _ => Return tt;
     ISM.contact_data := unit;
     ISM.read_contact := fun _ _ => Return tt |}.

Definition bsm_readers : BSM.Readers :=
  {| BSM.key_stage := unit;
     BSM.read_key_stages := fun _ _ => Return [];
     BSM.contact_data := unit;
     BSM.read_contact := fun _ => Return tt;
     BSM.findall_email := fun _ => [] |}.

(** ** The fee tables *)

(** the table of the specification, with one-cell header rows *)
Definition spec_rows : list (list string) :=
  [["REGULAR PROGRAM"]; ["Grade 1"; "100"; "50"; "50"];
   ["SPECIALIZED PROGRAM"]; ["Support A"; "80"; "40"; "40"]].

Definition spec_page : element :=
  document [table [("class", "table")] spec_rows].

(** the same rows in a table without the class [table] *)
Definition plain_table_page : element :=
  document [table [] spec_rows].

(** a first header row with its column titles, a second one in one cell *)
Definition mixed_rows : list (list string) :=
  [["REGULAR PROGRAM"; "Annual"; "Semester 1"; "Semester 2"];
   ["Grade 1"; "100"; "50"; "50"];
   ["SPECIALIZED PROGRAM"];
   ["Support A"; "80"; "40"; "40"]].

Definition mixed_page : element :=
  document [table [("class", "table")] mixed_rows].

(** a table with the regular section only *)
Definition regular_page : element :=
  document
    [table [("class", "table")]
       [["REGULAR PROGRAM"; "Annual"; "Semester 1"; "Semester 2"];
        ["Grade 1"; "100"; "50"; "50"]]].

(** ** Enrollment pages *)

(** the ISM process accordion with its tabs in the order 3, 1, 2 *)
Definition ism_steps_page : element :=
  document
    [Tag "div" [("class", "tabs style-accordion")]
       [text_tag "div" [("class", "tab-title")] "Step 3";
        text_tag "div" [("class", "accordion-content")] "Interview";
        text_tag "div" [("class", "tab-title")] "Step 1";
        text_tag "div" [("class", "accordion-content")] "Apply online";
        text_tag "div" [("class", "tab-title")] "Step 2";
        text_tag "div" [("class", "accordion-content")] "Send documents"]].

(** a BSM panel with its accordion number and title *)
Definition bsm_panel (number title : string) : node :=
  Tag "section" [("class", "fsElement fsPanel")]
    [Tag "h2" [("class", "fsElementTitle")]
       [text_tag "span" [("class", "accordion-number")] number;
        text_tag "a" [] title];
     Tag "div" [("class", "fsElementContent")] []].

Definition bsm_steps_page : element :=
  document
    [Tag "ul" [("class", "fsTabsNav")] [];
     bsm_panel "3" "Step 3"; bsm_panel "1" "Step 1"; bsm_panel "2" "Step 2"].

(** a reader that takes a description holding an [@] for one address *)
Definition bsm_mail_readers : BSM.Readers :=
  {| BSM.key_stage := unit;
     BSM.read_key_stages := fun _ _ => Return [];
     BSM.contact_data := unit;
     BSM.read_contact := fun _ => Return tt;
     BSM.findall_email := fun s => if Py.contains "@" s then [s] else [] |}.

(** a BSM panel without accordion number, with one paragraph of text *)
Definition bsm_text_panel (title text : string) : node :=
  Tag "section" [("class", "fsElement fsPanel")]
    [Tag "h2" [("class", "fsElementTitle")] [text_tag "a" [] title];
     Tag "div" [("class", "fsElementContent")]
       [Tag "section" [("class", "fsElement fsContent")]
          [Tag "div" [("class", "fsElementContent")]
             [text_tag "p" [] text]]]].

Definition bsm_text_page : element :=
  document
    [Tag "ul" [("class", "fsTabsNav")] [];
     bsm_text_panel "Enquire" "admissions@example.org";
     bsm_text_panel "Visit" "Tour the campus"].

(** what the BSM enrollment extractor returns for that page *)
Definition bsm_text_data : BSM.enrollment_data :=
  {| BSM.application_process :=
       [{| BSM.step_number := 1; BSM.title := "Enquire";
           BSM.description := "admissions@example.org" |};
        {| BSM.step_number := 2; BSM.title := "Visit";
           BSM.description := "Tour the campus" |}];
     BSM.requirements := [];
     BSM.contact_email := "admissions@example.org" |}.

(** The requirement tabs of four grade levels: "Birth Certificate" is
    required in three of them, "Medical Form" in one. *)
Definition grade_accordion (grade_name : string) (reqs : list string) : node :=
  Tag "div" [("class", "accordion-wrapper")]
    [Tag "div" [("class", "accordion-header")] [text_tag "h4" [] grade_name];
     Tag "div" [("class", "accordion-content")]
       [Tag "div" [("class", "content")]
          [text_tag "p" [] "Requirements";
           Tag "ul" [] (map (text_tag "li" []) reqs)]]].

Definition requirements_page : element :=
  document
    [Tag "div" [("class", "tabs style-standard")]
       [grade_accordion "Preschool" ["Birth Certificate"];
        grade_accordion "Elementary" ["Birth Certificate"; "Medical Form"];
        grade_accordion "Middle School" ["Birth Certificate"];
        grade_accordion "High School" ["Report Card"]]].

Definition requirements_site : Environment :=
  env (Return requirements_page) closes_fine.

Definition grade (l : list string) : ISM.grade_data :=
  {| ISM.forms := []; ISM.requirements := l |}.

(** two grade levels that share no requirement *)
Definition two_grades_page : element :=
  document
    [Tag "div" [("class", "tabs style-standard")]
       [grade_accordion "Preschool" ["Birth Certificate"];
        grade_accordion "Elementary" ["Medical Form"]]].

Definition two_grades_site : Environment :=
  env (Return two_grades_page) closes_fine.

(** what [parse_requirements_data] reads from that page *)
Definition four_grades : Py.dict ISM.grade_data :=
  [("Preschool", grade ["Birth Certificate"]);
   ("Elementary", grade ["Birth Certificate"; "Medical Form"]);
   ("Middle School", grade ["Birth Certificate"]);
   ("High School", grade ["Report Card"])].

(** what the ISM enrollment extractor returns for that page *)
Definition four_grades_data : ISM.enrollment_data :=
  {| ISM.overview := ""; ISM.steps := [];
     ISM.common_requirements := ["Birth Certificate"];
     ISM.grade_requirements := four_grades |}.

Definition two_grades_data : ISM.enrollment_data :=
  {| ISM.overview := ""; ISM.steps := [];
     ISM.common_requirements := ["Birth Certificate"; "Medical Form"];
     ISM.grade_requirements :=
       [("Preschool", grade ["Birth Certificate"]);
        ("Elementary", grade ["Medical Form"])] |}.

Definition fee (a s1 s2 : string) : ISM.fee :=
  {| ISM.annual := a; ISM.semester1 := s1; ISM.semester2 := s2 |}.

Definition bsm_step (n : Z) (t : string) : BSM.application_step :=
  {| BSM.step_number := n; BSM.title := t; BSM.description := "" |}.

(** ** A catalog entry with one fee URL, and a page without content *)
Definition one_url_school : Scraper.school :=
  [("school_fee", Scraper.Url "https://example.org/fees")].

Definition empty_page : element := document [].

(** a page whose main content is one paragraph of 6000 characters *)
Definition long_page : element :=
  document
    [Tag "main" []
       [text_tag "p" [] (string_of_list_ascii (repeat "a"%char (60 * 100)))]].

(** every URL serves the page without content *)
Definition empty_site : Environment := env (Return empty_page) closes_fine.

(** ** Catalog entries for [scrape_school] *)

(** a school without a scraper of its own: the import of its module fails *)
Definition no_specific_scraper {E : Environment}
  (module_path class_name : string) (sch : Scraper.school) : M unit :=
  raise (Exception "ModuleNotFoundError"
                   ("No module named '" ++ module_path ++ "'")).

Definition clock {E : Environment} (w : World) : string :=
  "2025-01-01 00:00:00".

Definition sample_school : Scraper.school :=
  [("name", Scraper.Url "Sample School");
   ("link", Scraper.Url "https://example.org");
   ("school_fee", Scraper.Url "https://example.org/fees")].

(** the same entry without its link *)
Definition unlinked_school : Scraper.school :=
  [("name", Scraper.Url "Sample School");
   ("school_fee", Scraper.Url "https://example.org/fees")].

End Fixture.

(* ===================================================================== *)
(** * The vocabulary of the properties *)
(* ===================================================================== *)

Module Spec.
Import Eff.

(** A status dictionary is well formed when its status is one of the six
    variants and, if it reports success, it carries its data. *)
Definition well_formed {A : Type} (r : result A) : Prop :=
  In (status r) status_variants
  /\ (status r = "success" -> exists d, data r = Some d).

Section Runs.
Context {E : Environment}.

(** [m] returns a well-formed status dictionary from every state, without
    raising and without touching the rendering engine. *)
Definition returns_variant {A : Type} (m : M (result A)) : Prop :=
  forall s, exists r s',
    m s = (Return r, s') /\ well_formed r /\ teardowns s' = teardowns s.

(** Whenever [body] raises, [m] returns the error dictionary that carries
    the text of the exception. *)
Definition converts_exceptions {A : Type} (body m : M (result A)) : Prop :=
  forall s e s', body s = (Raise e, s') -> m s = (Return (error (str e)), s').

(** [m] returns a well-formed status dictionary from every state, without
    raising. *)
Definition returns_dictionary {A : Type} (m : M (result A)) : Prop :=
  forall s, exists r s', m s = (Return r, s') /\ well_formed r.

(** [m] never raises. *)
Definition never_raises {A : Type} (m : M A) : Prop :=
  forall s, exists a s', m s = (Return a, s').

(** the teardown routine returns normally in every state of the world *)
Definition teardown_succeeds : Prop :=
  forall w, exists w', close_browser w = (Return tt, w').

End Runs.

(** A field of the aggregate record as the specification describes it:
    the payload of a successful extraction, or a whole status dictionary
    whose status is one of the other five variants. *)
Definition field_ok {A : Type} (f : field A) : Prop :=
  match f with
  | Payload _ => True
  | Wrapper r => In (status r) status_variants /\ status r <> "success"
  end.

(** what [r["data"] if r["status"] == "success" else r] evaluates to
    when it does not raise *)
Definition field_of {A : Type} (r : result A) : field A :=
  if String.eqb (status r) "success"
  then match data r with
       | Some d => Payload d
       | None => Wrapper r
       end
  else Wrapper r.

(** The aggregate record of the specification: the name of the school
    and the five category fields. *)
Definition ism_record_complete {R : ISM.Readers} (rec : ISM.school_record)
  : Prop :=
  ISM.rec_name rec = ISM.name
  /\ field_ok (ISM.tuition_fees rec)
  /\ field_ok (ISM.curriculum rec)
  /\ field_ok (ISM.enrollment_process rec)
  /\ field_ok (ISM.scholarships rec)
  /\ field_ok (ISM.contact_info rec).

Definition bsm_record_complete {R : BSM.Readers} (rec : BSM.school_record)
  : Prop :=
  BSM.rec_name rec = BSM.name
  /\ well_formed (BSM.tuition_fees rec)
  /\ well_formed (BSM.curriculum rec)
  /\ well_formed (BSM.enrollment_process rec)
  /\ well_formed (BSM.scholarships rec)
  /\ well_formed (BSM.contact_info rec).

(** [scrape], run through [run_scraper], yields a complete record *)
Definition ism_yields_record {E : Environment} {R : ISM.Readers} (s : state)
  : Prop :=
  exists rec s',
    ISM.scrape s = (Return rec, s')
    /\ App.run_scraper ISM.scrape s = (Return (Some rec), s')
    /\ ism_record_complete rec.

Definition bsm_yields_record {E : Environment} {R : BSM.Readers} (s : state)
  : Prop :=
  exists rec s',
    BSM.scrape s = (Return rec, s')
    /\ App.run_scraper BSM.scrape s = (Return (Some rec), s')
    /\ bsm_record_complete rec.

(** the URLs the catalog supplies for a field, as [_scrape_field] reads
    them *)
Definition urls_of (sch : Scraper.school) (field_name : string) : list string :=
  match Py.dict_get field_name sch with
  | Some (Scraper.Url u) => [u]
  | Some (Scraper.Urls l) => l
  | None => []
  end.

(** a chunk of the output of [_scrape_field] opens with ["From "] or with
    ["Error scraping "] *)
Definition chunk (c : string) : Prop :=
  exists rest, c = String "F" rest \/ c = String "E" rest.

(** the number of occurrences of [r] in [l] *)
Definition count (r : string) (l : list string) : nat :=
  count_occ string_dec l r.

(** the count a [Counter] holds for [r], 0 when [r] is not a key *)
Definition get0 (r : string) (c : Py.dict nat) : nat :=
  match Py.dict_get r c with
  | Some n => n
  | None => 0
  end.

(** the test by which the scans of the fee tables open a section, and the
    dictionary of a section *)
Definition names_section (sec : ISM.section) (text : string) : bool :=
  match sec with
  | ISM.Regular => ISM.is_regular_header_alt text
  | ISM.Specialized => ISM.is_specialized_header text
  end.

Definition programs_of (sec : ISM.section) (d : ISM.tuition_data)
  : Py.dict ISM.fee :=
  match sec with
  | ISM.Regular => ISM.regular_program d
  | ISM.Specialized => ISM.specialized_program d
  end.

(** a list in ascending order of [key] *)
Definition ascending {A : Type} (key : A -> Z) (l : list A) : Prop :=
  Sorted Z.le (map key l).

(** every fee stored in the two program dictionaries has an annual fee *)
Definition has_annual (d : Py.dict ISM.fee * Py.dict ISM.fee) : Prop :=
  Forall (fun kv => Py.truthy (ISM.annual (snd kv)) = true) (fst d)
  /\ Forall (fun kv => Py.truthy (ISM.annual (snd kv)) = true) (snd d).

(** no section [sec] is open and its dictionary is empty *)
Definition untouched (sec : ISM.section) (st : ISM.scan_state) : Prop :=
  fst st <> Some sec
  /\ match sec with
     | ISM.Regular => fst (snd st) = []
     | ISM.Specialized => snd (snd st) = []
     end.

(** no row of any table of the page names the section [sec] *)
Definition never_named (sec : ISM.section) (soup : Soup.element) : Prop :=
  forall table cells,
    In table (Soup.find_all ["table"] soup) ->
    In cells (ISM.rows_of table) ->
    names_section sec (ISM.cell 0 cells) = false.



(** the address reported by the BSM enrollment extractor is the first
    match of the e-mail pattern in the description of [st] *)
Definition email_of_step {R : BSM.Readers} (email : string)
  (st : BSM.application_step) : Prop :=
  hd_error (BSM.findall_email (BSM.description st)) = Some email.


(** A text in which every whitespace character is one blank that follows
    a character other than whitespace; [after_space] tells whether the
    character before the text was whitespace (or the text is at the start
    of a string). *)
Fixpoint single_spaced (after_space : bool) (s : string) : bool :=
  match s with
  | EmptyString => true
  | String c s' =>
      if Py.isspace c
      then Ascii.eqb c " "%char && negb after_space && single_spaced true s'
      else single_spaced false s'
  end.

(** what [_scrape_field] appends for a URL: the extracted content of a
    page served for it, or the text of the exception *)
Definition chunk_for {E : Environment} (field_name url c : string) : Prop :=
  (exists text,
      c = ("From " ++ url ++ ":
" ++ Scraper._extract_content (parse_html text) field_name)%string)
  \/ (exists e, c = ("Error scraping " ++ url ++ ": " ++ str e)%string).


(** what [_scrape_field] yields for a catalog key: the sentinel when the
    key supplies no non-empty URL, and a text that opens with a chunk
    otherwise *)
Definition field_text (sch : Scraper.school) (key text : string) : Prop :=
  match filter Py.truthy (urls_of sch key) with
  | [] => text = "No data available"
  | _ :: _ => chunk text
  end.

(** the six texts of a [SchoolInfo], in the order of their assignments *)
Definition texts (i : Scraper.SchoolInfo) : list string :=
  [Scraper.school_fee i; Scraper.program i; Scraper.enrollment_process i;
   Scraper.events i; Scraper.discounts_scholarships i;
   Scraper.contact_info i].

(** a file name that [load_latest_results] and [get_available_datasets]
    take for a data set of the prefix *)
Definition dataset_file (prefix f : string) : bool :=
  Py.startswith prefix f && Py.endswith ".json" f.

(** a text without a full stop *)
Fixpoint no_dot (s : string) : bool :=
  match s with
  | EmptyString => true
  | String c s' => negb (Ascii.eqb c "."%char) && no_dot s'
  end.


(** An entry of a program dictionary of the curriculum: its type is
    [ty], its description is its name as [clean] leaves it, and its name
    is not empty. *)
Definition program_entry (clean : string -> string) (ty : string)
  (kv : string * ISM.program) : Prop :=
  ISM.type (snd kv) = ty
  /\ ISM.description (snd kv) = clean (fst kv)
  /\ Py.truthy (fst kv) = true.

(** the clean-up of lines 417-422 *)
Definition tidied (s : string) : string := Py.strip (Py.sub_whitespace s).

(** a name that is no header of a section *)
Definition no_header (kv : string * ISM.program) : Prop :=
  Py.contains "PROGRAM" (Py.upper (fst kv)) = false.

End Spec.

(* ===================================================================== *)
(** * Properties *)
(* ===================================================================== *)

Import Soup Eff Spec.
Local Open Scope eff_scope.

(** ** Python strings *)

Example upper_ex : Py.upper "Regular Program" = "REGULAR PROGRAM".
Proof. reflexivity. Qed.

Example split_ex :
  Py.split "  International  School Manila "
  = ["International"; "School"; "Manila"].
Proof. reflexivity. Qed.

Example strip_ex : Py.strip "  a b  " = "a b".
Proof. reflexivity. Qed.

Example strip_markup_ex : Py.strip_markup "a<b>c<>d<e" = "ac<>d<e".
Proof. reflexivity. Qed.

Example int_ex :
  Py.int " 12 " = Some 12%Z /\ Py.int "1_0" = Some 10%Z
  /\ Py.int "3." = None /\ Py.int "" = None.
Proof. repeat split; reflexivity. Qed.

Lemma slice_to_length : forall n s, String.length (Py.slice_to n s) <= n.
Proof.
  induction n as [|n IH]; intros s.
  - reflexivity.
  - destruct s as [|c s]; simpl.
    + lia.
    + specialize (IH s). lia.
Qed.

Lemma slice_to_truthy : forall n s,
  Py.truthy s = true -> Py.truthy (Py.slice_to (S n) s) = true.
Proof. intros n [|c s] H; [discriminate | reflexivity]. Qed.

(** ** Running a computation *)

Section Effects.
Context {E : Environment}.

Lemma session_get_teardowns : forall url s o s',
  session_get url s = (o, s') -> teardowns s' = teardowns s.
Proof.
  unfold session_get; intros url s o s' H.
  destruct (http_get url (world s)) as [r w].
  inversion H; subst; reflexivity.
Qed.

Lemma in_variants_success : In "success" status_variants.
Proof. simpl; auto. Qed.

Lemma in_variants_error : In "error" status_variants.
Proof. simpl; auto 10. Qed.

Lemma well_formed_success {A : Type} (d : A) : well_formed (success d).
Proof. split; [apply in_variants_success | intros _; exists d; reflexivity]. Qed.

Lemma well_formed_error {A : Type} (msg : string) : well_formed (@error A msg).
Proof. split; [apply in_variants_error | simpl; discriminate]. Qed.

Lemma well_formed_skipped {A : Type} (msg : string) :
  well_formed (@skipped A msg).
Proof. split; [simpl; auto 10 | simpl; discriminate]. Qed.

Lemma well_formed_not_implemented {A : Type} (msg : string) :
  well_formed (@not_implemented A msg).
Proof. split; [simpl; auto 10 | simpl; discriminate]. Qed.

(** The frame of a category method turns a body that returns well-formed
    dictionaries into a method that always returns one. *)
Lemma guarded_returns_variant {A : Type} (body : M (result A)) :
  (forall s r s', body s = (Return r, s') -> well_formed r) ->
  (forall s o s', body s = (o, s') -> teardowns s' = teardowns s) ->
  returns_variant (guarded body).
Proof.
  intros Hwf Htd s. unfold guarded, try_except.
  destruct (body s) as [[r|e] s'] eqn:Hb.
  - exists r, s'. split; [reflexivity|]. split; [eauto | eauto].
  - exists (error (str e)), s'. split; [reflexivity|].
    split; [apply well_formed_error | eauto].
Qed.

Lemma well_formed_dictionary {A : Type} (r : reply A) :
  well_formed (dictionary r).
Proof.
  destruct r; split; simpl; auto 10; try discriminate.
  intros _; eexists; reflexivity.
Qed.

(** a method framed as the category methods are returns a dictionary of
    one of the six variants, whatever its body does *)
Lemma category_method_returns {A : Type} (body : M (reply A)) :
  returns_dictionary (category_method body).
Proof.
  intros s. unfold category_method, guarded, try_except, bind, ret.
  destruct (body s) as [[r|e] s'].
  - exists (dictionary r), s'. split; [reflexivity|].
    apply well_formed_dictionary.
  - exists (error (str e)), s'. split; [reflexivity|].
    apply well_formed_error.
Qed.

Lemma guarded_converts {A : Type} (body : M (result A)) :
  converts_exceptions body (guarded body).
Proof.
  intros s e s' Hb. unfold guarded, try_except. rewrite Hb. reflexivity.
Qed.

(** a page read after one fetch: the shape of most category bodies *)
Lemma fetch_then_pure {A : Type} (url : string) (f : string -> result A) :
  (forall text, well_formed (f text)) ->
  returns_variant (guarded (text <- session_get url ;; ret (f text))).
Proof.
  intros Hf. apply guarded_returns_variant.
  - intros s r s'. unfold bind, ret.
    destruct (session_get url s) as [[text|e] s1]; intros H; inversion H; subst.
    apply Hf.
  - intros s o s'. unfold bind, ret.
    destruct (session_get url s) as [[text|e] s1] eqn:Hg; intros H;
      inversion H; subst; eapply session_get_teardowns; eauto.
Qed.

(** the same with a reader that may raise between the fetch and the
    final [return] *)
Lemma fetch_then_read {A : Type} (url : string) (f : string -> outcome A) :
  returns_variant
    (guarded (text <- session_get url ;; d <- lift (f text) ;; ret (success d))).
Proof.
  apply guarded_returns_variant.
  - intros s r s'. unfold bind, ret, lift.
    destruct (session_get url s) as [[text|e] s1]; [|intros H; inversion H].
    destruct (f text) as [d|e]; intros H; inversion H; subst.
    apply well_formed_success.
  - intros s o s'. unfold bind, ret, lift.
    destruct (session_get url s) as [[text|e] s1] eqn:Hg.
    + destruct (f text) as [d|e]; intros H; inversion H; subst;
        eapply session_get_teardowns; eauto.
    + intros H; inversion H; subst; eapply session_get_teardowns; eauto.
Qed.

Lemma bind_return {A B : Type} (m : M A) (k : A -> M B) s a s' :
  m s = (Return a, s') -> bind m k s = k a s'.
Proof. intros H; unfold bind; rewrite H; reflexivity. Qed.

Lemma close_playwright_counts : forall s o s',
  close_playwright s = (o, s') -> teardowns s' = S (teardowns s).
Proof.
  unfold close_playwright; intros s o s' H.
  destruct (close_browser (world s)) as [r w].
  inversion H; subst; reflexivity.
Qed.

Lemma field_of_ok {A : Type} (r : result A) :
  well_formed r -> field_ok (field_of r).
Proof.
  intros [Hin Hdata]. unfold field_of.
  destruct (String.eqb (status r) "success") eqn:Hs.
  - apply String.eqb_eq in Hs. destruct (Hdata Hs) as [d Hd].
    rewrite Hd. exact I.
  - apply String.eqb_neq in Hs. split; assumption.
Qed.

End Effects.

(** ** The category methods of the ISM and BSM extractors *)

Section Categories.
Context {E : Environment} {RI : ISM.Readers} {RB : BSM.Readers}.

Lemma ism_tuition_well_formed : forall soup,
  well_formed (ISM.tuition_of_page soup).
Proof.
  intros soup. unfold ISM.tuition_of_page.
  destruct (select_one ISM.table_table soup); cbv zeta.
  - apply well_formed_success.
  - apply well_formed_error.
Qed.

Lemma ism_tuition_returns : returns_variant ISM.scrape_tuition_fees.
Proof.
  apply (fetch_then_pure _ (fun text => ISM.tuition_of_page (parse_html text))).
  intros text. apply ism_tuition_well_formed.
Qed.

Lemma ism_curriculum_returns : returns_variant ISM.scrape_curriculum.
Proof.
  apply (fetch_then_pure _ (fun text => ISM.curriculum_of_page (parse_html text))).
  intros text. apply well_formed_success.
Qed.

Lemma ism_enrollment_returns : returns_variant ISM.scrape_enrollment_process.
Proof.
  apply (fetch_then_pure _
           (fun text => ISM.enrollment_of_page text (parse_html text))).
  intros text. apply well_formed_success.
Qed.

Lemma ism_scholarships_returns : returns_variant ISM.scrape_scholarships.
Proof.
  apply (fetch_then_read _ (fun text => ISM.read_scholarships (parse_html text))).
Qed.

Lemma ism_contact_returns : returns_variant ISM.scrape_contact_info.
Proof.
  apply (fetch_then_read _ (fun text => ISM.read_contact text (parse_html text))).
Qed.

Lemma bsm_tuition_returns : returns_variant BSM.scrape_tuition_fees.
Proof.
  intros s. eexists. exists s. split; [reflexivity|].
  split; [apply well_formed_skipped | reflexivity].
Qed.

Lemma bsm_scholarships_returns : returns_variant BSM.scrape_scholarships.
Proof.
  intros s. eexists. exists s. split; [reflexivity|].
  split; [apply well_formed_not_implemented | reflexivity].
Qed.

Lemma bsm_curriculum_returns : returns_variant BSM.scrape_curriculum.
Proof.
  apply guarded_returns_variant.
  - intros s r s'. unfold BSM.curriculum_body, bind, ret, lift. cbv zeta.
    destruct (session_get _ s) as [[text|e] s1]; [|intros H; inversion H].
    destruct (select_one _ (parse_html text)) as [container|].
    + destruct (BSM.read_key_stages _ container) as [d|e];
        intros H; inversion H; subst. apply well_formed_success.
    + intros H; inversion H; subst. apply well_formed_error.
  - intros s o s'. unfold BSM.curriculum_body, bind, ret, lift. cbv zeta.
    destruct (session_get _ s) as [[text|e] s1] eqn:Hg.
    + destruct (select_one _ (parse_html text)) as [container|].
      * destruct (BSM.read_key_stages _ container) as [d|e];
          intros H; inversion H; subst; eapply session_get_teardowns; eauto.
      * intros H; inversion H; subst; eapply session_get_teardowns; eauto.
    + intros H; inversion H; subst; eapply session_get_teardowns; eauto.
Qed.

Lemma bsm_enrollment_well_formed : forall soup,
  well_formed (BSM.enrollment_of_page soup).
Proof.
  intros soup. unfold BSM.enrollment_of_page.
  destruct (select_one _ soup); cbv zeta.
  - apply well_formed_success.
  - apply well_formed_error.
Qed.

Lemma bsm_enrollment_returns : returns_variant BSM.scrape_enrollment_process.
Proof.
  apply (fetch_then_pure _ (fun text => BSM.enrollment_of_page (parse_html text))).
  intros text. apply bsm_enrollment_well_formed.
Qed.

Lemma bsm_contact_returns : returns_variant BSM.scrape_contact_info.
Proof.
  apply (fetch_then_read _ (fun text => BSM.read_contact (parse_html text))).
Qed.

Lemma unwrap_well_formed {A : Type} (r : result A) s :
  well_formed r -> ISM.unwrap r s = (Return (field_of r), s).
Proof.
  intros [_ Hdata]. unfold ISM.unwrap, field_of.
  destruct (String.eqb (status r) "success") eqn:Hs; [|reflexivity].
  apply String.eqb_eq in Hs. destruct (Hdata Hs) as [d Hd].
  rewrite Hd. reflexivity.
Qed.

(** The five category methods run one after the other, each returning a
    well-formed dictionary, and the record is built from them. *)
Lemma ism_collect_results_spec : forall s,
  exists rt rc re rs rk s1 s2 s3 s4 s5,
    ISM.scrape_tuition_fees s = (Return rt, s1)
    /\ ISM.scrape_curriculum s1 = (Return rc, s2)
    /\ ISM.scrape_enrollment_process s2 = (Return re, s3)
    /\ ISM.scrape_scholarships s3 = (Return rs, s4)
    /\ ISM.scrape_contact_info s4 = (Return rk, s5)
    /\ (well_formed rt /\ well_formed rc /\ well_formed re
        /\ well_formed rs /\ well_formed rk)
    /\ teardowns s5 = teardowns s
    /\ ISM.collect_results s
       = (Return {| ISM.rec_name := ISM.name;
                    ISM.tuition_fees := field_of rt;
                    ISM.curriculum := field_of rc;
                    ISM.enrollment_process := field_of re;
                    ISM.scholarships := field_of rs;
                    ISM.contact_info := field_of rk |}, s5).
Proof.
  intros s.
  destruct (ism_tuition_returns s) as (rt & s1 & Ht & Wt & Tt).
  destruct (ism_curriculum_returns s1) as (rc & s2 & Hc & Wc & Tc).
  destruct (ism_enrollment_returns s2) as (re & s3 & He & We & Te).
  destruct (ism_scholarships_returns s3) as (rs & s4 & Hs & Ws & Ts).
  destruct (ism_contact_returns s4) as (rk & s5 & Hk & Wk & Tk).
  exists rt, rc, re, rs, rk, s1, s2, s3, s4, s5.
  repeat (split; [assumption|]).
  split; [repeat split; apply Wt || apply Wc || apply We || apply Ws || apply Wk|].
  split; [congruence|].
  unfold ISM.collect_results.
  rewrite (bind_return _ _ _ _ _ Ht), (bind_return _ _ _ _ _ Hc),
    (bind_return _ _ _ _ _ He), (bind_return _ _ _ _ _ Hs),
    (bind_return _ _ _ _ _ Hk).
  rewrite (bind_return _ _ _ _ _ (unwrap_well_formed rt s5 Wt)),
    (bind_return _ _ _ _ _ (unwrap_well_formed rc s5 Wc)),
    (bind_return _ _ _ _ _ (unwrap_well_formed re s5 We)),
    (bind_return _ _ _ _ _ (unwrap_well_formed rs s5 Ws)),
    (bind_return _ _ _ _ _ (unwrap_well_formed rk s5 Wk)).
  reflexivity.
Qed.

Lemma bsm_collect_results_spec : forall s,
  exists rt rc re rs rk s1 s2 s3 s4 s5,
    BSM.scrape_tuition_fees s = (Return rt, s1)
    /\ BSM.scrape_curriculum s1 = (Return rc, s2)
    /\ BSM.scrape_enrollment_process s2 = (Return re, s3)
    /\ BSM.scrape_scholarships s3 = (Return rs, s4)
    /\ BSM.scrape_contact_info s4 = (Return rk, s5)
    /\ (well_formed rt /\ well_formed rc /\ well_formed re
        /\ well_formed rs /\ well_formed rk)
    /\ teardowns s5 = teardowns s
    /\ BSM.collect_results s
       = (Return {| BSM.rec_name := BSM.name;
                    BSM.tuition_fees := rt;
                    BSM.curriculum := rc;
                    BSM.enrollment_process := re;
                    BSM.scholarships := rs;
                    BSM.contact_info := rk |}, s5).
Proof.
  intros s.
  destruct (bsm_tuition_returns s) as (rt & s1 & Ht & Wt & Tt).
  destruct (bsm_curriculum_returns s1) as (rc & s2 & Hc & Wc & Tc).
  destruct (bsm_enrollment_returns s2) as (re & s3 & He & We & Te).
  destruct (bsm_scholarships_returns s3) as (rs & s4 & Hs & Ws & Ts).
  destruct (bsm_contact_returns s4) as (rk & s5 & Hk & Wk & Tk).
  exists rt, rc, re, rs, rk, s1, s2, s3, s4, s5.
  repeat (split; [assumption|]).
  split; [repeat split; apply Wt || apply Wc || apply We || apply Ws || apply Wk|].
  split; [congruence|].
  unfold BSM.collect_results.
  rewrite (bind_return _ _ _ _ _ Ht), (bind_return _ _ _ _ _ Hc),
    (bind_return _ _ _ _ _ He), (bind_return _ _ _ _ _ Hs),
    (bind_return _ _ _ _ _ Hk).
  reflexivity.
Qed.

(** The aggregate [scrape] after the five category methods: one call of
    the teardown routine, and a second one if the first raises. *)
Lemma ism_scrape_after_collect : forall s rec s5,
  ISM.collect_results s = (Return rec, s5) ->
  ISM.scrape s
  = match close_playwright s5 with
    | (Return _, s6) => (Return rec, s6)
    | (Raise e, s6) =>
        match close_playwright s6 with
        | (Return _, s7) => (Raise e, s7)
        | (Raise e', s7) => (Raise e', s7)
        end
    end.
Proof.
  intros s rec s5 H. unfold ISM.scrape, try_except.
  rewrite (bind_return _ _ _ _ _ H). unfold bind, ret, raise.
  destruct (close_playwright s5) as [[u|e] s6]; [reflexivity|].
  destruct (close_playwright s6) as [[u|e'] s7]; reflexivity.
Qed.

Lemma bsm_scrape_after_collect : forall s rec s5,
  BSM.collect_results s = (Return rec, s5) ->
  BSM.scrape s
  = match close_playwright s5 with
    | (Return _, s6) => (Return rec, s6)
    | (Raise e, s6) =>
        match close_playwright s6 with
        | (Return _, s7) => (Raise e, s7)
        | (Raise e', s7) => (Raise e', s7)
        end
    end.
Proof.
  intros s rec s5 H. unfold BSM.scrape, try_except.
  rewrite (bind_return _ _ _ _ _ H). unfold bind, ret, raise.
  destruct (close_playwright s5) as [[u|e] s6]; [reflexivity|].
  destruct (close_playwright s6) as [[u|e'] s7]; reflexivity.
Qed.

(** The teardown routine is invoked once when [scrape] returns and twice
    when it raises. *)
Lemma ism_scrape_teardowns : forall s o s',
  ISM.scrape s = (o, s') ->
  match o with
  | Return _ => teardowns s' = 1 + teardowns s
  | Raise _ => teardowns s' = 2 + teardowns s
  end.
Proof.
  intros s o s' H.
  destruct (ism_collect_results_spec s)
    as (rt & rc & re & rs & rk & s1 & s2 & s3 & s4 & s5 & _ & _ & _ & _ & _
        & _ & Htd & Hcol).
  rewrite (ism_scrape_after_collect _ _ _ Hcol) in H.
  destruct (close_playwright s5) as [[u|e] s6] eqn:H1.
  - inversion H; subst. apply close_playwright_counts in H1. lia.
  - apply close_playwright_counts in H1.
    destruct (close_playwright s6) as [[u|e'] s7] eqn:H2;
      apply close_playwright_counts in H2; inversion H; subst; lia.
Qed.

Lemma bsm_scrape_teardowns : forall s o s',
  BSM.scrape s = (o, s') ->
  match o with
  | Return _ => teardowns s' = 1 + teardowns s
  | Raise _ => teardowns s' = 2 + teardowns s
  end.
Proof.
  intros s o s' H.
  destruct (bsm_collect_results_spec s)
    as (rt & rc & re & rs & rk & s1 & s2 & s3 & s4 & s5 & _ & _ & _ & _ & _
        & _ & Htd & Hcol).
  rewrite (bsm_scrape_after_collect _ _ _ Hcol) in H.
  destruct (close_playwright s5) as [[u|e] s6] eqn:H1.
  - inversion H; subst. apply close_playwright_counts in H1. lia.
  - apply close_playwright_counts in H1.
    destruct (close_playwright s6) as [[u|e'] s7] eqn:H2;
      apply close_playwright_counts in H2; inversion H; subst; lia.
Qed.

Lemma close_playwright_succeeds : teardown_succeeds ->
  forall s, exists s', close_playwright s = (Return tt, s').
Proof.
  intros Hc s. unfold close_playwright.
  destruct (Hc (world s)) as [w' Hw]. rewrite Hw. eexists; reflexivity.
Qed.

End Categories.

(** ** The universal scraper *)

Lemma extract_content_truthy : forall soup field_name,
  Py.truthy (Scraper._extract_content soup field_name) = true.
Proof.
  intros soup field_name. unfold Scraper._extract_content. cbv zeta.
  match goal with
  | |- Py.truthy (if Py.truthy ?c then _ else _) = true =>
      destruct (Py.truthy c) eqn:Hc
  end.
  - change Scraper.max_length with (S 4999). apply slice_to_truthy. exact Hc.
  - reflexivity.
Qed.

Lemma chunk_first_char : forall c,
  chunk c -> c <> "" /\ forall rest, c <> String "N" rest.
Proof.
  intros c [rest [H|H]]; subst; split; intros; discriminate.
Qed.

Lemma join_chunks : forall sep c cs,
  chunk c -> chunk (Py.join sep (c :: cs)).
Proof.
  intros sep c cs [rest [H|H]]; subst; destruct cs as [|c' cs]; simpl;
    eexists; (left; reflexivity) || (right; reflexivity).
Qed.

Section Universal.
Context {E : Environment}.

(** One URL: an empty one is skipped, any other adds one chunk. *)
Lemma scrape_url_spec : forall field_name results url s,
  exists added s',
    Scraper.scrape_url field_name results url s = (Return (results ++ added), s')
    /\ Forall chunk added
    /\ List.length added = List.length (filter Py.truthy [url]).
Proof.
  intros field_name results url s.
  unfold Scraper.scrape_url, try_except, bind, ret. simpl filter.
  destruct (Py.truthy url) eqn:Hu; unfold negb; cbv beta iota zeta.
  - destruct (session_get url s) as [[text|e] s1].
    + rewrite extract_content_truthy.
      eexists [_], s1. split; [reflexivity|]. split; [|reflexivity].
      constructor; [|constructor]. eexists; left; reflexivity.
    + eexists [_], s1. split; [reflexivity|]. split; [|reflexivity].
      constructor; [|constructor]. eexists; right; reflexivity.
  - exists [], s. rewrite app_nil_r.
    split; [reflexivity|]. split; [constructor | reflexivity].
Qed.

Lemma scrape_urls_spec : forall field_name urls results s,
  exists added s',
    Scraper.scrape_urls field_name results urls s
    = (Return (results ++ added), s')
    /\ Forall chunk added
    /\ List.length added = List.length (filter Py.truthy urls).
Proof.
  intros field_name urls. induction urls as [|url urls IH]; intros results s.
  - exists [], s. simpl. unfold ret. rewrite app_nil_r.
    repeat split; constructor.
  - destruct (scrape_url_spec field_name results url s)
      as (a1 & s1 & H1 & F1 & L1).
    destruct (IH (results ++ a1) s1) as (a2 & s2 & H2 & F2 & L2).
    exists (a1 ++ a2), s2. cbn [Scraper.scrape_urls].
    rewrite (bind_return _ _ _ _ _ H1), H2, app_assoc.
    split; [reflexivity|]. split.
    + apply Forall_app; split; assumption.
    + rewrite length_app, L1, L2. simpl filter.
      destruct (Py.truthy url); reflexivity.
Qed.

(** [_scrape_field] returns a chunk-opened text when some URL of the
    field is not empty, and its sentinel otherwise. *)
Lemma scrape_field_spec : forall sch field_name s,
  exists r s',
    Scraper._scrape_field sch field_name s = (Return r, s')
    /\ match filter Py.truthy (urls_of sch field_name) with
       | [] => r = "No data available"
       | _ :: _ => chunk r
       end.
Proof.
  intros sch field_name s. unfold Scraper._scrape_field, urls_of. cbv zeta.
  destruct (Py.dict_get field_name sch) as [[u|l]|].
  - simpl filter. destruct (Py.truthy u) eqn:Hu.
    + destruct (scrape_urls_spec field_name [u] [] s) as (a & s' & H & F & L).
      rewrite (bind_return _ _ _ _ _ H). simpl in L. rewrite Hu in L.
      destruct a as [|c a]; [discriminate|].
      change (Py.nonempty ([] ++ c :: a)) with true. cbv iota.
      eexists _, s'. split; [reflexivity|].
      apply join_chunks. inversion F; assumption.
    + exists "No data available", s. split; reflexivity.
  - destruct l as [|u l].
    + exists "No data available", s. split; reflexivity.
    + change (Py.nonempty (u :: l)) with true. cbv iota.
      destruct (scrape_urls_spec field_name (u :: l) [] s)
        as (a & s' & H & F & L).
      rewrite (bind_return _ _ _ _ _ H).
      destruct a as [|c a].
      * exists "No data available", s'. split; [reflexivity|].
        destruct (filter Py.truthy (u :: l)); [reflexivity | discriminate].
      * change (Py.nonempty ([] ++ c :: a)) with true. cbv iota.
        eexists _, s'. split; [reflexivity|].
        destruct (filter Py.truthy (u :: l)); [discriminate|].
        apply join_chunks. inversion F; assumption.
  - exists "No data available", s. split; reflexivity.
Qed.

End Universal.

(** ** Counting and sorting *)

Lemma dict_get_counter_add : forall x c r,
  Py.dict_get r (Py.counter_add x c)
  = if String.eqb r x then Some (S (get0 x c)) else Py.dict_get r c.
Proof.
  intros x c r. unfold get0. induction c as [|[k n] c IH]; simpl.
  - reflexivity.
  - destruct (String.eqb x k) eqn:Hxk; simpl.
    + apply String.eqb_eq in Hxk; subst k.
      destruct (String.eqb r x); reflexivity.
    + destruct (String.eqb r k) eqn:Hrk.
      * apply String.eqb_eq in Hrk; subst k.
        rewrite String.eqb_sym, Hxk. reflexivity.
      * exact IH.
Qed.

Lemma keys_counter_add : forall x c,
  Py.keys (Py.counter_add x c)
  = if existsb (String.eqb x) (Py.keys c) then Py.keys c
    else Py.keys c ++ [x].
Proof.
  intros x c. unfold Py.keys. induction c as [|[k n] c IH]; simpl.
  - reflexivity.
  - destruct (String.eqb x k) eqn:Hxk; simpl.
    + reflexivity.
    + rewrite IH.
      destruct (existsb (String.eqb x) (map fst c)); reflexivity.
Qed.

Lemma nodup_counter_add : forall x c,
  NoDup (Py.keys c) -> NoDup (Py.keys (Py.counter_add x c)).
Proof.
  intros x c H. rewrite keys_counter_add.
  destruct (existsb (String.eqb x) (Py.keys c)) eqn:Hx; [exact H|].
  apply NoDup_app; [exact H | repeat constructor; intros [] | ].
  intros y Hy [Hxy|[]]; subst y.
  assert (existsb (String.eqb x) (Py.keys c) = true); [|congruence].
  apply existsb_exists. exists x. split; [exact Hy | apply String.eqb_refl].
Qed.

Lemma counter_fold_get : forall l c r,
  get0 r (fold_left (fun c x => Py.counter_add x c) l c) = get0 r c + count r l.
Proof.
  induction l as [|x l IH]; intros c r; simpl.
  - unfold count; simpl; lia.
  - rewrite IH. unfold get0 at 1. rewrite dict_get_counter_add.
    unfold count; simpl.
    destruct (String.eqb r x) eqn:Hrx.
    + apply String.eqb_eq in Hrx; subst x.
      destruct (string_dec r r); [lia | congruence].
    + apply String.eqb_neq in Hrx.
      destruct (string_dec x r); [congruence | reflexivity].
Qed.

Lemma counter_fold_nodup : forall l c,
  NoDup (Py.keys c) ->
  NoDup (Py.keys (fold_left (fun c x => Py.counter_add x c) l c)).
Proof.
  induction l as [|x l IH]; intros c H; simpl.
  - exact H.
  - apply IH, nodup_counter_add, H.
Qed.

(** values that were counted are positive *)
Lemma counter_fold_positive : forall l c,
  (forall r n, In (r, n) c -> 0 < n) ->
  forall r n, In (r, n) (fold_left (fun c x => Py.counter_add x c) l c) -> 0 < n.
Proof.
  induction l as [|x l IH]; intros c H; simpl.
  - exact H.
  - apply IH. clear IH. intros r n.
    induction c as [|[k m] c IHc]; simpl.
    + intros [Heq|[]]. inversion Heq; lia.
    + destruct (String.eqb x k); simpl.
      * intros [Heq|Hin]; [inversion Heq; lia | eapply H; right; exact Hin].
      * intros [Heq|Hin]; [eapply H; left; exact Heq|].
        apply IHc; [|exact Hin]. intros r' n' Hin'. eapply H; right; exact Hin'.
Qed.

Lemma in_dict_get : forall (c : Py.dict nat) r n,
  NoDup (Py.keys c) -> (In (r, n) c <-> Py.dict_get r c = Some n).
Proof.
  induction c as [|[k m] c IH]; intros r n Hnd; simpl.
  - split; [intros [] | discriminate].
  - inversion Hnd as [|? ? Hk Hc]; subst.
    destruct (String.eqb r k) eqn:Hrk.
    + apply String.eqb_eq in Hrk; subst k. split.
      * intros [Heq|Hin]; [inversion Heq; reflexivity|].
        exfalso. apply Hk. change r with (fst (r, n)). apply in_map, Hin.
      * intros Heq; inversion Heq; left; reflexivity.
    + apply String.eqb_neq in Hrk. rewrite <- (IH r n Hc). split.
      * intros [Heq|Hin]; [inversion Heq; congruence | exact Hin].
      * intros Hin; right; exact Hin.
Qed.

(** [Counter(l)] holds exactly the elements of [l], each with the number
    of its occurrences. *)
Lemma in_counter : forall l r n,
  In (r, n) (Py.Counter l) <-> In r l /\ n = count r l.
Proof.
  intros l r n. unfold Py.Counter.
  pose proof (counter_fold_nodup l [] (NoDup_nil _)) as Hnd.
  pose proof (counter_fold_get l [] r) as Hget.
  pose proof (counter_fold_positive l [] (fun _ _ H => match H with end)) as Hpos.
  rewrite (in_dict_get _ r n Hnd). unfold get0 in Hget. simpl in Hget.
  split.
  - intros Hd. rewrite Hd in Hget.
    assert (0 < n) as Hc.
    { apply (Hpos r). apply (in_dict_get _ r _ Hnd). exact Hd. }
    split; [|exact Hget]. apply (count_occ_In string_dec).
    fold (count r l). lia.
  - intros [Hin Hn]. subst n.
    apply (count_occ_In string_dec) in Hin. fold (count r l) in Hin.
    destruct (Py.dict_get r _) as [m|]; [congruence | lia].
Qed.

Lemma infer_common_spec : forall grades r,
  In r (ISM.infer_common grades)
  <-> In r (ISM.all_requirements grades)
      /\ List.length grades / 2 <= count r (ISM.all_requirements grades).
Proof.
  intros grades r. unfold ISM.infer_common, ISM.common_threshold.
  rewrite in_map_iff. split.
  - intros [[r' n] [Hr Hin]]. simpl in Hr; subst r'.
    apply filter_In in Hin. destruct Hin as [Hin Hle].
    apply in_counter in Hin. destruct Hin as [Hin Hn]. subst n.
    simpl in Hle. apply Nat.leb_le in Hle. split; assumption.
  - intros [Hin Hle].
    exists (r, count r (ISM.all_requirements grades)). split; [reflexivity|].
    apply filter_In. split.
    + apply in_counter. split; [assumption | reflexivity].
    + simpl. apply Nat.leb_le. exact Hle.
Qed.

Section Sorting.
Context {A : Type} (key : A -> Z).

Lemma insert_by_perm : forall x l, Permutation (x :: l) (Py.insert_by key x l).
Proof.
  intros x l. induction l as [|y l IH]; simpl.
  - apply Permutation_refl.
  - destruct (Z.leb (key x) (key y)).
    + apply Permutation_refl.
    + apply perm_trans with (y :: x :: l); [apply perm_swap|].
      apply perm_skip, IH.
Qed.

Lemma sort_by_perm : forall l, Permutation l (Py.sort_by key l).
Proof.
  induction l as [|x l IH]; simpl.
  - apply perm_nil.
  - apply perm_trans with (x :: Py.sort_by key l).
    + apply perm_skip, IH.
    + apply insert_by_perm.
Qed.

Lemma insert_by_sorted : forall x l,
  Sorted Z.le (map key l) -> Sorted Z.le (map key (Py.insert_by key x l)).
Proof.
  intros x l. induction l as [|y l IH]; simpl; intros Hs.
  - repeat constructor.
  - destruct (Z.leb (key x) (key y)) eqn:Hxy; simpl.
    + constructor; [exact Hs|]. constructor. apply Z.leb_le, Hxy.
    + apply Z.leb_gt in Hxy. apply Sorted_inv in Hs. destruct Hs as [Hs Hhd].
      constructor; [apply IH, Hs|].
      destruct l as [|z l]; simpl.
      * constructor. lia.
      * destruct (Z.leb (key x) (key z)); simpl; constructor.
        -- lia.
        -- simpl in Hhd. inversion Hhd; assumption.
Qed.

Lemma sort_by_sorted : forall l, Sorted Z.le (map key (Py.sort_by key l)).
Proof.
  induction l as [|x l IH]; simpl.
  - constructor.
  - apply insert_by_sorted, IH.
Qed.

(** the sort is stable: the elements of any one key keep their order *)
Lemma insert_by_filter : forall k x l,
  Sorted Z.le (map key l) ->
  filter (fun y => Z.eqb (key y) k) (Py.insert_by key x l)
  = filter (fun y => Z.eqb (key y) k) (x :: l).
Proof.
  intros k x l. induction l as [|y l IH]; intros Hs.
  - reflexivity.
  - cbn [Py.insert_by]. destruct (Z.leb (key x) (key y)) eqn:Hxy.
    + reflexivity.
    + apply Z.leb_gt in Hxy. apply Sorted_inv in Hs. destruct Hs as [Hs _].
      cbn [filter]. rewrite (IH Hs). cbn [filter].
      destruct (Z.eqb (key x) k) eqn:Hx, (Z.eqb (key y) k) eqn:Hy;
        try reflexivity.
      apply Z.eqb_eq in Hx, Hy. lia.
Qed.

Lemma sort_by_stable : forall k l,
  filter (fun y => Z.eqb (key y) k) (Py.sort_by key l)
  = filter (fun y => Z.eqb (key y) k) l.
Proof.
  intros k l. induction l as [|x l IH]; simpl.
  - reflexivity.
  - rewrite insert_by_filter by apply sort_by_sorted.
    simpl. rewrite IH. reflexivity.
Qed.

End Sorting.

Lemma map_fst_combine : forall (A B : Type) (l : list A) (l' : list B),
  List.length l = List.length l' -> map fst (combine l l') = l.
Proof.
  induction l as [|x l IH]; intros [|y l'] H; simpl in *; try discriminate.
  - reflexivity.
  - f_equal. apply IH. lia.
Qed.

(** ** The section scans of the ISM fee table *)

(** The section after a row of the alternative scan: a row with a first
    cell that names a section opens it, any other row leaves it. *)
Lemma alt_scan_row_section : forall cur d cells,
  fst (ISM.alt_scan_row (cur, d) cells)
  = match cells with
    | [] => cur
    | first_cell :: _ =>
        if ISM.is_regular_header_alt first_cell then Some ISM.Regular
        else if ISM.is_specialized_header first_cell then Some ISM.Specialized
        else cur
    end.
Proof.
  intros cur d [|c cells]; [reflexivity|].
  unfold ISM.alt_scan_row. cbn [List.length Nat.ltb Nat.leb ISM.cell nth].
  destruct (ISM.is_regular_header_alt c); [reflexivity|].
  destruct (ISM.is_specialized_header c); [reflexivity|].
  repeat match goal with
         | |- context [if ?b then _ else _] => destruct b
         end; reflexivity.
Qed.

(** A row of the alternative scan changes at most the dictionary of the
    section that is open, and none when no section is open. *)
Lemma alt_scan_row_attribution : forall cur d cells,
  snd (ISM.alt_scan_row (cur, d) cells) = d
  \/ exists pname f,
       snd (ISM.alt_scan_row (cur, d) cells) = ISM.attribute cur pname f d.
Proof.
  intros cur d cells. unfold ISM.alt_scan_row.
  repeat match goal with
         | |- context [if ?b then _ else _] => destruct b
         end; try (left; reflexivity).
  right. eexists _, _. reflexivity.
Qed.

(** the same for the scan of [table.table], which in addition leaves the
    section as it is at every row of fewer than two cells *)
Lemma scan_row_section : forall cur d cells,
  fst (ISM.scan_row (cur, d) cells)
  = match cells with
    | first_cell :: _ :: _ =>
        if negb (Py.truthy first_cell) then cur
        else if ISM.is_regular_header first_cell then Some ISM.Regular
        else if ISM.is_specialized_header first_cell then Some ISM.Specialized
        else cur
    | _ => cur
    end.
Proof.
  intros cur d [|c [|c' cells]]; [reflexivity | reflexivity |].
  unfold ISM.scan_row. cbn [List.length Nat.ltb Nat.leb ISM.cell nth].
  destruct (negb (Py.truthy c)); [reflexivity|].
  destruct (ISM.is_regular_header c); [reflexivity|].
  destruct (ISM.is_specialized_header c); [reflexivity|].
  repeat match goal with
         | |- context [if ?b then _ else _] => destruct b
         end; reflexivity.
Qed.

Lemma scan_row_attribution : forall cur d cells,
  snd (ISM.scan_row (cur, d) cells) = d
  \/ exists pname f,
       snd (ISM.scan_row (cur, d) cells) = ISM.attribute cur pname f d.
Proof.
  intros cur d cells. unfold ISM.scan_row.
  repeat match goal with
         | |- context [if ?b then _ else _] => destruct b
         end; try (left; reflexivity).
  right. eexists _, _. reflexivity.
Qed.

(** an attribution touches one dictionary only *)
Lemma attribute_one_section : forall cur pname f d,
  match cur with
  | None => ISM.attribute cur pname f d = d
  | Some ISM.Regular => snd (ISM.attribute cur pname f d) = snd d
  | Some ISM.Specialized => fst (ISM.attribute cur pname f d) = fst d
  end.
Proof. intros [[|]|] pname f [reg spec]; reflexivity. Qed.

(** The table of the specification, in a [table.table]: the scan of
    lines 61-123 reads nothing from it, because its header rows have one
    cell; the alternative scan attributes "Grade 1" to the regular and
    "Support A" to the specialized program. *)
Lemma spec_table_is_read_by_the_alternative_scan :
  ISM.scan_table Fixture.spec_rows = (None, ([], []))
  /\ ISM.tuition_of_page (R := Fixture.ism_readers) Fixture.spec_page
     = success
         {| ISM.regular_program := [("Grade 1", Fixture.fee "100" "50" "50")];
            ISM.specialized_program :=
              [("Support A", Fixture.fee "80" "40" "40")];
            ISM.additional_fees := []; ISM.other_fees := [] |}.
Proof. split; reflexivity. Qed.

(** without a [table.table] the fee extractor stops at line 47 *)
Lemma tuition_error_without_table_table : forall (R : ISM.Readers) soup,
  select_one ISM.table_table soup = None ->
  ISM.tuition_of_page soup = error "Tuition fee table not found".
Proof.
  intros R soup H. unfold ISM.tuition_of_page. rewrite H. reflexivity.
Qed.

(** ** The dispatcher *)

Lemma run_scrapers_tasks_from : forall (scraper_class : Type)
    (default : scraper_class) (D : Type) (school_name : D -> string)
    (school_data_list : list D) scrapers selected tasks,
  fold_left (App.add_task scraper_class default school_name school_data_list
                          scrapers) selected tasks
  = tasks ++
    flat_map (fun school =>
                match find (fun s => String.eqb (school_name s) school)
                           school_data_list with
                | Some school_data =>
                    [(App.choose scraper_class default scrapers school,
                      school_data)]
                | None => []
                end) selected.
Proof.
  intros scraper_class default D school_name school_data_list scrapers.
  induction selected as [|school selected IH]; intros tasks; simpl.
  - rewrite app_nil_r. reflexivity.
  - rewrite IH. unfold App.add_task.
    destruct (find _ school_data_list) as [school_data|].
    + rewrite <- app_assoc. reflexivity.
    + reflexivity.
Qed.

(* ===================================================================== *)
(** * The claims of the specification *)
(* ===================================================================== *)

(** ** C1: every category method returns one of the six status variants *)

(** C1.  Whatever the fetches and the page readers do, every category
    method of the ISM and of the BSM extractor returns a dictionary whose
    status is one of [success], [partial], [warning], [skipped],
    [not_implemented] and [error]; an exception raised in the body of a
    method is returned as the [error] dictionary that carries the text of
    the exception.  Hence the five methods run by the aggregate [scrape]
    never raise.  The same holds of every method framed as the category
    methods of the seven site extractors are, whatever its body does, and
    the field method of the universal scraper never raises either. *)
Theorem category_methods_return_status_variants :
  forall (E : Environment) (RI : ISM.Readers) (RB : BSM.Readers),
    (returns_variant ISM.scrape_tuition_fees
     /\ converts_exceptions ISM.tuition_fees_body ISM.scrape_tuition_fees)
    /\ (returns_variant ISM.scrape_curriculum
        /\ converts_exceptions ISM.curriculum_body ISM.scrape_curriculum)
    /\ (returns_variant ISM.scrape_enrollment_process
        /\ converts_exceptions ISM.enrollment_process_body
             ISM.scrape_enrollment_process)
    /\ (returns_variant ISM.scrape_scholarships
        /\ converts_exceptions ISM.scholarships_body ISM.scrape_scholarships)
    /\ (returns_variant ISM.scrape_contact_info
        /\ converts_exceptions ISM.contact_info_body ISM.scrape_contact_info)
    /\ returns_variant BSM.scrape_tuition_fees
    /\ (returns_variant BSM.scrape_curriculum
        /\ converts_exceptions BSM.curriculum_body BSM.scrape_curriculum)
    /\ (returns_variant BSM.scrape_enrollment_process
        /\ converts_exceptions BSM.enrollment_process_body
             BSM.scrape_enrollment_process)
    /\ returns_variant BSM.scrape_scholarships
    /\ (returns_variant BSM.scrape_contact_info
        /\ converts_exceptions BSM.contact_info_body BSM.scrape_contact_info)
    /\ never_raises ISM.collect_results
    /\ never_raises BSM.collect_results
    /\ (forall (A : Type) (body : M (reply A)),
          returns_dictionary (category_method body)
          /\ converts_exceptions (r <- body ;; ret (dictionary r))
                                 (category_method body))
    /\ (forall sch field_name,
          never_raises (Scraper._scrape_field sch field_name)).
Proof.
  intros E RI RB.
  repeat match goal with
         | |- _ /\ _ => split
         | |- converts_exceptions _ _ => apply guarded_converts
         | |- forall A (body : M (reply A)), _ => intros A body
         | |- returns_dictionary _ => apply category_method_returns
         end.
  - apply ism_tuition_returns.
  - apply ism_curriculum_returns.
  - apply ism_enrollment_returns.
  - apply ism_scholarships_returns.
  - apply ism_contact_returns.
  - apply bsm_tuition_returns.
  - apply bsm_curriculum_returns.
  - apply bsm_enrollment_returns.
  - apply bsm_scholarships_returns.
  - apply bsm_contact_returns.
  - intros s.
    destruct (ism_collect_results_spec s)
      as (rt & rc & re & rs & rk & s1 & s2 & s3 & s4 & s5 & H).
    do 2 eexists. apply H.
  - intros s.
    destruct (bsm_collect_results_spec s)
      as (rt & rc & re & rs & rk & s1 & s2 & s3 & s4 & s5 & H).
    do 2 eexists. apply H.
  - intros sch field_name s.
    destruct (scrape_field_spec sch field_name s) as (r & s' & H & _).
    exists r, s'. exact H.
Qed.

(** C1 at a site where every fetch times out: the body of the ISM fee
    method raises, and the method returns the error dictionary with the
    text of the exception. *)
Lemma category_methods_return_status_variants_witness :
  ISM.tuition_fees_body (E := Fixture.offline) (R := Fixture.ism_readers)
    (@Fixture.start Fixture.offline 0)
  = (Raise Fixture.timeout, @Fixture.start Fixture.offline 0)
  /\ ISM.scrape_tuition_fees (E := Fixture.offline) (R := Fixture.ism_readers)
       (@Fixture.start Fixture.offline 0)
     = (Return (error "timeout"), @Fixture.start Fixture.offline 0).
Proof.
  split; [reflexivity|].
  exact (proj2 (proj1 (category_methods_return_status_variants
                         Fixture.offline Fixture.ism_readers
                         Fixture.bsm_readers))
               (@Fixture.start Fixture.offline 0) Fixture.timeout
               (@Fixture.start Fixture.offline 0) eq_refl).
Defined.

(** ** C2: the section scan of the ISM fee table *)

(** C2 (the code at the failing input).  The scan of [table.table] skips
    every row of one cell before it looks at its text, so it misses a
    section header that stands alone in its row: in a table whose first
    header row carries the column titles and whose second header row is
    the single cell "SPECIALIZED PROGRAM", the row "Support A" that
    follows is stored in [regular_program], and [specialized_program]
    stays empty. *)
Theorem one_cell_section_header_is_missed :
  (forall st text, ISM.scan_row st [text] = st)
  /\ ISM.tuition_of_page (R := Fixture.ism_readers) Fixture.mixed_page
     = success
         {| ISM.regular_program :=
              [("Grade 1", Fixture.fee "100" "50" "50");
               ("Support A", Fixture.fee "80" "40" "40")];
            ISM.specialized_program := [];
            ISM.additional_fees := []; ISM.other_fees := [] |}.
Proof.
  split.
  - intros [cur d] text. reflexivity.
  - reflexivity.
Qed.

(** ** C3: the common requirements *)

(** the numbers of the specification: four grade levels, a threshold of
    two, "Birth Certificate" counted three times and "Medical Form" once *)
Example four_grades_common :
  ISM.requirements_of_page Fixture.requirements_page = Fixture.four_grades
  /\ ISM.common_threshold Fixture.four_grades = 2
  /\ count "Birth Certificate" (ISM.all_requirements Fixture.four_grades) = 3
  /\ count "Medical Form" (ISM.all_requirements Fixture.four_grades) = 1
  /\ ISM.infer_common Fixture.four_grades = ["Birth Certificate"].
Proof. repeat split; reflexivity. Qed.

(** C3.  When the ISM enrollment extractor has parsed per-grade-level
    requirement lists, the requirements it reports as common are exactly
    those found in the lists whose number of occurrences over all the
    lists is at least half the number of grade levels, rounded down. *)
Theorem common_requirement_threshold :
  forall (E : Environment) (text : string) (soup : element)
         (d : ISM.enrollment_data) (r : string),
    Py.nonempty (ISM.parse_requirements_data text) = true ->
    data (ISM.enrollment_of_page text soup) = Some d ->
    (In r (ISM.common_requirements d)
     <-> In r (ISM.all_requirements (ISM.parse_requirements_data text))
         /\ List.length (ISM.parse_requirements_data text) / 2
            <= count r (ISM.all_requirements (ISM.parse_requirements_data text))).
Proof.
  intros E text soup d r Hne Hd. unfold ISM.enrollment_of_page in Hd.
  cbv zeta in Hd. rewrite Hne in Hd. simpl in Hd. inversion Hd; subst d.
  simpl. apply infer_common_spec.
Qed.

(** C3 at the page of the four grade levels *)
Lemma common_requirement_threshold_witness :
  Py.nonempty (ISM.parse_requirements_data (E := Fixture.requirements_site) "")
  = true
  /\ data (ISM.enrollment_of_page (E := Fixture.requirements_site) ""
             Fixture.requirements_page)
     = Some Fixture.four_grades_data
  /\ (In "Birth Certificate" (ISM.common_requirements Fixture.four_grades_data)
      <-> In "Birth Certificate"
             (ISM.all_requirements
                (ISM.parse_requirements_data (E := Fixture.requirements_site) ""))
          /\ List.length
               (ISM.parse_requirements_data (E := Fixture.requirements_site) "")
             / 2
             <= count "Birth Certificate"
                  (ISM.all_requirements
                     (ISM.parse_requirements_data
                        (E := Fixture.requirements_site) ""))).
Proof.
  split; [reflexivity|]. split; [reflexivity|].
  apply (common_requirement_threshold Fixture.requirements_site ""
           Fixture.requirements_page Fixture.four_grades_data
           "Birth Certificate");
    reflexivity.
Defined.

(** ** C4: the order of the enrollment steps *)

(** C4 (as stated, refuted).  The ISM enrollment extractor leaves the
    steps in the order of the document: with the tabs "Step 3", "Step 1"
    and "Step 2" it does not return them as 1, 2, 3. *)
Lemma ism_steps_stay_in_document_order :
  map ISM.title (ISM.steps_of_page Fixture.ism_steps_page)
  = ["Step 3"; "Step 1"; "Step 2"]
  /\ map ISM.title (ISM.steps_of_page Fixture.ism_steps_page)
     <> ["Step 1"; "Step 2"; "Step 3"].
Proof. split; [reflexivity | discriminate]. Qed.

(** C4 (amended).  The BSM enrollment extractor returns its steps sorted
    by step number: the list is in ascending order of the numbers, holds
    the same steps as were read from the panels, and keeps steps of equal
    number in the order of the document.  The ISM enrollment extractor
    returns its steps in the order of the tabs of the document. *)
Theorem bsm_steps_sorted_ism_steps_in_document_order :
  forall (R : BSM.Readers) (bsm_soup ism_soup : element)
         (d : BSM.enrollment_data),
    data (BSM.enrollment_of_page bsm_soup) = Some d ->
    ISM.steps_of_page ism_soup <> [] ->
    ascending BSM.step_number (BSM.application_process d)
    /\ Permutation (BSM.application_steps (BSM.panels_loop bsm_soup))
                   (BSM.application_process d)
    /\ (forall n,
          filter (fun st => Z.eqb (BSM.step_number st) n)
                 (BSM.application_process d)
          = filter (fun st => Z.eqb (BSM.step_number st) n)
                   (BSM.application_steps (BSM.panels_loop bsm_soup)))
    /\ map ISM.title (ISM.steps_of_page ism_soup)
       = map get_text_strip (select (ISM.accordion "tab-title") ism_soup).
Proof.
  intros R bsm_soup ism_soup d Hd Hsteps.
  unfold BSM.enrollment_of_page in Hd.
  destruct (select_one _ bsm_soup); [|discriminate].
  cbv zeta in Hd. simpl in Hd. inversion Hd; subst d. simpl.
  split; [apply sort_by_sorted|].
  split; [apply sort_by_perm|].
  split; [intros n; apply sort_by_stable|].
  unfold ISM.steps_of_page in *. cbv zeta in *.
  destruct (Py.nonempty _ && Nat.eqb _ _) eqn:Hc; [|congruence].
  apply andb_prop in Hc. destruct Hc as [_ Hlen]. apply Nat.eqb_eq in Hlen.
  rewrite map_map.
  rewrite <- (map_fst_combine _ _ _ _ Hlen) at 2.
  rewrite map_map. reflexivity.
Qed.

(** the amended C4 at the two pages whose steps come in the order
    3, 1, 2 *)
Lemma bsm_steps_sorted_ism_steps_in_document_order_witness :
  data (BSM.enrollment_of_page (R := Fixture.bsm_readers)
          Fixture.bsm_steps_page)
  = Some {| BSM.application_process :=
              [Fixture.bsm_step 1 "Step 1"; Fixture.bsm_step 2 "Step 2";
               Fixture.bsm_step 3 "Step 3"];
            BSM.requirements := []; BSM.contact_email := "" |}
  /\ ISM.steps_of_page Fixture.ism_steps_page <> []
  /\ ascending BSM.step_number
       [Fixture.bsm_step 1 "Step 1"; Fixture.bsm_step 2 "Step 2";
        Fixture.bsm_step 3 "Step 3"]
  /\ Permutation
       (BSM.application_steps
          (BSM.panels_loop (R := Fixture.bsm_readers) Fixture.bsm_steps_page))
       [Fixture.bsm_step 1 "Step 1"; Fixture.bsm_step 2 "Step 2";
        Fixture.bsm_step 3 "Step 3"].
Proof.
  assert (Hd : data (BSM.enrollment_of_page (R := Fixture.bsm_readers)
                       Fixture.bsm_steps_page)
               = Some {| BSM.application_process :=
                           [Fixture.bsm_step 1 "Step 1";
                            Fixture.bsm_step 2 "Step 2";
                            Fixture.bsm_step 3 "Step 3"];
                         BSM.requirements := []; BSM.contact_email := "" |})
    by reflexivity.
  assert (Hs : ISM.steps_of_page Fixture.ism_steps_page <> [])
    by discriminate.
  split; [exact Hd|]. split; [exact Hs|].
  destruct (bsm_steps_sorted_ism_steps_in_document_order
              Fixture.bsm_readers Fixture.bsm_steps_page
              Fixture.ism_steps_page _ Hd Hs) as (Ha & Hp & _).
  split; [exact Ha | exact Hp].
Defined.

(** ** C5: the fallback of the ISM fee extractor *)

(** C5 (the code at the failing input).  A page whose only table lacks
    the class [table]: the fee extractor returns the error of line 47,
    although the scan over all tables would have read the two programs
    from it, as the curriculum extractor does on the same page. *)
Theorem fee_fallback_is_not_attempted :
  select_one ISM.table_table Fixture.plain_table_page = None
  /\ ISM.tuition_of_page (R := Fixture.ism_readers) Fixture.plain_table_page
     = error "Tuition fee table not found"
  /\ ISM.alt_scan_tables
       (map ISM.rows_of (find_all ["table"] Fixture.plain_table_page)) ([], [])
     = ([("Grade 1", Fixture.fee "100" "50" "50")],
        [("Support A", Fixture.fee "80" "40" "40")])
  /\ option_map (fun d => (Py.keys (ISM.cur_regular_program d),
                           Py.keys (ISM.cur_specialized_program d)))
       (data (ISM.curriculum_of_page Fixture.plain_table_page))
     = Some (["Grade 1"], ["Support A"]).
Proof. repeat split; reflexivity. Qed.

(** ** C6: the teardown of the rendering engine *)

(** C6 (the code at the failing input).  When every fetch times out and
    the first call of the teardown routine fails, the aggregate [scrape]
    of the ISM and of the BSM extractor has invoked the teardown routine
    twice when it ends, and what it raises is the failure of the
    teardown: the record with the five error dictionaries is lost. *)
Theorem teardown_invoked_twice_when_it_fails :
  let ism_run :=
    ISM.scrape (E := Fixture.offline_broken_browser)
               (R := Fixture.ism_readers)
               (@Fixture.start Fixture.offline_broken_browser 0) in
  let bsm_run :=
    BSM.scrape (E := Fixture.offline_broken_browser)
               (R := Fixture.bsm_readers)
               (@Fixture.start Fixture.offline_broken_browser 0) in
  fst ism_run = Raise (Exception "Error" "Browser has been closed")
  /\ teardowns (snd ism_run) = 2
  /\ fst bsm_run = Raise (Exception "Error" "Browser has been closed")
  /\ teardowns (snd bsm_run) = 2.
Proof. repeat split; reflexivity. Qed.

(** ** C7: the dispatcher *)

(** C7.  The scraper that [run_scrapers] runs for a selected school is a
    function of the registry and of the name of the school alone: it is
    the same at every place of every list of selected schools, whatever
    was chosen for the schools before it.  With ISM and BSM registered,
    in either order, "International School Manila" is given the ISM
    scraper by the match on its initials, and the module that
    [scrape_school] imports for this name is the ISM one. *)
Theorem dispatch_is_deterministic :
  forall (scraper_class : Type) (default ism bsm : scraper_class)
         (D : Type) (school_name : D -> string)
         (selected_schools : list string) (school_data_list : list D)
         (scrapers : App.registry scraper_class),
    App.run_scrapers_tasks scraper_class default school_name
      selected_schools school_data_list scrapers
    = flat_map
        (fun school =>
           match find (fun s => String.eqb (school_name s) school)
                      school_data_list with
           | Some school_data =>
               [(App.choose scraper_class default scrapers school, school_data)]
           | None => []
           end) selected_schools
    /\ App.choose scraper_class default [("ISM", ism); ("BSM", bsm)]
         "International School Manila"
       = (App.InitialsMatch "ISM", ism)
    /\ App.choose scraper_class default [("BSM", bsm); ("ISM", ism)]
         "International School Manila"
       = (App.InitialsMatch "ISM", ism)
    /\ option_map (fun a => (Scraper.module_path a, Scraper.class_name a))
         (Scraper.abbreviation "International School Manila")
       = Some ("services.schools.ism_scraper", "ISMScraper").
Proof.
  intros scraper_class default ism bsm D school_name selected_schools
         school_data_list scrapers.
  split.
  - unfold App.run_scrapers_tasks. rewrite run_scrapers_tasks_from.
    reflexivity.
  - repeat split; reflexivity.
Qed.

(** ** C8: the aggregate record *)

(** C8 (as stated, refuted).  With every fetch timing out and a teardown
    whose first call fails, [run_scraper] yields [None] for the school:
    no record. *)
Lemma record_absent_when_teardown_fails :
  fst (App.run_scraper
         (ISM.scrape (E := Fixture.offline_broken_browser)
                     (R := Fixture.ism_readers))
         (@Fixture.start Fixture.offline_broken_browser 0))
  = Return None.
Proof. reflexivity. Qed.

(** C8 (amended).  When the teardown routine returns normally, the
    aggregate [scrape] of the ISM and of the BSM extractor returns, and
    [run_scraper] passes on, a record with the name of the school and the
    five category fields, whatever happens in the category methods: for
    ISM each field is the payload of a successful extraction or a status
    dictionary of one of the other five variants, for BSM each field is a
    status dictionary of one of the six variants. *)
Theorem aggregate_record_is_complete :
  forall (E : Environment) (RI : ISM.Readers) (RB : BSM.Readers),
    teardown_succeeds ->
    forall s, ism_yields_record s /\ bsm_yields_record s.
Proof.
  intros E RI RB Hclose s. split.
  - destruct (ism_collect_results_spec s)
      as (rt & rc & re & rs & rk & s1 & s2 & s3 & s4 & s5 & _ & _ & _ & _ & _
          & (Wt & Wc & We & Ws & Wk) & _ & Hcol).
    destruct (close_playwright_succeeds Hclose s5) as [s6 H6].
    pose proof (ism_scrape_after_collect _ _ _ Hcol) as Hs.
    rewrite H6 in Hs.
    eexists _, s6. split; [exact Hs|]. split.
    + unfold App.run_scraper, try_except.
      rewrite (bind_return _ _ _ _ _ Hs). reflexivity.
    + repeat split; simpl; apply field_of_ok; assumption.
  - destruct (bsm_collect_results_spec s)
      as (rt & rc & re & rs & rk & s1 & s2 & s3 & s4 & s5 & _ & _ & _ & _ & _
          & (Wt & Wc & We & Ws & Wk) & _ & Hcol).
    destruct (close_playwright_succeeds Hclose s5) as [s6 H6].
    pose proof (bsm_scrape_after_collect _ _ _ Hcol) as Hs.
    rewrite H6 in Hs.
    eexists _, s6. split; [exact Hs|]. split.
    + unfold App.run_scraper, try_except.
      rewrite (bind_return _ _ _ _ _ Hs). reflexivity.
    + unfold bsm_record_complete; simpl. tauto.
Qed.

(** the amended C8 at a site where every category fails *)
Lemma aggregate_record_is_complete_witness :
  teardown_succeeds (E := Fixture.offline)
  /\ ism_yields_record (E := Fixture.offline) (R := Fixture.ism_readers)
       (@Fixture.start Fixture.offline 0)
  /\ bsm_yields_record (E := Fixture.offline) (R := Fixture.bsm_readers)
       (@Fixture.start Fixture.offline 0).
Proof.
  assert (H : teardown_succeeds (E := Fixture.offline)).
  { intros w. exists (S w). reflexivity. }
  split; [exact H|].
  apply (aggregate_record_is_complete Fixture.offline
           (Fixture.ism_readers) Fixture.bsm_readers H).
Defined.

(** ** C9: the bound on the extracted content *)

(** C9.  For every parsed document and every field name, the text that
    [_extract_content] returns has at most 5000 characters. *)
Theorem extract_content_at_most_5000 :
  forall (soup : element) (field_name : string),
    String.length (Scraper._extract_content soup field_name) <= 5000.
Proof.
  intros soup field_name. unfold Scraper._extract_content. cbv zeta.
  match goal with
  | |- String.length (if Py.truthy ?c then _ else _) <= _ =>
      destruct (Py.truthy c)
  end.
  - apply slice_to_length.
  - simpl String.length. lia.
Qed.

(** the bound is reached: a main content of 6000 characters is cut down
    to 5000 *)
Example extract_content_truncates :
  String.length (Scraper._extract_content Fixture.long_page "program") = 5000.
Proof. vm_compute. reflexivity. Qed.

(** ** C10: the sentinel of the universal scraper *)

(** C10 (as stated, refuted).  A school with one fee URL whose page has
    no content at all: [_extract_content] finds nothing, and
    [_scrape_field] returns a text that is not the sentinel. *)
Lemma empty_page_is_not_reported_as_no_data :
  Scraper._extract_content Fixture.empty_page "school_fee"
  = "No structured data found"
  /\ fst (Scraper._scrape_field (E := Fixture.empty_site)
            Fixture.one_url_school "school_fee"
            (@Fixture.start Fixture.empty_site 0))
     = Return "From https://example.org/fees:
No structured data found"
  /\ "From https://example.org/fees:
No structured data found" <> "No data available".
Proof. repeat split; try reflexivity. discriminate. Qed.

(** C10 (amended).  For every school and field name [_scrape_field]
    returns a text that is not empty.  When the catalog supplies no URL
    other than empty ones for the field the text is the sentinel
    ["No data available"]; as soon as one URL is processed the text opens
    with ["From "] or ["Error scraping "] and is not the sentinel. *)
Theorem scrape_field_sentinel_means_no_url :
  forall (E : Environment) (sch : Scraper.school) (field_name : string) s,
  exists r s',
    Scraper._scrape_field sch field_name s = (Return r, s')
    /\ r <> ""
    /\ match filter Py.truthy (urls_of sch field_name) with
       | [] => r = "No data available"
       | _ :: _ => chunk r /\ r <> "No data available"
       end.
Proof.
  intros E sch field_name s.
  destruct (scrape_field_spec sch field_name s) as (r & s' & H & Hr).
  exists r, s'. split; [exact H|].
  destruct (filter Py.truthy (urls_of sch field_name)) as [|u us].
  - subst r. split; [discriminate | reflexivity].
  - destruct (chunk_first_char r Hr) as [Hne HN].
    split; [exact Hne|]. split; [exact Hr|]. apply HN.
Qed.

(* ===================================================================== *)
(** * Further properties of the code *)
(* ===================================================================== *)

(** ** The fee tables of the ISM extractor *)

Lemma hd_error_in : forall (A : Type) (l : list A) x,
  hd_error l = Some x -> In x l.
Proof. intros A [|y l] x H; inversion H; left; reflexivity. Qed.

Lemma table_table_is_a_table : forall soup t,
  select_one ISM.table_table soup = Some t -> In t (find_all ["table"] soup).
Proof.
  intros soup t H. apply hd_error_in in H. unfold select in H.
  apply filter_In in H. destruct H as [Hd Hm].
  apply filter_In. split; [exact Hd|].
  apply existsb_exists in Hm. destruct Hm as [c [[Hc|[]] Hm]]. subst c.
  unfold chain_matches, compound_matches, tag_ in Hm.
  cbn [c_tag c_id c_classes fst snd] in Hm.
  apply andb_prop in Hm. destruct Hm as [Hm _].
  apply andb_prop in Hm. destruct Hm as [Hm _].
  apply andb_prop in Hm. destruct Hm as [Hm _].
  unfold mem. cbn [existsb]. rewrite String.eqb_sym, Hm. reflexivity.
Qed.

Lemma dict_set_values : forall (V : Type) (Q : V -> Prop) k v (d : Py.dict V),
  Q v -> Forall (fun kv => Q (snd kv)) d ->
  Forall (fun kv => Q (snd kv)) (Py.dict_set k v d).
Proof.
  intros V Q k v d Hv Hd. induction d as [|[k' v'] d IH]; simpl.
  - constructor; [exact Hv | constructor].
  - inversion Hd; subst. destruct (String.eqb k k').
    + constructor; assumption.
    + constructor; [assumption | apply IH; assumption].
Qed.

Lemma attribute_has_annual : forall cur pname f d,
  Py.truthy (ISM.annual f) = true -> has_annual d ->
  has_annual (ISM.attribute cur pname f d).
Proof.
  intros [[|]|] pname f [reg spec] Hf [Hr Hs]; split; simpl in *;
    try assumption;
    apply (dict_set_values _ (fun v => Py.truthy (ISM.annual v) = true));
    assumption.
Qed.

Lemma scan_row_has_annual : forall st cells,
  has_annual (snd st) -> has_annual (snd (ISM.scan_row st cells)).
Proof.
  intros [cur d] cells H. unfold ISM.scan_row.
  repeat match goal with
         | |- context [if ?b then _ else _] => destruct b eqn:?
         end; simpl; try exact H.
  apply attribute_has_annual; [|exact H].
  simpl. match goal with
         | Hn : negb (Py.truthy _) = false |- _ =>
             apply negb_false_iff in Hn; exact Hn
         end.
Qed.

Lemma alt_scan_row_has_annual : forall st cells,
  has_annual (snd st) -> has_annual (snd (ISM.alt_scan_row st cells)).
Proof.
  intros [cur d] cells H. unfold ISM.alt_scan_row.
  repeat match goal with
         | |- context [if ?b then _ else _] => destruct b eqn:?
         end; simpl; try exact H.
  apply attribute_has_annual; [|exact H]. simpl. assumption.
Qed.

Lemma fold_invariant : forall (S A : Type) (P : S -> Prop) (f : S -> A -> S)
    (l : list A) (s : S),
  (forall s a, In a l -> P s -> P (f s a)) -> P s -> P (fold_left f l s).
Proof.
  intros S A P f l. induction l as [|a l IH]; intros s Hf Hs; simpl.
  - exact Hs.
  - apply IH.
    + intros s' a' Hin. apply Hf. right; exact Hin.
    + apply Hf; [left; reflexivity | exact Hs].
Qed.

Lemma alt_scan_tables_has_annual : forall tables d,
  has_annual d -> has_annual (ISM.alt_scan_tables tables d).
Proof.
  intros tables d H. unfold ISM.alt_scan_tables.
  apply fold_invariant; [|exact H].
  intros d' rows _ Hd'.
  apply (fold_invariant _ _ (fun st => has_annual (snd st))); [|exact Hd'].
  intros st cells _. apply alt_scan_row_has_annual.
Qed.

Lemma attribute_untouched : forall sec cur pname f d,
  cur <> Some sec ->
  match sec with
  | ISM.Regular => fst d = []
  | ISM.Specialized => snd d = []
  end ->
  match sec with
  | ISM.Regular => fst (ISM.attribute cur pname f d) = []
  | ISM.Specialized => snd (ISM.attribute cur pname f d) = []
  end.
Proof.
  intros [|] [[|]|] pname f [reg spec] Hc Hd; simpl in *;
    congruence.
Qed.

Lemma scan_row_untouched : forall sec st cells,
  names_section sec (ISM.cell 0 cells) = false ->
  untouched sec st -> untouched sec (ISM.scan_row st cells).
Proof.
  intros sec [cur d] cells Hn [Hc Hd]. unfold ISM.scan_row.
  cbn [fst snd] in Hc, Hd.
  destruct (Nat.ltb (List.length cells) 2); [split; assumption|].
  destruct (negb (Py.truthy (ISM.cell 0 cells))); [split; assumption|].
  destruct (ISM.is_regular_header (ISM.cell 0 cells)) eqn:Hr.
  { split; [|exact Hd]. cbn [fst]. destruct sec; [|discriminate].
    simpl in Hn. unfold ISM.is_regular_header_alt in Hn.
    unfold ISM.is_regular_header in Hr. rewrite Hr in Hn. discriminate. }
  destruct (ISM.is_specialized_header (ISM.cell 0 cells)) eqn:Hs.
  { split; [|exact Hd]. cbn [fst]. destruct sec; [discriminate|].
    simpl in Hn. congruence. }
  destruct (Nat.ltb (List.length cells) 4 || _); [split; assumption|].
  destruct (negb (Py.truthy (ISM.cell 1 cells))); [split; assumption|].
  split; [exact Hc|]. cbn [fst snd].
  apply attribute_untouched; assumption.
Qed.

Lemma alt_scan_row_untouched : forall sec st cells,
  names_section sec (ISM.cell 0 cells) = false ->
  untouched sec st -> untouched sec (ISM.alt_scan_row st cells).
Proof.
  intros sec [cur d] cells Hn [Hc Hd]. unfold ISM.alt_scan_row.
  cbn [fst snd] in Hc, Hd.
  destruct (Nat.ltb (List.length cells) 1); [split; assumption|].
  destruct (ISM.is_regular_header_alt (ISM.cell 0 cells)) eqn:Hr.
  { split; [|exact Hd]. cbn [fst]. destruct sec; [|discriminate].
    simpl in Hn. congruence. }
  destruct (ISM.is_specialized_header (ISM.cell 0 cells)) eqn:Hs.
  { split; [|exact Hd]. cbn [fst]. destruct sec; [discriminate|].
    simpl in Hn. congruence. }
  destruct (_ || Nat.ltb (List.length cells) 2); [split; assumption|].
  destruct (negb _ || _); [split; assumption|].
  destruct (Py.truthy (ISM.cell 1 cells)); [|split; assumption].
  split; [exact Hc|]. cbn [fst snd].
  apply attribute_untouched; assumption.
Qed.

(** ** X1: no fee entry without an annual fee *)

(** X1.  Whatever the fees page holds, every entry that
    [scrape_tuition_fees] stores in [regular_program] or
    [specialized_program] has a non-empty annual fee: a row whose second
    cell is empty is never stored, by either scan. *)
Theorem fee_entries_have_an_annual_fee :
  forall (R : ISM.Readers) (soup : element) (d : ISM.tuition_data)
         (pname : string) (f : ISM.fee),
    data (ISM.tuition_of_page soup) = Some d ->
    In (pname, f) (ISM.regular_program d ++ ISM.specialized_program d) ->
    ISM.annual f <> "".
Proof.
  intros R soup d pname f Hd Hin. unfold ISM.tuition_of_page in Hd.
  destruct (select_one ISM.table_table soup) as [table|]; [|discriminate].
  cbv zeta in Hd. simpl in Hd. inversion Hd as [Hd']. clear Hd.
  assert (H1 : has_annual (snd (ISM.scan_table (ISM.rows_of table)))).
  { unfold ISM.scan_table.
    apply (fold_invariant _ _ (fun st => has_annual (snd st))).
    - intros st cells _. apply scan_row_has_annual.
    - split; constructor. }
  match type of Hd' with
  | context [if ?b then _ else _] =>
      assert (H2 : has_annual
                     (if b
                      then ISM.alt_scan_tables
                             (map ISM.rows_of (find_all ["table"] soup))
                             (snd (ISM.scan_table (ISM.rows_of table)))
                      else snd (ISM.scan_table (ISM.rows_of table))))
  end.
  { destruct (_ && _); [apply alt_scan_tables_has_annual|]; exact H1. }
  subst d. simpl in Hin. destruct H2 as [Hr Hs].
  assert (Py.truthy (ISM.annual f) = true) as Ht.
  { apply in_app_or in Hin. destruct Hin as [Hin|Hin].
    - rewrite Forall_forall in Hr. apply (Hr _ Hin).
    - rewrite Forall_forall in Hs. apply (Hs _ Hin). }
  intros Heq. rewrite Heq in Ht. discriminate.
Qed.

(** X1 at the table of the specification *)
Lemma fee_entries_have_an_annual_fee_witness :
  data (ISM.tuition_of_page (R := Fixture.ism_readers) Fixture.spec_page)
  = Some {| ISM.regular_program := [("Grade 1", Fixture.fee "100" "50" "50")];
            ISM.specialized_program :=
              [("Support A", Fixture.fee "80" "40" "40")];
            ISM.additional_fees := []; ISM.other_fees := [] |}
  /\ In ("Grade 1", Fixture.fee "100" "50" "50")
        ([("Grade 1", Fixture.fee "100" "50" "50")]
         ++ [("Support A", Fixture.fee "80" "40" "40")])
  /\ ISM.annual (Fixture.fee "100" "50" "50") <> "".
Proof.
  assert (Hd : data (ISM.tuition_of_page (R := Fixture.ism_readers)
                       Fixture.spec_page)
               = Some {| ISM.regular_program :=
                           [("Grade 1", Fixture.fee "100" "50" "50")];
                         ISM.specialized_program :=
                           [("Support A", Fixture.fee "80" "40" "40")];
                         ISM.additional_fees := []; ISM.other_fees := [] |})
    by reflexivity.
  assert (Hin : In ("Grade 1", Fixture.fee "100" "50" "50")
                   ([("Grade 1", Fixture.fee "100" "50" "50")]
                    ++ [("Support A", Fixture.fee "80" "40" "40")]))
    by (left; reflexivity).
  split; [exact Hd|]. split; [exact Hin|].
  exact (fee_entries_have_an_annual_fee Fixture.ism_readers Fixture.spec_page
           _ _ _ Hd Hin).
Defined.

(** ** X2: a section that no row names stays empty *)

(** X2.  When no row of any table of the fees page has a first cell that
    names a section (REGULAR ... PROGRAM, or SPECIALIZED ... PROGRAM), the
    dictionary of that section comes out empty: rows are attributed to a
    section only after a row has named it, in both scans. *)
Theorem section_never_named_stays_empty :
  forall (R : ISM.Readers) (soup : element) (d : ISM.tuition_data)
         (sec : ISM.section),
    data (ISM.tuition_of_page soup) = Some d ->
    never_named sec soup ->
    programs_of sec d = [].
Proof.
  intros R soup d sec Hd Hnever. unfold ISM.tuition_of_page in Hd.
  destruct (select_one ISM.table_table soup) as [table|] eqn:Ht;
    [|discriminate].
  cbv zeta in Hd. simpl in Hd. inversion Hd as [Hd']. clear Hd.
  apply table_table_is_a_table in Ht.
  assert (H1 : untouched sec (ISM.scan_table (ISM.rows_of table))).
  { unfold ISM.scan_table. apply fold_invariant.
    - intros st cells Hin. apply scan_row_untouched.
      apply (Hnever table cells Ht Hin).
    - split; [discriminate | destruct sec; reflexivity]. }
  assert (H2 : forall d0,
             match sec with
             | ISM.Regular => fst d0 = []
             | ISM.Specialized => snd d0 = []
             end ->
             match sec with
             | ISM.Regular =>
                 fst (ISM.alt_scan_tables
                        (map ISM.rows_of (find_all ["table"] soup)) d0) = []
             | ISM.Specialized =>
                 snd (ISM.alt_scan_tables
                        (map ISM.rows_of (find_all ["table"] soup)) d0) = []
             end).
  { intros d0 Hd0. unfold ISM.alt_scan_tables.
    apply (fold_invariant _ _
             (fun d1 => match sec with
                        | ISM.Regular => fst d1 = []
                        | ISM.Specialized => snd d1 = []
                        end)); [|exact Hd0].
    intros d1 rows Hrows Hd1. apply in_map_iff in Hrows.
    destruct Hrows as [t [Hrows Hint]]. subst rows.
    assert (untouched sec (fold_left ISM.alt_scan_row (ISM.rows_of t)
                                     (None, d1))) as Hu.
    { apply fold_invariant.
      - intros st cells Hin. apply alt_scan_row_untouched.
        apply (Hnever t cells Hint Hin).
      - split; [discriminate | exact Hd1]. }
    destruct Hu as [_ Hu]. exact Hu. }
  destruct H1 as [_ H1]. specialize (H2 _ H1).
  subst d. destruct sec; simpl; destruct (_ && _); assumption.
Qed.

(** X2 at a table that names the regular section only *)
Lemma section_never_named_stays_empty_witness :
  data (ISM.tuition_of_page (R := Fixture.ism_readers) Fixture.regular_page)
  = Some {| ISM.regular_program := [("Grade 1", Fixture.fee "100" "50" "50")];
            ISM.specialized_program := [];
            ISM.additional_fees := []; ISM.other_fees := [] |}
  /\ never_named ISM.Specialized Fixture.regular_page
  /\ programs_of ISM.Specialized
       {| ISM.regular_program := [("Grade 1", Fixture.fee "100" "50" "50")];
          ISM.specialized_program := [];
          ISM.additional_fees := []; ISM.other_fees := [] |} = [].
Proof.
  assert (Hd : data (ISM.tuition_of_page (R := Fixture.ism_readers)
                       Fixture.regular_page)
               = Some {| ISM.regular_program :=
                           [("Grade 1", Fixture.fee "100" "50" "50")];
                         ISM.specialized_program := [];
                         ISM.additional_fees := []; ISM.other_fees := [] |})
    by reflexivity.
  assert (Hn : never_named ISM.Specialized Fixture.regular_page).
  { intros table cells Ht Hc. simpl in Ht. destruct Ht as [Ht|[]]. subst table.
    simpl in Hc. destruct Hc as [Hc|[Hc|[]]]; subst cells; reflexivity. }
  split; [exact Hd|]. split; [exact Hn|].
  exact (section_never_named_stays_empty Fixture.ism_readers
           Fixture.regular_page _ ISM.Specialized Hd Hn).
Defined.

(** ** The ISM enrollment page *)

Lemma map_snd_combine : forall (A B : Type) (l : list A) (l' : list B),
  List.length l = List.length l' -> map snd (combine l l') = l'.
Proof.
  induction l as [|x l IH]; intros [|y l'] H; simpl in *; try discriminate.
  - reflexivity.
  - f_equal. apply IH. lia.
Qed.

Lemma nodup_map_filter : forall (A B : Type) (f : A -> B) (p : A -> bool)
    (l : list A),
  NoDup (map f l) -> NoDup (map f (filter p l)).
Proof.
  intros A B f p l. induction l as [|x l IH]; simpl; intros H.
  - constructor.
  - inversion H as [|? ? Hx Hl]; subst.
    destruct (p x); simpl; [|apply IH, Hl].
    constructor; [|apply IH, Hl].
    intros Hin. apply Hx. apply in_map_iff in Hin.
    destruct Hin as [y [Hy Hin]]. apply filter_In in Hin.
    rewrite <- Hy. apply in_map, Hin.
Qed.

Lemma keys_dict_set : forall (V : Type) k (v : V) (d : Py.dict V),
  Py.keys (Py.dict_set k v d)
  = if existsb (String.eqb k) (Py.keys d) then Py.keys d
    else Py.keys d ++ [k].
Proof.
  intros V k v d. unfold Py.keys. induction d as [|[k' v'] d IH]; simpl.
  - reflexivity.
  - destruct (String.eqb k k') eqn:Hk; simpl.
    + reflexivity.
    + rewrite IH.
      destruct (existsb (String.eqb k) (map fst d)); reflexivity.
Qed.

Lemma nodup_dict_set : forall (V : Type) k (v : V) (d : Py.dict V),
  NoDup (Py.keys d) -> NoDup (Py.keys (Py.dict_set k v d)).
Proof.
  intros V k v d H. rewrite keys_dict_set.
  destruct (existsb (String.eqb k) (Py.keys d)) eqn:Hx; [exact H|].
  apply NoDup_app; [exact H | repeat constructor; intros [] | ].
  intros y Hy [Hxy|[]]; subst y.
  assert (existsb (String.eqb k) (Py.keys d) = true); [|congruence].
  apply existsb_exists. exists k. split; [exact Hy | apply String.eqb_refl].
Qed.

(** the keys after one accordion: those before, and at most its header *)
Lemma add_grade_keys : forall d acc k,
  In k (Py.keys (ISM.add_grade d acc)) ->
  In k (Py.keys d)
  \/ exists header,
       select_one (ISM.below [class_ "accordion-header"; tag_ "h4" []]) acc
       = Some header
       /\ k = get_text_strip header.
Proof.
  intros d acc k. unfold ISM.add_grade.
  destruct (select_one (ISM.below [class_ "accordion-header"; tag_ "h4" []])
                       acc) as [header|]; [|auto].
  cbv zeta.
  match goal with
  | |- context [match ?c with Some _ => _ | None => _ end] =>
      destruct c as [content_div|]
  end; [|auto].
  rewrite keys_dict_set.
  destruct (existsb _ (Py.keys d)); [auto|].
  intros Hin. apply in_app_or in Hin. destruct Hin as [Hin|[Hin|[]]]; [auto|].
  right. exists header. split; [reflexivity | symmetry; exact Hin].
Qed.

Lemma add_grade_nodup : forall d acc,
  NoDup (Py.keys d) -> NoDup (Py.keys (ISM.add_grade d acc)).
Proof.
  intros d acc H. unfold ISM.add_grade.
  destruct (select_one _ acc) as [header|]; [|exact H].
  cbv zeta.
  match goal with
  | |- context [match ?c with Some _ => _ | None => _ end] =>
      destruct c as [content_div|]
  end; [|exact H].
  apply nodup_dict_set, H.
Qed.

Lemma in_count_positive : forall r l, In r l -> 1 <= count r l.
Proof.
  intros r l H. apply (count_occ_In string_dec) in H. unfold count. lia.
Qed.

(** X3.  The steps of the ISM admissions process are all or nothing: when
    the page has as many accordion contents as tab titles, the steps carry
    the texts of the contents in document order, one step per tab; when the
    numbers differ, no step at all is reported.  A step never carries an
    empty item list: the key is left out when its content has no list
    item. *)
Theorem ism_steps_all_or_nothing :
  forall soup : element,
    map ISM.step_description (ISM.steps_of_page soup)
    = (if Nat.eqb (List.length (select (ISM.accordion "tab-title") soup))
                  (List.length
                     (select (ISM.accordion "accordion-content") soup))
       then map get_text_strip
                (select (ISM.accordion "accordion-content") soup)
       else [])
    /\ Forall (fun st => ISM.items st <> Some []) (ISM.steps_of_page soup).
Proof.
  intros soup. unfold ISM.steps_of_page. cbv zeta.
  set (tabs := select (ISM.accordion "tab-title") soup).
  set (contents := select (ISM.accordion "accordion-content") soup).
  split.
  - destruct (Nat.eqb (List.length tabs) (List.length contents)) eqn:Hlen.
    + rewrite andb_true_r. apply Nat.eqb_eq in Hlen.
      destruct (Py.nonempty tabs) eqn:Hne.
      * rewrite map_map. cbn [ISM.step_of ISM.step_description].
        rewrite <- (map_map snd get_text_strip).
        rewrite (map_snd_combine _ _ _ _ Hlen). reflexivity.
      * destruct tabs; [|discriminate].
        destruct contents; [reflexivity | discriminate].
    + rewrite andb_false_r. reflexivity.
  - destruct (Py.nonempty tabs && _); [|constructor].
    apply Forall_forall. intros st Hin. apply in_map_iff in Hin.
    destruct Hin as [[tab content] [Hst _]]. subst st.
    unfold ISM.step_of. cbn [ISM.items fst snd].
    destruct (select ISM.list_items content) as [|i l]; simpl; discriminate.
Qed.

(** X4.  The common requirements that the ISM enrollment extractor
    reports hold no requirement twice, however often it occurs in the
    lists of the grade levels. *)
Theorem common_requirements_are_distinct :
  forall (E : Environment) (text : string) (soup : element)
         (d : ISM.enrollment_data),
    data (ISM.enrollment_of_page text soup) = Some d ->
    NoDup (ISM.common_requirements d).
Proof.
  intros E text soup d H. unfold ISM.enrollment_of_page in H. cbv zeta in H.
  simpl in H. inversion H as [Hd]. clear H.
  destruct (Py.nonempty (ISM.parse_requirements_data text)); simpl;
    [|constructor].
  unfold ISM.infer_common. apply nodup_map_filter.
  apply (counter_fold_nodup _ []). constructor.
Qed.

(** X4 at the four grade levels: "Birth Certificate", found three times,
    is reported once *)
Lemma common_requirements_are_distinct_witness :
  data (ISM.enrollment_of_page (E := Fixture.requirements_site) ""
          Fixture.requirements_page)
  = Some Fixture.four_grades_data
  /\ NoDup (ISM.common_requirements Fixture.four_grades_data).
Proof.
  split; [reflexivity|].
  apply (common_requirements_are_distinct Fixture.requirements_site ""
           Fixture.requirements_page Fixture.four_grades_data).
  reflexivity.
Defined.

(** X5.  With at most three grade levels the threshold [len // 2] is at
    most one, so every requirement of every grade level is reported as
    common, also one that a single grade level asks for. *)
Theorem few_grade_levels_make_every_requirement_common :
  forall (E : Environment) (text : string) (soup : element)
         (d : ISM.enrollment_data) (r : string),
    data (ISM.enrollment_of_page text soup) = Some d ->
    List.length (ISM.grade_requirements d) <= 3 ->
    (In r (ISM.common_requirements d)
     <-> In r (ISM.all_requirements (ISM.grade_requirements d))).
Proof.
  intros E text soup d r H Hlen. unfold ISM.enrollment_of_page in H.
  cbv zeta in H. simpl in H. inversion H as [Hd]. clear H.
  destruct (Py.nonempty (ISM.parse_requirements_data text)) eqn:Hne;
    subst d; simpl in *; [|tauto].
  rewrite infer_common_spec. split; [tauto|].
  intros Hin. split; [exact Hin|].
  apply Nat.le_trans with 1; [|apply in_count_positive, Hin].
  destruct (ISM.parse_requirements_data text) as [|g1 [|g2 [|g3 [|g4 l]]]];
    simpl in *; lia.
Qed.

(** X5 at two grade levels with one requirement each *)
Lemma few_grade_levels_make_every_requirement_common_witness :
  data (ISM.enrollment_of_page (E := Fixture.two_grades_site) ""
          Fixture.two_grades_page)
  = Some Fixture.two_grades_data
  /\ List.length (ISM.grade_requirements Fixture.two_grades_data) <= 3
  /\ (In "Medical Form" (ISM.common_requirements Fixture.two_grades_data)
      <-> In "Medical Form"
             (ISM.all_requirements
                (ISM.grade_requirements Fixture.two_grades_data))).
Proof.
  split; [reflexivity|]. split; [simpl; lia|].
  apply (few_grade_levels_make_every_requirement_common
           Fixture.two_grades_site "" Fixture.two_grades_page
           Fixture.two_grades_data "Medical Form");
    [reflexivity | simpl; lia].
Defined.

(** X6.  The grade levels that [parse_requirements_data] reports are
    distinct, and each is the header text of an accordion of the
    requirements tabs: two accordions with one header give one entry. *)
Theorem grade_levels_are_distinct_headers :
  forall soup : element,
    NoDup (Py.keys (ISM.requirements_of_page soup))
    /\ Forall
         (fun grade_name =>
            exists tabs_container accordion header,
              select_one (one (tag_ "div" ["tabs"; "style-standard"])) soup
              = Some tabs_container
              /\ In accordion
                    (select (one (class_ "accordion-wrapper")) tabs_container)
              /\ select_one
                   (ISM.below [class_ "accordion-header"; tag_ "h4" []])
                   accordion
                 = Some header
              /\ grade_name = get_text_strip header)
         (Py.keys (ISM.requirements_of_page soup)).
Proof.
  intros soup. unfold ISM.requirements_of_page.
  destruct (select_one (one (tag_ "div" ["tabs"; "style-standard"])) soup)
    as [tabs_container|]; [|split; constructor].
  apply (fold_invariant _ _
           (fun d =>
              NoDup (Py.keys d)
              /\ Forall
                   (fun grade_name =>
                      exists tc accordion header,
                        Some tabs_container = Some tc
                        /\ In accordion
                              (select (one (class_ "accordion-wrapper")) tc)
                        /\ select_one
                             (ISM.below [class_ "accordion-header";
                                         tag_ "h4" []]) accordion
                           = Some header
                        /\ grade_name = get_text_strip header)
                   (Py.keys d))); [|split; constructor].
  intros d acc Hacc [Hnd Hkeys]. split; [apply add_grade_nodup, Hnd|].
  apply Forall_forall. intros k Hk.
  destruct (add_grade_keys _ _ _ Hk) as [Hold|[header [Hh Heq]]].
  - rewrite Forall_forall in Hkeys. apply Hkeys, Hold.
  - exists tabs_container, acc, header. auto.
Qed.

(** ** The BSM enrollment page *)




(** one panel adds at most one step, at the end *)
Lemma panel_step_steps : forall (R : BSM.Readers) st i panel,
  BSM.application_steps (BSM.panel_step st (i, panel))
  = BSM.application_steps st
  \/ exists t descr,
       BSM.application_steps (BSM.panel_step st (i, panel))
       = BSM.application_steps st
         ++ [{| BSM.step_number := BSM.step_number_of i panel;
                BSM.title := t; BSM.description := descr |}].
Proof.
  intros R st i panel. unfold BSM.panel_step.
  destruct (select_one (BSM.h2_title (tag_ "a" [])) panel) as [title_elem|];
    [|left; reflexivity].
  cbv zeta.
  destruct (select_one BSM.element_content panel) as [content_div|];
    [|left; reflexivity].
  right. eexists _, _. reflexivity.
Qed.




Lemma panels_fold_length : forall (R : BSM.Readers) l st,
  List.length (BSM.application_steps (fold_left BSM.panel_step l st))
  <= List.length (BSM.application_steps st) + List.length l.
Proof.
  intros R l. induction l as [|[i p] l IH]; intros st;
    cbn [fold_left List.length].
  - lia.
  - specialize (IH (BSM.panel_step st (i, p))).
    destruct (panel_step_steps R st i p) as [Heq|[t [descr Heq]]];
      rewrite Heq in IH; [|rewrite length_app in IH; cbn [List.length] in IH];
      lia.
Qed.

(** what the loop over the panels keeps true of the address and of the
    requirements *)
Lemma panel_step_payload : forall (R : BSM.Readers) st ip,
  (BSM.found_email st = ""
   \/ Exists (email_of_step (BSM.found_email st)) (BSM.application_steps st)) ->
  Forall (fun r => r <> "") (BSM.application_requirements st) ->
  (BSM.found_email (BSM.panel_step st ip) = ""
   \/ Exists (email_of_step (BSM.found_email (BSM.panel_step st ip)))
             (BSM.application_steps (BSM.panel_step st ip)))
  /\ Forall (fun r => r <> "")
            (BSM.application_requirements (BSM.panel_step st ip)).
Proof.
  intros R st [i panel] He Hr. unfold BSM.panel_step.
  destruct (select_one (BSM.h2_title (tag_ "a" [])) panel) as [title_elem|];
    [|split; assumption].
  cbv zeta.
  destruct (select_one BSM.element_content panel) as [content_div|];
    [|split; assumption].
  cbn [BSM.found_email BSM.application_steps BSM.application_requirements].
  split.
  - destruct (Py.truthy (BSM.found_email st)) eqn:Ht.
    + destruct He as [He|He]; [rewrite He in Ht; discriminate|].
      right. apply Exists_app. left. exact He.
    + destruct (BSM.findall_email (BSM.description_of content_div))
        as [|m ms] eqn:Hm.
      * left. destruct (BSM.found_email st); [reflexivity | discriminate].
      * right. apply Exists_app. right. constructor.
        unfold email_of_step. cbn [BSM.description]. rewrite Hm. reflexivity.
  - apply Forall_app. split; [exact Hr|].
    destruct (_ || _); [|constructor].
    apply Forall_forall. intros r Hin. apply filter_In in Hin.
    destruct Hin as [_ Hin]. intros Heq. rewrite Heq in Hin. discriminate.
Qed.

(** X8.  In the payload of the BSM enrollment extractor the contact
    address is empty or the first match of the e-mail pattern in the
    description of one of the reported steps; no requirement is an empty
    string; and there are at most as many steps as the page has panels. *)
Theorem bsm_enrollment_payload_comes_from_the_panels :
  forall (R : BSM.Readers) (soup : element) (d : BSM.enrollment_data),
    data (BSM.enrollment_of_page soup) = Some d ->
    (BSM.contact_email d = ""
     \/ Exists (email_of_step (BSM.contact_email d)) (BSM.application_process d))
    /\ Forall (fun r => r <> "") (BSM.requirements d)
    /\ List.length (BSM.application_process d)
       <= List.length (select BSM.panel_selector soup).
Proof.
  intros R soup d Hd. unfold BSM.enrollment_of_page in Hd.
  destruct (select_one (one (tag_ "ul" ["fsTabsNav"])) soup) as [tabs_nav|];
    [|discriminate].
  cbv zeta in Hd. simpl in Hd. inversion Hd as [Hd']. clear Hd.
  cbn [BSM.application_process BSM.requirements BSM.contact_email].
  assert (Hinv :
            (BSM.found_email (BSM.panels_loop soup) = ""
             \/ Exists (email_of_step (BSM.found_email (BSM.panels_loop soup)))
                       (BSM.application_steps (BSM.panels_loop soup)))
            /\ Forall (fun r => r <> "")
                      (BSM.application_requirements (BSM.panels_loop soup))).
  { unfold BSM.panels_loop. cbv zeta.
    apply (fold_invariant _ _
             (fun st =>
                (BSM.found_email st = ""
                 \/ Exists (email_of_step (BSM.found_email st))
                           (BSM.application_steps st))
                /\ Forall (fun r => r <> "")
                          (BSM.application_requirements st))).
    - intros st ip _ [He Hr]. apply panel_step_payload; assumption.
    - split; [left; reflexivity | constructor]. }
  destruct Hinv as [He Hr]. split; [|split; [exact Hr|]].
  - destruct He as [He|He]; [left; exact He | right].
    apply Exists_exists in He. destruct He as [st [Hin Hst]].
    apply Exists_exists. exists st. split; [|exact Hst].
    apply (Permutation_in _ (sort_by_perm _ _) Hin).
  - rewrite <- (Permutation_length (sort_by_perm BSM.step_number _)).
    unfold BSM.panels_loop. cbv zeta.
    pose proof (panels_fold_length R
                  (Py.enumerate (select BSM.panel_selector soup))
                  {| BSM.application_steps := [];
                     BSM.application_requirements := [];
                     BSM.found_email := "" |}) as Hlen.
    simpl in Hlen. unfold Py.enumerate in Hlen at 2.
    rewrite length_combine, length_seq, Nat.min_id in Hlen. exact Hlen.
Qed.

(** X8 at a page whose first panel gives an address *)
Lemma bsm_enrollment_payload_comes_from_the_panels_witness :
  data (BSM.enrollment_of_page (R := Fixture.bsm_mail_readers)
          Fixture.bsm_text_page)
  = Some Fixture.bsm_text_data
  /\ (BSM.contact_email Fixture.bsm_text_data = ""
      \/ Exists (email_of_step (R := Fixture.bsm_mail_readers)
                               (BSM.contact_email Fixture.bsm_text_data))
                (BSM.application_process Fixture.bsm_text_data))
  /\ Forall (fun r => r <> "") (BSM.requirements Fixture.bsm_text_data)
  /\ List.length (BSM.application_process Fixture.bsm_text_data)
     <= List.length (select BSM.panel_selector Fixture.bsm_text_page).
Proof.
  split; [reflexivity|].
  exact (bsm_enrollment_payload_comes_from_the_panels
           Fixture.bsm_mail_readers Fixture.bsm_text_page
           Fixture.bsm_text_data eq_refl).
Defined.

(** ** The universal scraper: main content, clean-up and chunks *)

Lemma first_large_spec : forall sels soup c,
  Scraper.first_large sels soup = Some c ->
  100 < Scraper.text_length c
  /\ Exists (fun sel => select_one sel soup = Some c) sels.
Proof.
  intros sels soup c. induction sels as [|sel sels IH]; simpl; intros H.
  - discriminate.
  - destruct (select_one sel soup) as [content|] eqn:Hsel.
    + destruct (Nat.ltb 100 (Scraper.text_length content)) eqn:Hlt.
      * inversion H; subst. apply Nat.ltb_lt in Hlt.
        split; [exact Hlt | left; exact Hsel].
      * destruct (IH H) as [H1 H2]. split; [exact H1 | right; exact H2].
    + destruct (IH H) as [H1 H2]. split; [exact H1 | right; exact H2].
Qed.

(** the first element of a list sorted in descending order of [key] is
    one of greatest key *)
Lemma sorted_reverse_head : forall (A : Type) (key : A -> Z) (l : list A) c rest,
  Py.sorted_reverse key l = c :: rest ->
  In c l /\ Forall (fun c' => (key c' <= key c)%Z) l.
Proof.
  intros A key l c rest H. unfold Py.sorted_reverse in H.
  pose proof (sort_by_perm (fun x => Z.opp (key x)) l) as Hperm.
  pose proof (sort_by_sorted (fun x => Z.opp (key x)) l) as Hsorted.
  rewrite H in Hperm, Hsorted. split.
  - apply (Permutation_in _ (Permutation_sym Hperm)). left. reflexivity.
  - apply Sorted_StronglySorted in Hsorted;
      [|intros x y z Hxy Hyz; lia].
    simpl in Hsorted. apply StronglySorted_inv in Hsorted.
    destruct Hsorted as [_ Hall].
    apply Forall_forall. intros c' Hin.
    apply (Permutation_in _ Hperm) in Hin. destruct Hin as [Heq|Hin].
    + subst c'. lia.
    + rewrite Forall_forall in Hall.
      specialize (Hall (Z.opp (key c')) (in_map _ _ _ Hin)). lia.
Qed.

(** X9.  What [_find_main_content] returns has more than 100 characters
    of stripped text, and it is the first match of one of the thirteen
    container selectors or else a [div] or [section] with a class
    attribute whose text is not shorter than that of any other. *)
Theorem main_content_holds_over_100_characters :
  forall (soup c : element),
    Scraper._find_main_content soup = Some c ->
    100 < Scraper.text_length c
    /\ (Exists (fun sel => select_one sel soup = Some c) Scraper.selectors
        \/ (In c (find_all_with_class ["div"; "section"] soup)
            /\ Forall (fun c' => Scraper.text_length c'
                                 <= Scraper.text_length c)
                      (find_all_with_class ["div"; "section"] soup))).
Proof.
  intros soup c H. unfold Scraper._find_main_content in H.
  destruct (Scraper.first_large Scraper.selectors soup) as [content|] eqn:Hf.
  - inversion H; subst. destruct (first_large_spec _ _ _ Hf) as [H1 H2].
    split; [exact H1 | left; exact H2].
  - cbv zeta in H.
    destruct (Py.sorted_reverse _ _) as [|c0 rest] eqn:Hs; [discriminate|].
    destruct (Nat.ltb 100 (Scraper.text_length c0)) eqn:Hlt; [|discriminate].
    inversion H; subst. apply Nat.ltb_lt in Hlt. split; [exact Hlt|].
    right. destruct (sorted_reverse_head _ _ _ _ _ Hs) as [Hin Hall].
    split; [exact Hin|].
    apply Forall_forall. intros c' Hc'. rewrite Forall_forall in Hall.
    specialize (Hall c' Hc'). lia.
Qed.

(** X9 at a page with a [main] element of 6000 characters *)
Lemma main_content_holds_over_100_characters_witness :
  exists c,
    Scraper._find_main_content Fixture.long_page = Some c
    /\ 100 < Scraper.text_length c
    /\ (Exists (fun sel => select_one sel Fixture.long_page = Some c)
               Scraper.selectors
        \/ (In c (find_all_with_class ["div"; "section"] Fixture.long_page)
            /\ Forall (fun c' => Scraper.text_length c'
                                 <= Scraper.text_length c)
                      (find_all_with_class ["div"; "section"]
                                           Fixture.long_page))).
Proof.
  destruct (Scraper._find_main_content Fixture.long_page) as [c|] eqn:H.
  - exists c. split; [reflexivity|].
    exact (main_content_holds_over_100_characters Fixture.long_page c H).
  - vm_compute in H. discriminate.
Defined.

Lemma collapse_whitespace_single_spaced : forall s in_run,
  single_spaced in_run (Py.collapse_runs Py.isspace " "%char in_run s) = true.
Proof.
  induction s as [|c s IH]; intros in_run; simpl.
  - reflexivity.
  - destruct (Py.isspace c) eqn:Hc.
    + destruct in_run; [apply IH|].
      simpl. apply IH.
    + simpl. rewrite Hc. apply IH.
Qed.

Lemma single_spaced_weaken : forall s, 
  single_spaced true s = true -> single_spaced false s = true.
Proof.
  intros [|c s]; simpl; [reflexivity|].
  destruct (Py.isspace c); [|auto].
  rewrite andb_false_r. discriminate.
Qed.

Lemma lstrip_single_spaced : forall s b,
  single_spaced b s = true -> single_spaced true (Py.lstrip s) = true.
Proof.
  induction s as [|c s IH]; intros b H; simpl in *.
  - reflexivity.
  - destruct (Py.isspace c) eqn:Hc.
    + apply andb_true_iff in H. destruct H as [_ H]. apply (IH true H).
    + simpl. rewrite Hc. exact H.
Qed.

Lemma rstrip_single_spaced : forall s b,
  single_spaced b s = true -> single_spaced b (Py.rstrip s) = true.
Proof.
  induction s as [|c s IH]; intros b H.
  - reflexivity.
  - cbn [Py.rstrip]. cbn [single_spaced] in H.
    destruct (Py.isspace c) eqn:Hc.
    + apply andb_true_iff in H. destruct H as [H1 H2].
      specialize (IH true H2).
      destruct (Py.rstrip s) as [|c' r]; [reflexivity|].
      cbn [single_spaced]. rewrite Hc, H1. exact IH.
    + specialize (IH false H).
      destruct (Py.rstrip s) as [|c' r]; cbn [single_spaced]; rewrite Hc;
        [reflexivity | exact IH].
Qed.

Lemma strip_single_spaced : forall s b,
  single_spaced b s = true -> single_spaced true (Py.strip s) = true.
Proof.
  intros s b H. unfold Py.strip.
  apply rstrip_single_spaced. apply (lstrip_single_spaced s b H).
Qed.

(** a text without line breaks is left as it is by the second
    substitution *)
Lemma sub_newlines_single_spaced : forall s b in_run,
  single_spaced b s = true ->
  Py.collapse_runs Py.is_newline "010"%char in_run s = s.
Proof.
  induction s as [|c s IH]; intros b in_run H; simpl in *.
  - reflexivity.
  - destruct (Py.is_newline c) eqn:Hn.
    + unfold Py.is_newline in Hn. apply Ascii.eqb_eq in Hn. subst c.
      simpl in H. discriminate.
    + f_equal. destruct (Py.isspace c).
      * apply andb_true_iff in H. destruct H as [_ H]. apply (IH true _ H).
      * apply (IH false _ H).
Qed.

Lemma slice_to_single_spaced : forall n s b,
  single_spaced b s = true -> single_spaced b (Py.slice_to n s) = true.
Proof.
  induction n as [|n IH]; intros [|c s] b H; simpl in *; try reflexivity.
  destruct (Py.isspace c).
  - apply andb_true_iff in H. destruct H as [H1 H2].
    rewrite H1. apply (IH s true H2).
  - apply (IH s false H).
Qed.

Lemma single_spaced_first_line : forall s b,
  single_spaced b s = true -> Py.first_line s = s.
Proof.
  induction s as [|c s IH]; intros b H; simpl in *.
  - reflexivity.
  - destruct (Py.is_newline c) eqn:Hn.
    + unfold Py.is_newline in Hn. apply Ascii.eqb_eq in Hn. subst c.
      simpl in H. discriminate.
    + f_equal. destruct (Py.isspace c).
      * apply andb_true_iff in H. destruct H as [_ H]. apply (IH true H).
      * apply (IH false H).
Qed.

(** X10.  The text that [_extract_content] returns is one line in which
    every whitespace character is a single blank after a character that
    is no whitespace: it opens with no blank, holds no tab, line break or
    run of blanks, whatever the page is.  (The line breaks that join the
    paragraphs are replaced by the first substitution, so the second one
    finds none.) *)
Theorem extract_content_is_one_single_spaced_line :
  forall (soup : element) (field_name : string),
    single_spaced true (Scraper._extract_content soup field_name) = true
    /\ Py.first_line (Scraper._extract_content soup field_name)
       = Scraper._extract_content soup field_name.
Proof.
  intros soup field_name.
  assert (H : single_spaced true (Scraper._extract_content soup field_name)
              = true).
  { unfold Scraper._extract_content. cbv zeta.
    match goal with
    | |- single_spaced true
           (if Py.truthy (Py.strip (Py.sub_newlines (Py.strip ?c)))
            then _ else _) = true =>
        assert (H1 : single_spaced true (Py.strip c) = true)
    end.
    { apply (strip_single_spaced _ false).
      apply collapse_whitespace_single_spaced. }
    match type of H1 with
    | single_spaced true ?c1 = true =>
        assert (H2 : Py.sub_newlines c1 = c1)
          by (apply (sub_newlines_single_spaced _ true), H1);
        rewrite H2;
        destruct (Py.truthy (Py.strip c1)); [|reflexivity];
        apply slice_to_single_spaced, (strip_single_spaced _ true), H1
    end. }
  split; [exact H | apply (single_spaced_first_line _ true H)].
Qed.

Section Chunks.
Context {E : Environment}.

Lemma scrape_url_chunks : forall field_name results url s,
  exists added s',
    Scraper.scrape_url field_name results url s = (Return (results ++ added), s')
    /\ Forall2 (chunk_for field_name) (filter Py.truthy [url]) added.
Proof.
  intros field_name results url s.
  unfold Scraper.scrape_url, try_except, bind, ret. simpl filter.
  destruct (Py.truthy url) eqn:Hu; unfold negb; cbv beta iota zeta.
  - destruct (session_get url s) as [[text|e] s1].
    + rewrite extract_content_truthy.
      eexists [_], s1. split; [reflexivity|].
      constructor; [|constructor]. left. exists text. reflexivity.
    + eexists [_], s1. split; [reflexivity|].
      constructor; [|constructor]. right. exists e. reflexivity.
  - exists [], s. rewrite app_nil_r. split; [reflexivity | constructor].
Qed.

Lemma scrape_urls_chunks : forall field_name urls results s,
  exists added s',
    Scraper.scrape_urls field_name results urls s
    = (Return (results ++ added), s')
    /\ Forall2 (chunk_for field_name) (filter Py.truthy urls) added.
Proof.
  intros field_name urls. induction urls as [|url urls IH]; intros results s.
  - exists [], s. simpl. unfold ret. rewrite app_nil_r.
    split; [reflexivity | constructor].
  - destruct (scrape_url_chunks field_name results url s)
      as (a1 & s1 & H1 & F1).
    destruct (IH (results ++ a1) s1) as (a2 & s2 & H2 & F2).
    exists (a1 ++ a2), s2. cbn [Scraper.scrape_urls].
    rewrite (bind_return _ _ _ _ _ H1), H2, app_assoc.
    split; [reflexivity|].
    replace (filter Py.truthy (url :: urls))
      with (filter Py.truthy [url] ++ filter Py.truthy urls)
      by (simpl; destruct (Py.truthy url); reflexivity).
    apply Forall2_app; assumption.
Qed.

End Chunks.

(** X11.  [_scrape_field] reports every non-empty URL of the field, in
    the order of the catalog and each exactly once: its chunk is either
    ["From <url>:"] and the extracted content of the page, or
    ["Error scraping <url>: "] and the text of the exception.  A failed
    fetch does not keep the later URLs from being fetched.  The chunks
    are joined by the separator line; without a chunk the sentinel is
    returned. *)
Theorem scrape_field_reports_every_url :
  forall (E : Environment) (sch : Scraper.school) (field_name : string)
         (s : state),
  exists chunks s',
    Scraper._scrape_field sch field_name s
    = (Return (if Py.nonempty chunks
               then Py.join Scraper.separator chunks
               else "No data available"), s')
    /\ Forall2 (chunk_for field_name)
               (filter Py.truthy (urls_of sch field_name)) chunks.
Proof.
  intros E sch field_name s. unfold Scraper._scrape_field, urls_of.
  cbv zeta.
  destruct (Py.dict_get field_name sch) as [[u|l]|].
  - destruct (Py.truthy u) eqn:Hu.
    + destruct (scrape_urls_chunks field_name [u] [] s) as (a & s' & H & F).
      rewrite (bind_return _ _ _ _ _ H). exists a, s'.
      split; [|exact F]. unfold ret.
      change ([] ++ a) with a. destruct (Py.nonempty a); reflexivity.
    + exists [], s. simpl filter. rewrite Hu. split; [reflexivity|constructor].
  - destruct l as [|u l].
    + exists [], s. split; [reflexivity | constructor].
    + change (Py.nonempty (u :: l)) with true. cbv iota.
      destruct (scrape_urls_chunks field_name (u :: l) [] s)
        as (a & s' & H & F).
      rewrite (bind_return _ _ _ _ _ H). exists a, s'.
      split; [|exact F]. unfold ret.
      change ([] ++ a) with a. destruct (Py.nonempty a); reflexivity.
  - exists [], s. split; [reflexivity | constructor].
Qed.

(** ** The teardown of the aggregate scrape *)

(** X12.  The aggregate [scrape] of the ISM and BSM extractors raises
    only when the teardown routine raised: no failure of a category
    method makes it raise.  When it raises, the first teardown call was
    made after the five category methods and raised, and the teardown
    routine has been invoked twice. *)
Theorem scrape_raises_only_when_the_teardown_raises :
  forall (E : Environment) (RI : ISM.Readers) (RB : BSM.Readers)
         (s s' : state) (e : exn),
    (fst (ISM.scrape s) = Raise e /\ snd (ISM.scrape s) = s')
    \/ (fst (BSM.scrape s) = Raise e /\ snd (BSM.scrape s) = s') ->
    teardowns s' = 2 + teardowns s
    /\ exists s5 s6 e1,
         teardowns s5 = teardowns s
         /\ close_playwright s5 = (Raise e1, s6).
Proof.
  intros E RI RB s s' e [[H1 H2]|[H1 H2]].
  - destruct (ism_collect_results_spec s)
      as (rt & rc & re & rs & rk & s1 & s2 & s3 & s4 & s5 & _ & _ & _ & _ & _
          & _ & Htd & Hcol).
    rewrite (ism_scrape_after_collect _ _ _ Hcol) in H1, H2.
    destruct (close_playwright s5) as [[u|e1] s6] eqn:Hc1;
      [simpl in H1; discriminate|].
    split; [|exists s5, s6, e1; split; [exact Htd | exact Hc1]].
    pose proof (close_playwright_counts _ _ _ Hc1) as Hn1.
    destruct (close_playwright s6) as [[u|e'] s7] eqn:Hc2; simpl in H2;
      subst s'; apply close_playwright_counts in Hc2; lia.
  - destruct (bsm_collect_results_spec s)
      as (rt & rc & re & rs & rk & s1 & s2 & s3 & s4 & s5 & _ & _ & _ & _ & _
          & _ & Htd & Hcol).
    rewrite (bsm_scrape_after_collect _ _ _ Hcol) in H1, H2.
    destruct (close_playwright s5) as [[u|e1] s6] eqn:Hc1;
      [simpl in H1; discriminate|].
    split; [|exists s5, s6, e1; split; [exact Htd | exact Hc1]].
    pose proof (close_playwright_counts _ _ _ Hc1) as Hn1.
    destruct (close_playwright s6) as [[u|e'] s7] eqn:Hc2; simpl in H2;
      subst s'; apply close_playwright_counts in Hc2; lia.
Qed.

(** X12 at a run in which every fetch times out and the first teardown
    call fails *)
Lemma scrape_raises_only_when_the_teardown_raises_witness :
  let s := @Fixture.start Fixture.offline_broken_browser 0 in
  let run := ISM.scrape (E := Fixture.offline_broken_browser)
                        (R := Fixture.ism_readers) s in
  fst run = Raise (Exception "Error" "Browser has been closed")
  /\ teardowns (snd run) = 2 + teardowns s
  /\ exists s5 s6 e1,
       teardowns s5 = teardowns s
       /\ close_playwright (E := Fixture.offline_broken_browser) s5
          = (Raise e1, s6).
Proof.
  split; [reflexivity|].
  apply (scrape_raises_only_when_the_teardown_raises
           Fixture.offline_broken_browser Fixture.ism_readers
           Fixture.bsm_readers
           (@Fixture.start Fixture.offline_broken_browser 0) _
           (Exception "Error" "Browser has been closed")).
  left. split; reflexivity.
Defined.

(** ** Sorting by an order *)

Section SortLe.
Context {A : Type} (le : A -> A -> bool).
Hypothesis le_total : forall x y, le x y = true \/ le y x = true.
Hypothesis le_trans : forall x y z, le x y = true -> le y z = true -> le x z = true.

Lemma insert_le_perm : forall x l, Permutation (x :: l) (Py.insert_le le x l).
Proof.
  intros x l. induction l as [|y l IH]; simpl.
  - apply Permutation_refl.
  - destruct (le x y).
    + apply Permutation_refl.
    + apply perm_trans with (y :: x :: l); [apply perm_swap|].
      apply perm_skip, IH.
Qed.

Lemma sort_le_perm : forall l, Permutation l (Py.sort_le le l).
Proof.
  induction l as [|x l IH]; simpl.
  - apply perm_nil.
  - apply perm_trans with (x :: Py.sort_le le l).
    + apply perm_skip, IH.
    + apply insert_le_perm.
Qed.

Lemma insert_le_sorted : forall x l,
  StronglySorted (fun a b => le a b = true) l ->
  StronglySorted (fun a b => le a b = true) (Py.insert_le le x l).
Proof.
  intros x l. induction l as [|y l IH]; simpl; intros Hs.
  - repeat constructor.
  - apply StronglySorted_inv in Hs. destruct Hs as [Hs Hy].
    destruct (le x y) eqn:Hxy.
    + constructor; [constructor; assumption|].
      constructor; [exact Hxy|].
      apply Forall_forall. intros z Hz. rewrite Forall_forall in Hy.
      apply (le_trans x y z Hxy (Hy z Hz)).
    + constructor; [apply IH, Hs|].
      apply Forall_forall. intros z Hz.
      apply (Permutation_in _ (Permutation_sym (insert_le_perm x l))) in Hz.
      destruct Hz as [Hz|Hz].
      * subst z. destruct (le_total x y) as [H|H]; [congruence | exact H].
      * rewrite Forall_forall in Hy. apply Hy, Hz.
Qed.

Lemma sort_le_sorted : forall l,
  StronglySorted (fun a b => le a b = true) (Py.sort_le le l).
Proof.
  induction l as [|x l IH]; simpl.
  - constructor.
  - apply insert_le_sorted, IH.
Qed.

(** the first element of a sorted list that passes a test is a least one
    of those that pass it *)
Lemma find_sorted_least : forall (p : A -> bool) l x,
  StronglySorted (fun a b => le a b = true) l ->
  find p l = Some x ->
  In x l /\ p x = true /\ forall y, In y l -> p y = true -> le x y = true.
Proof.
  intros p l x. induction l as [|z l IH]; simpl; intros Hs Hf.
  - discriminate.
  - apply StronglySorted_inv in Hs. destruct Hs as [Hs Hz].
    destruct (p z) eqn:Hpz.
    + inversion Hf; subst z. split; [left; reflexivity|].
      split; [exact Hpz|]. intros y [Hy|Hy] _.
      * subst y. destruct (le_total x x); assumption.
      * rewrite Forall_forall in Hz. apply Hz, Hy.
    + destruct (IH Hs Hf) as (Hin & Hpx & Hmin).
      split; [right; exact Hin|]. split; [exact Hpx|].
      intros y [Hy|Hy] Hpy; [subst y; congruence | apply Hmin; assumption].
Qed.

End SortLe.

Lemma string_leb_trans : forall a b c,
  String.leb a b = true -> String.leb b c = true -> String.leb a c = true.
Proof.
  intros a b c. unfold String.leb.
  destruct (String.compare a b) eqn:Hab; try discriminate;
    destruct (String.compare b c) eqn:Hbc; try discriminate; intros _ _.
  - apply String.compare_eq_iff in Hab. subst b. rewrite Hbc. reflexivity.
  - apply String.compare_eq_iff in Hab. subst b. rewrite Hbc. reflexivity.
  - apply String.compare_eq_iff in Hbc. subst c. rewrite Hab. reflexivity.
  - apply String_as_OT.cmp_lt in Hab, Hbc.
    pose proof (String_as_OT.lt_trans _ _ _ Hab Hbc) as Hac.
    apply String_as_OT.cmp_lt in Hac. unfold String_as_OT.cmp in Hac.
    rewrite Hac. reflexivity.
Qed.

(** ** The registry of the dispatcher *)

Section Registry.
Variable scraper_class : Type.
Variable import_module
  : string -> outcome (list (string * App.member scraper_class)).

Lemma getmembers_least : forall namespace nm,
  find (App.is_scraper scraper_class) (App.getmembers scraper_class namespace)
  = Some nm ->
  In nm namespace
  /\ App.is_scraper scraper_class nm = true
  /\ forall nm', In nm' namespace ->
                 App.is_scraper scraper_class nm' = true ->
                 String.leb (fst nm) (fst nm') = true.
Proof.
  intros namespace nm H. unfold App.getmembers in H.
  apply (find_sorted_least (fun x y => String.leb (fst x) (fst y))) in H.
  - destruct H as (Hin & Hp & Hmin).
    pose proof (sort_le_perm (fun x y : string * App.member scraper_class =>
                                String.leb (fst x) (fst y)) namespace) as Hperm.
    split; [apply (Permutation_in _ (Permutation_sym Hperm) Hin)|].
    split; [exact Hp|].
    intros nm' Hin' Hp'. apply Hmin; [|exact Hp'].
    apply (Permutation_in _ Hperm Hin').
  - intros x y. apply String.leb_total.
  - apply sort_le_sorted.
    + intros x y. apply String.leb_total.
    + intros x y z. apply string_leb_trans.
Qed.

Lemma nodup_fst_injective : forall (B : Type) (l : list (string * B)) k v v',
  NoDup (map fst l) -> In (k, v) l -> In (k, v') l -> v = v'.
Proof.
  intros B l k v v'. induction l as [|[k0 v0] l IH]; simpl; intros Hnd H1 H2.
  - destruct H1.
  - inversion Hnd as [|? ? Hk Hl]; subst.
    destruct H1 as [H1|H1], H2 as [H2|H2].
    + congruence.
    + inversion H1; subst. exfalso. apply Hk.
      change k with (fst (k, v')). apply in_map, H2.
    + inversion H2; subst. exfalso. apply Hk.
      change k with (fst (k, v)). apply in_map, H1.
    + apply IH; assumption.
Qed.

End Registry.

(** X13.  Of the classes of an imported module whose name ends in
    ["Scraper"], [load_scrapers] registers the one whose name comes first
    in the order of the code points, under that name without
    ["Scraper"].  A module that holds its own class and the class
    [BaseScraper] it imports therefore registers [BaseScraper] under
    ["Base"] whenever the name of its own class sorts after
    ["BaseScraper"]. *)
Theorem load_module_registers_the_least_class_name :
  forall (scraper_class : Type)
         (import_module
            : string -> outcome (list (string * App.member scraper_class)))
         (scrapers : App.registry scraper_class) (scraper_module : string)
         (namespace : list (string * App.member scraper_class))
         (name : string) (c : scraper_class),
    import_module ("services.schools." ++ scraper_module)%string
    = Return namespace ->
    NoDup (map fst namespace) ->
    In (name, App.Class scraper_class c) namespace ->
    App.is_scraper scraper_class (name, App.Class scraper_class c) = true ->
    (forall nm, In nm namespace ->
                App.is_scraper scraper_class nm = true ->
                String.leb name (fst nm) = true) ->
    App.load_module scraper_class import_module scrapers scraper_module
    = Py.dict_set (Py.replace "Scraper" "" name) c scrapers.
Proof.
  intros scraper_class import_module scrapers scraper_module namespace name c
         Himp Hnd Hin Hp Hleast.
  unfold App.load_module. rewrite Himp.
  destruct (find (App.is_scraper scraper_class)
                 (App.getmembers scraper_class namespace))
    as [[name' m']|] eqn:Hfind.
  - destruct (getmembers_least _ _ _ Hfind) as (Hin' & Hp' & Hmin).
    assert (name' = name) as Hname.
    { apply String.leb_antisym.
      - apply (Hmin _ Hin Hp).
      - apply (Hleast _ Hin' Hp'). }
    subst name'.
    rewrite (nodup_fst_injective _ _ _ _ _ Hnd Hin' Hin). reflexivity.
  - exfalso.
    assert (App.is_scraper scraper_class (name, App.Class scraper_class c)
            = false) as Hf.
    { apply (List.find_none _ _ Hfind).
      apply (Permutation_in _ (sort_le_perm _ namespace) Hin). }
    congruence.
Qed.

(** X13 at the names of the ISM module: its own class and the imported
    base class *)
Lemma load_module_registers_the_least_class_name_witness :
  let import_module :=
    fun _ : string =>
      Return [("ISMScraper", App.Class string "ISMScraper");
              ("BaseScraper", App.Class string "BaseScraper");
              ("logger", App.Other string)] in
  App.load_module string import_module [] "ism_scraper"
  = [("Base", "BaseScraper")].
Proof.
  apply (load_module_registers_the_least_class_name string
           (fun _ : string =>
              Return [("ISMScraper", App.Class string "ISMScraper");
                      ("BaseScraper", App.Class string "BaseScraper");
                      ("logger", App.Other string)])
           [] "ism_scraper" _ "BaseScraper" "BaseScraper" eq_refl).
  - repeat constructor; simpl; intuition discriminate.
  - right. left. reflexivity.
  - reflexivity.
  - intros nm [H|[H|[H|[]]]] Hs; subst nm; reflexivity.
Defined.

(** ** [scrape_school] *)

Section SchoolRuns.
Context {E : Environment}.
Variable record : Type.
Variable specific_scraper : string -> string -> Scraper.school -> M record.
Variable now : World -> string.

Lemma school_specific_returns : forall sch s,
  exists r s1,
    Scraper.school_specific record specific_scraper sch s = (Return r, s1).
Proof.
  intros sch s. unfold Scraper.school_specific, try_except.
  match goal with
  | |- exists r s1, match ?m s with _ => _ end = _ =>
      destruct (m s) as [[r|e] s1]
  end.
  - exists r, s1. reflexivity.
  - exists None, s1. reflexivity.
Qed.

Lemma fill_assignments : forall sch info s,
  exists t1 t2 t3 t4 t5 t6 s',
    Scraper.fill now sch Scraper.assignments info s
    = (Return {| Scraper.name := Scraper.name info;
                 Scraper.link := Scraper.link info;
                 Scraper.school_fee := t1; Scraper.program := t2;
                 Scraper.enrollment_process := t3; Scraper.events := t4;
                 Scraper.discounts_scholarships := t5;
                 Scraper.contact_info := t6;
                 Scraper.notes := Scraper.notes info |}, s')
    /\ Forall2 (field_text sch) (map fst Scraper.assignments)
               [t1; t2; t3; t4; t5; t6].
Proof.
  intros sch info s.
  destruct (scrape_field_spec sch "school_fee" s) as (t1 & s1 & H1 & C1).
  destruct (scrape_field_spec sch "program" s1) as (t2 & s2 & H2 & C2).
  destruct (scrape_field_spec sch "Enrollment Process and Requirements" s2)
    as (t3 & s3 & H3 & C3).
  destruct (scrape_field_spec sch "Upcoming Events" s3) as (t4 & s4 & H4 & C4).
  destruct (scrape_field_spec sch "Discounts and Scholarship" s4)
    as (t5 & s5 & H5 & C5).
  destruct (scrape_field_spec sch "Contact Information " s5)
    as (t6 & s6 & H6 & C6).
  exists t1, t2, t3, t4, t5, t6, s6. split.
  - unfold Scraper.assignments. cbn [Scraper.fill].
    rewrite H1. cbn [Scraper.fill]. rewrite H2. cbn [Scraper.fill].
    rewrite H3. cbn [Scraper.fill]. rewrite H4. cbn [Scraper.fill].
    rewrite H5. cbn [Scraper.fill]. rewrite H6. reflexivity.
  - repeat constructor; assumption.
Qed.

End SchoolRuns.

(** X14.  When the school has no working scraper of its own and its
    catalog entry holds a name and a link, [scrape_school] returns the
    dictionary of a [SchoolInfo] with that name and link whose six texts
    are those of the six catalog keys, in the order school_fee, program,
    "Enrollment Process and Requirements", "Upcoming Events", "Discounts
    and Scholarship", "Contact Information ": each is the sentinel when
    the key supplies no URL and opens with a chunk otherwise, so none is
    empty.  The note is the "Scraped at" note of the time at which the
    object was made: the error note of line 120 is never written. *)
Theorem universal_record_holds_six_texts :
  forall (E : Environment) (record : Type)
         (specific_scraper : string -> string -> Scraper.school -> M record)
         (now : World -> string) (sch : Scraper.school) (s : state)
         (n l : Scraper.field_value),
    Py.dict_get "name" sch = Some n ->
    Py.dict_get "link" sch = Some l ->
    fst (Scraper.school_specific record specific_scraper sch s) = Return None ->
    exists info s',
      Scraper.scrape_school record specific_scraper now sch s
      = (Return (Scraper.Universal record (Scraper.to_dict info)), s')
      /\ Scraper.name info = n
      /\ Scraper.link info = l
      /\ Forall2 (field_text sch) (map fst Scraper.assignments) (texts info)
      /\ Scraper.notes info
         = ("Scraped at "
            ++ now (world (snd (Scraper.school_specific
                                  record specific_scraper sch s))))%string.
Proof.
  intros E record specific_scraper now sch s n l Hn Hl Hspec.
  unfold Scraper.scrape_school, bind.
  destruct (Scraper.school_specific record specific_scraper sch s)
    as [[r|e] s1]; simpl in Hspec; [|discriminate].
  inversion Hspec; subst r. unfold Scraper.item. rewrite Hn, Hl.
  unfold ret. cbv zeta. cbn [snd].
  match goal with
  | |- context [Scraper.fill now sch Scraper.assignments ?i s1] =>
      destruct (fill_assignments now sch i s1)
        as (t1 & t2 & t3 & t4 & t5 & t6 & s' & Hfill & Htexts);
      rewrite Hfill
  end.
  eexists _, s'. split; [reflexivity|].
  cbn [Scraper.name Scraper.link Scraper.notes].
  repeat split. exact Htexts.
Qed.

(** X14 at an entry with one fee URL, on a site that serves an empty page *)
Lemma universal_record_holds_six_texts_witness :
  let s := @Fixture.start Fixture.empty_site 0 in
  exists info s',
    Scraper.scrape_school (E := Fixture.empty_site) unit
      Fixture.no_specific_scraper Fixture.clock Fixture.sample_school s
    = (Return (Scraper.Universal unit (Scraper.to_dict info)), s')
    /\ Scraper.name info = Scraper.Url "Sample School"
    /\ Scraper.link info = Scraper.Url "https://example.org"
    /\ Forall2 (field_text Fixture.sample_school)
               (map fst Scraper.assignments) (texts info)
    /\ Scraper.notes info
       = ("Scraped at "
          ++ Fixture.clock
               (world (snd (Scraper.school_specific (E := Fixture.empty_site)
                              unit Fixture.no_specific_scraper
                              Fixture.sample_school s))))%string.
Proof.
  exact (universal_record_holds_six_texts Fixture.empty_site unit
           Fixture.no_specific_scraper Fixture.clock Fixture.sample_school
           (@Fixture.start Fixture.empty_site 0)
           (Scraper.Url "Sample School") (Scraper.Url "https://example.org")
           eq_refl eq_refl eq_refl).
Defined.

(** X15.  [scrape_school] lets no failure of a school's own scraper, of a
    fetch or of an extraction through: it raises only when that scraper
    did not return and the catalog entry lacks its name or its link, and
    then with the [KeyError] of the missing key. *)
Theorem scrape_school_raises_only_for_a_missing_key :
  forall (E : Environment) (record : Type)
         (specific_scraper : string -> string -> Scraper.school -> M record)
         (now : World -> string) (sch : Scraper.school) (s s' : state)
         (e : exn),
    Scraper.scrape_school record specific_scraper now sch s = (Raise e, s') ->
    fst (Scraper.school_specific record specific_scraper sch s) = Return None
    /\ ((Py.dict_get "name" sch = None /\ e = Exception "KeyError" "'name'")
        \/ (Py.dict_get "name" sch <> None
            /\ Py.dict_get "link" sch = None
            /\ e = Exception "KeyError" "'link'")).
Proof.
  intros E record specific_scraper now sch s s' e H.
  unfold Scraper.scrape_school, bind in H.
  destruct (school_specific_returns record specific_scraper sch s)
    as (r & s1 & Hspec).
  rewrite Hspec in H. rewrite Hspec. cbn [fst].
  destruct r as [rec|]; [discriminate|].
  split; [reflexivity|]. unfold Scraper.item in H.
  destruct (Py.dict_get "name" sch) as [n|].
  - right. split; [discriminate|].
    destruct (Py.dict_get "link" sch) as [l|].
    + exfalso. unfold ret in H. cbv zeta in H.
      match type of H with
      | context [Scraper.fill now sch Scraper.assignments ?i s1] =>
          destruct (fill_assignments now sch i s1)
            as (t1 & t2 & t3 & t4 & t5 & t6 & s2 & Hfill & _);
          rewrite Hfill in H
      end.
      discriminate.
    + unfold ret, raise in H. inversion H. split; reflexivity.
  - left. unfold raise in H. inversion H. split; reflexivity.
Qed.

(** X15 at an entry without a link *)
Lemma scrape_school_raises_only_for_a_missing_key_witness :
  let s := @Fixture.start Fixture.empty_site 0 in
  Scraper.scrape_school (E := Fixture.empty_site) unit
    Fixture.no_specific_scraper Fixture.clock Fixture.unlinked_school s
  = (Raise (Exception "KeyError" "'link'"), s)
  /\ fst (Scraper.school_specific (E := Fixture.empty_site) unit
            Fixture.no_specific_scraper Fixture.unlinked_school s)
     = Return None
  /\ ((Py.dict_get "name" Fixture.unlinked_school = None
       /\ Exception "KeyError" "'link'" = Exception "KeyError" "'name'")
      \/ (Py.dict_get "name" Fixture.unlinked_school <> None
          /\ Py.dict_get "link" Fixture.unlinked_school = None
          /\ Exception "KeyError" "'link'" = Exception "KeyError" "'link'")).
Proof.
  split; [reflexivity|].
  exact (scrape_school_raises_only_for_a_missing_key Fixture.empty_site unit
           Fixture.no_specific_scraper Fixture.clock Fixture.unlinked_school
           (@Fixture.start Fixture.empty_site 0) _ _ eq_refl).
Defined.

(** ** The data sets of the data manager *)

Lemma string_app_assoc : forall a b c : string,
  ((a ++ b) ++ c = a ++ (b ++ c))%string.
Proof.
  induction a as [|x a IH]; intros b c; simpl.
  - reflexivity.
  - rewrite IH. reflexivity.
Qed.

Lemma prefix_app : forall p r : string, String.prefix p (p ++ r) = true.
Proof.
  induction p as [|c p IH]; intros r; simpl.
  - destruct r; reflexivity.
  - destruct (ascii_dec c c); [apply IH | congruence].
Qed.

Lemma endswith_app : forall a suf : string, Py.endswith suf (a ++ suf) = true.
Proof.
  induction a as [|c a IH]; intros suf.
  - destruct suf; cbn [append Py.endswith]; rewrite String.eqb_refl;
      reflexivity.
  - cbn [append Py.endswith]. rewrite IH. apply orb_true_r.
Qed.

Lemma replace_aux_skip : forall old new p rest,
  Py.replace_aux old new (String.length p) (p ++ rest)
  = Py.replace_aux old new 0 rest.
Proof.
  intros old new p. induction p as [|c p IH]; intros rest; simpl.
  - reflexivity.
  - apply IH.
Qed.

(** an occurrence at the start is replaced and the rest is gone through *)
Lemma replace_prefix : forall c old rest,
  Py.replace (String c old) "" (String c old ++ rest)
  = Py.replace (String c old) "" rest.
Proof.
  intros c old rest. unfold Py.replace.
  cbn [append Py.replace_aux].
  change (String c (old ++ rest)) with (String c old ++ rest)%string.
  rewrite prefix_app. cbn [String.length Nat.sub append].
  rewrite Nat.sub_0_r. apply replace_aux_skip.
Qed.

Lemma replace_absent : forall old new s,
  Py.contains old s = false -> Py.replace old new s = s.
Proof.
  intros old new s. unfold Py.replace.
  induction s as [|c s IH]; intros H.
  - reflexivity.
  - cbn [Py.contains] in H. cbn [Py.replace_aux].
    destruct (String.prefix old (String c s)); [discriminate|].
    rewrite (IH H). reflexivity.
Qed.

Lemma replace_json_suffix : forall t,
  no_dot t = true -> Py.replace ".json" "" (t ++ ".json") = t.
Proof.
  unfold Py.replace. induction t as [|c t IH]; intros H.
  - reflexivity.
  - cbn [no_dot] in H. apply andb_true_iff in H. destruct H as [Hc Ht].
    cbn [append Py.replace_aux String.prefix].
    destruct (ascii_dec "."%char c) as [Heq|Hne].
    + subst c. discriminate.
    + rewrite (IH Ht). reflexivity.
Qed.

Lemma filter_nil_all : forall (A : Type) (p : A -> bool) l,
  filter p l = [] -> forall x, In x l -> p x = false.
Proof.
  intros A p l H x Hx. destruct (p x) eqn:Hp; [|reflexivity].
  assert (In x (filter p l)) as Hin by (apply filter_In; split; assumption).
  rewrite H in Hin. destruct Hin.
Qed.

(** X16.  [load_latest_results] opens a file of the data directory whose
    name starts with the prefix and ends in [.json], one whose name is
    not smaller, in the order of the code points, than that of any other
    such file; it returns [None] exactly when the directory holds no
    such file. *)
Theorem latest_file_is_the_greatest_match :
  forall (prefix : string) (listing : list string),
    match DataManager.latest_file prefix listing with
    | Some f =>
        In f listing
        /\ dataset_file prefix f = true
        /\ forall g, In g listing -> dataset_file prefix g = true ->
                     String.leb g f = true
    | None => forall g, In g listing -> dataset_file prefix g = false
    end.
Proof.
  intros prefix listing. unfold DataManager.latest_file.
  destruct (DataManager.json_files prefix listing) as [|f0 fs] eqn:Hfiles.
  - simpl. intros g Hg. unfold DataManager.json_files in Hfiles.
    apply (filter_nil_all _ _ _ Hfiles g Hg).
  - cbn [Py.nonempty negb]. unfold Py.sorted_strings_reverse.
    pose proof (sort_le_perm (fun x y => String.leb y x) (f0 :: fs)) as Hperm.
    pose proof (sort_le_sorted (fun x y => String.leb y x)
                  (fun x y => String.leb_total y x)
                  (fun x y z Hxy Hyz => string_leb_trans z y x Hyz Hxy)
                  (f0 :: fs)) as Hsorted.
    destruct (Py.sort_le (fun x y => String.leb y x) (f0 :: fs))
      as [|f rest] eqn:Hsort.
    + apply Permutation_sym, Permutation_nil in Hperm. discriminate.
    + cbn [hd_error].
      assert (In f (DataManager.json_files prefix listing)) as Hf.
      { rewrite Hfiles.
        apply (Permutation_in _ (Permutation_sym Hperm)). left. reflexivity. }
      unfold DataManager.json_files in Hf. apply filter_In in Hf.
      destruct Hf as [Hin Hmatch]. split; [exact Hin|].
      split; [exact Hmatch|].
      intros g Hg Hgm.
      assert (In g (f :: rest)) as Hg'.
      { apply (Permutation_in _ Hperm). rewrite <- Hfiles.
        unfold DataManager.json_files. apply filter_In. split; assumption. }
      apply StronglySorted_inv in Hsorted. destruct Hsorted as [_ Hall].
      destruct Hg' as [Hg'|Hg'].
      * subst g. destruct (String.leb_total f f); assumption.
      * rewrite Forall_forall in Hall. apply Hall, Hg'.
Qed.

(** X17.  A data set that [save_results] has written is listed by
    [get_available_datasets] under its time stamp, provided the time
    stamp holds no full stop and the text [<prefix>_] does not occur in
    [<time stamp>.json] (as with the stamps [%Y%m%d_%H%M%S] and the
    prefix [school_data]). *)
Theorem saved_dataset_is_listed_by_its_timestamp :
  forall (prefix timestamp : string) (listing : list string),
    no_dot timestamp = true ->
    Py.contains (prefix ++ "_") (timestamp ++ ".json") = false ->
    incl (DataManager.saved_files prefix timestamp) listing ->
    In timestamp (DataManager.get_available_datasets prefix listing).
Proof.
  intros prefix timestamp listing Hdot Habsent Hsaved.
  unfold DataManager.get_available_datasets, Py.sorted_strings_reverse.
  apply (Permutation_in _ (sort_le_perm _ _)).
  apply in_map_iff.
  exists (DataManager.file_base prefix timestamp ++ ".json")%string.
  assert (Hname : (DataManager.file_base prefix timestamp ++ ".json"
                   = (prefix ++ "_") ++ (timestamp ++ ".json"))%string).
  { unfold DataManager.file_base.
    rewrite <- (string_app_assoc prefix "_" timestamp).
    apply string_app_assoc. }
  split.
  - rewrite Hname.
    destruct (prefix ++ "_")%string as [|c old] eqn:Hold.
    + destruct prefix; discriminate.
    + rewrite replace_prefix.
      rewrite (replace_absent _ _ _ Habsent).
      apply replace_json_suffix, Hdot.
  - unfold DataManager.json_files. apply filter_In. split.
    + apply Hsaved. right. left. reflexivity.
    + apply andb_true_iff. split.
      * unfold Py.startswith, DataManager.file_base.
        rewrite string_app_assoc. apply prefix_app.
      * apply endswith_app.
Qed.

(** X17 at the default prefix and a time stamp of the format of line 30 *)
Lemma saved_dataset_is_listed_by_its_timestamp_witness :
  no_dot "20250101_120000" = true
  /\ Py.contains "school_data_" "20250101_120000.json" = false
  /\ In "20250101_120000"
        (DataManager.get_available_datasets "school_data"
           (DataManager.saved_files "school_data" "20250101_120000")).
Proof.
  split; [reflexivity|]. split; [reflexivity|].
  apply (saved_dataset_is_listed_by_its_timestamp "school_data"
           "20250101_120000"
           (DataManager.saved_files "school_data" "20250101_120000")).
  - reflexivity.
  - reflexivity.
  - intros f Hf. exact Hf.
Defined.

(** ** The programs of the ISM curriculum *)

Lemma dict_set_entries : forall (V : Type) (Q : string * V -> Prop) k v
    (d : Py.dict V),
  Q (k, v) -> Forall Q d -> Forall Q (Py.dict_set k v d).
Proof.
  intros V Q k v d Hv. induction d as [|[k' v'] d IH]; simpl; intros Hd.
  - repeat constructor. exact Hv.
  - inversion Hd as [|? ? Hk' Hd']; subst.
    destruct (String.eqb k k') eqn:Hk.
    + apply String.eqb_eq in Hk. subst k'. constructor; assumption.
    + constructor; [exact Hk' | apply IH, Hd'].
Qed.

Lemma cur_scan_row_entries : forall st cells,
  Forall (fun kv => program_entry (fun s => s) "Regular Program" kv
                    /\ no_header kv) (fst (snd st)) ->
  Forall (fun kv => program_entry (fun s => s)
                      "Specialized Learning Support Program" kv
                    /\ no_header kv) (snd (snd st)) ->
  Forall (fun kv => program_entry (fun s => s) "Regular Program" kv
                    /\ no_header kv) (fst (snd (ISM.cur_scan_row st cells)))
  /\ Forall (fun kv => program_entry (fun s => s)
                         "Specialized Learning Support Program" kv
                       /\ no_header kv)
            (snd (snd (ISM.cur_scan_row st cells))).
Proof.
  intros [cur [reg spec]] cells Hr Hs. cbn [fst snd] in Hr, Hs.
  unfold ISM.cur_scan_row.
  destruct (Nat.ltb (List.length cells) 1); [split; assumption|].
  cbv zeta.
  destruct (negb (Py.truthy (ISM.cell 0 cells))); [split; assumption|].
  destruct (ISM.is_regular_header_alt (ISM.cell 0 cells));
    [split; assumption|].
  destruct (ISM.is_specialized_header (ISM.cell 0 cells));
    [split; assumption|].
  destruct cur as [sec|]; [|split; assumption].
  destruct (negb (Py.truthy (Py.strip (ISM.cell 0 cells)))
            || Py.contains "PROGRAM" (Py.upper (Py.strip (ISM.cell 0 cells))))
    eqn:Hname; [split; assumption|].
  apply orb_false_iff in Hname. destruct Hname as [Ht Hc].
  apply negb_false_iff in Ht.
  destruct sec; cbn [ISM.attribute_program fst snd]; split;
    try assumption;
    apply dict_set_entries; try assumption;
    (split; [repeat split; assumption | exact Hc]).
Qed.

Lemma add_program_entries : forall d li,
  Forall (program_entry (fun s => s) "Additional Support Program") d ->
  Forall (program_entry (fun s => s) "Additional Support Program")
         (ISM.add_program d li).
Proof.
  intros d li Hd. unfold ISM.add_program. cbv zeta.
  match goal with
  | |- context [if Py.truthy ?n then _ else _] =>
      destruct (Py.truthy n) eqn:Ht
  end; [|exact Hd].
  apply dict_set_entries; [|exact Hd].
  repeat split. exact Ht.
Qed.

Lemma tidy_entries : forall (Q : string * ISM.program -> Prop) ty d,
  Forall (fun kv => program_entry (fun s => s) ty kv /\ Q (fst kv, snd kv)) d ->
  Forall (fun kv => program_entry tidied ty kv) (ISM.tidy d).
Proof.
  intros Q ty d H. unfold ISM.tidy. apply Forall_forall.
  intros kv Hin. apply in_map_iff in Hin. destruct Hin as [kv0 [Heq Hin]].
  rewrite Forall_forall in H. destruct (H kv0 Hin) as [[H1 [H2 H3]] _].
  subst kv. unfold program_entry, tidied. cbn [fst snd ISM.type ISM.description].
  rewrite H2. repeat split; assumption.
Qed.

Lemma tidy_keys : forall d, Py.keys (ISM.tidy d) = Py.keys d.
Proof.
  intros d. unfold ISM.tidy, Py.keys. rewrite map_map. reflexivity.
Qed.

(** X18.  Every program that [scrape_curriculum] reports carries the type
    of the dictionary it is in, a description that is nothing but its own
    name with the whitespace cleaned up, and a name that is not empty.
    The curriculum extractor, unlike the fee extractor, always succeeds:
    also for a page without a table. *)
Theorem curriculum_entries_are_typed_by_their_section :
  forall soup : element,
  exists d,
    ISM.curriculum_of_page soup = success d
    /\ Forall (program_entry tidied "Regular Program")
              (ISM.cur_regular_program d)
    /\ Forall (program_entry tidied "Specialized Learning Support Program")
              (ISM.cur_specialized_program d)
    /\ Forall (program_entry tidied "Additional Support Program")
              (ISM.additional_programs d).
Proof.
  intros soup. unfold ISM.curriculum_of_page. cbv zeta.
  eexists. split; [reflexivity|].
  cbn [ISM.cur_regular_program ISM.cur_specialized_program
       ISM.additional_programs].
  set (inv := fun d : Py.dict ISM.program * Py.dict ISM.program =>
                Forall (fun kv => program_entry (fun s => s)
                                    "Regular Program" kv /\ no_header kv)
                       (fst d)
                /\ Forall (fun kv => program_entry (fun s => s)
                                       "Specialized Learning Support Program"
                                       kv /\ no_header kv) (snd d)).
  assert (Hscan : forall rows d0, inv d0 ->
                    inv (snd (fold_left ISM.cur_scan_row rows (None, d0)))).
  { intros rows d0 Hd0.
    apply (fold_invariant _ _ (fun st => inv (snd st))).
    - intros st cells _ [Hr Hs]. apply cur_scan_row_entries; assumption.
    - exact Hd0. }
  assert (H0 : inv ([], [])) by (split; constructor).
  match goal with
  | |- Forall _ (ISM.tidy (fst ?d)) /\ _ => assert (Hd : inv d)
  end.
  { match goal with
    | |- inv (if _ then ISM.cur_scan_tables _ ?d1 else _) =>
        assert (H1 : inv d1)
    end.
    { destruct (select_one ISM.table_table soup) as [table|];
        [apply Hscan, H0 | exact H0]. }
    destruct (_ && _); [|exact H1].
    unfold ISM.cur_scan_tables.
    apply (fold_invariant _ _ inv); [|exact H1].
    intros d1 rows _ Hd1. apply Hscan, Hd1. }
  destruct Hd as [Hr Hs]. split; [|split].
  - apply (tidy_entries (fun kv => no_header kv)).
    eapply Forall_impl; [|exact Hr]. intros [k v] H. exact H.
  - apply (tidy_entries (fun kv => no_header kv)).
    eapply Forall_impl; [|exact Hs]. intros [k v] H. exact H.
  - apply (tidy_entries (fun _ => True)).
    assert (Hextra : forall extra,
               Forall (program_entry (fun s => s) "Additional Support Program")
                      extra ->
               Forall (fun kv =>
                         program_entry (fun s => s)
                           "Additional Support Program" kv /\ True) extra).
    { intros extra H. eapply Forall_impl; [|exact H]. intros kv Hkv.
      split; [exact Hkv | exact I]. }
    apply Hextra.
    destruct (select_one ISM.rich_text_content soup) as [content_section|];
      [|constructor].
    unfold ISM.additional_programs_of. cbv zeta.
    destruct (find _ _) as [heading|]; [|constructor].
    destruct (find_next "ul" heading) as [ul|]; [|constructor].
    apply (fold_invariant _ _
             (Forall (program_entry (fun s => s)
                        "Additional Support Program"))); [|constructor].
    intros d li _ Hd. apply add_program_entries, Hd.
Qed.

(** ** The choice of the dispatcher *)

(** X19.  The scraper that the dispatcher chooses for a school is a class
    of the registry, reported with the key under which it is registered
    and which passes the test of the rule that is reported; the rules
    are tried in the order direct match, initials, partial match, so that
    a rule is reported only when no key passes an earlier one.  The
    default scraper is chosen only when no key of the registry passes any
    of the three tests. *)
Theorem chosen_scraper_is_registered_or_default :
  forall (scraper_class : Type) (default : scraper_class)
         (scrapers : App.registry scraper_class) (school : string),
    match App.choose scraper_class default scrapers school with
    | (App.DirectMatch key, cls) =>
        In (key, cls) scrapers
        /\ Py.contains (Py.lower key) (Py.lower (Py.remove_spaces school))
           = true
    | (App.InitialsMatch key, cls) =>
        In (key, cls) scrapers
        /\ Py.lower key = Py.lower (App.initials school)
        /\ App.direct_match scraper_class scrapers school = None
    | (App.PartialMatch key, cls) =>
        In (key, cls) scrapers
        /\ (exists part,
              In part (Py.split (Py.lower school))
              /\ 2 < String.length part
              /\ Py.contains part (Py.lower key) = true)
        /\ App.direct_match scraper_class scrapers school = None
        /\ App.initials_match scraper_class scrapers school = None
    | (App.DefaultScraper, cls) =>
        cls = default
        /\ App.direct_match scraper_class scrapers school = None
        /\ App.initials_match scraper_class scrapers school = None
        /\ App.partial_match scraper_class scrapers school = None
    end.
Proof.
  intros scraper_class default scrapers school. unfold App.choose.
  destruct (App.direct_match scraper_class scrapers school)
    as [[key cls]|] eqn:Hd.
  { unfold App.direct_match in Hd. cbv zeta in Hd.
    apply find_some in Hd. exact Hd. }
  destruct (App.initials_match scraper_class scrapers school)
    as [[key cls]|] eqn:Hi.
  { unfold App.initials_match in Hi. apply find_some in Hi.
    destruct Hi as [Hin Heq]. apply String.eqb_eq in Heq.
    repeat split; assumption. }
  destruct (App.partial_match scraper_class scrapers school)
    as [[key cls]|] eqn:Hp.
  { unfold App.partial_match in Hp. cbv zeta in Hp. apply find_some in Hp.
    destruct Hp as [Hin Hex]. apply existsb_exists in Hex.
    destruct Hex as [part [Hpart Htest]].
    apply andb_true_iff in Htest. destruct Htest as [Hlen Hc].
    apply Nat.ltb_lt in Hlen.
    split; [exact Hin|]. split; [|split; reflexivity].
    exists part. repeat split; assumption. }
  repeat split.
Qed.
